(** * releng: revision resolution and checkout consistency

    A shallow embedding of [releng/integration.py] (classes [RefSpec],
    [GerritChange], [GerritIntegration], [ProjectInfo], [ProjectsManager],
    [MatrixRunInfo], [MatrixBuildInfo], [StatusReporter]), the properties
    of it that the specification states, and further properties of the
    module.

    Python [str] values are Rocq strings whose characters are code points
    below 256.  Exceptions are values of [exn]; a computation that can
    raise returns a [result].  Methods that mutate [self] are state
    transformers that also give back the state reached when they raise. *)

From Stdlib Require Import String Ascii List Bool Arith ZArith Lia.
From stdpp Require Import base option list strings gmap.
Import ListNotations.
Open Scope string_scope.
Open Scope nat_scope.

(** ** Python strings *)

Module PyStr.

Definition code (c : ascii) : nat := nat_of_ascii c.

(** [str.isspace] on one character with code point below 256. *)
Definition is_space (c : ascii) : bool :=
  let n := code c in
  ((9 <=? n) && (n <=? 13)) || ((28 <=? n) && (n <=? 32))
  || (n =? 133) || (n =? 160).

(** Line boundaries of [str.splitlines] below code point 256. *)
Definition is_linebreak (c : ascii) : bool :=
  let n := code c in
  ((10 <=? n) && (n <=? 13)) || ((28 <=? n) && (n <=? 30)) || (n =? 133).

Definition len (s : string) : nat := String.length s.

(** [s.startswith(p)] *)
Definition startswith (s p : string) : bool := String.prefix p s.

Fixpoint lstrip (s : string) : string :=
  match s with
  | EmptyString => EmptyString
  | String c s' => if is_space c then lstrip s' else s
  end.

Fixpoint rstrip (s : string) : string :=
  match s with
  | EmptyString => EmptyString
  | String c s' =>
      match rstrip s' with
      | EmptyString => if is_space c then EmptyString else String c EmptyString
      | r => String c r
      end
  end.

(** [s.strip()] *)
Definition strip (s : string) : string := rstrip (lstrip s).

(** Longest prefix without whitespace, and what follows it. *)
Fixpoint take_word (s : string) : string * string :=
  match s with
  | EmptyString => (EmptyString, EmptyString)
  | String c s' =>
      if is_space c then (EmptyString, s)
      else let (w, rest) := take_word s' in (String c w, rest)
  end.

(** [s.split(None, 1)]: at most one split at a run of whitespace; leading
    whitespace is dropped, and so is a remainder made of whitespace only. *)
Definition split_ws_1 (s : string) : list string :=
  match lstrip s with
  | EmptyString => []
  | s1 =>
      let (w, rest) := take_word s1 in
      match lstrip rest with
      | EmptyString => [w]
      | r => [w; r]
      end
  end.

(** First field and remaining fields of [s.split(sep)]. *)
Fixpoint split_fields (sep : ascii) (s : string) : string * list string :=
  match s with
  | EmptyString => (EmptyString, [])
  | String c s' =>
      let (w, ws) := split_fields sep s' in
      if Ascii.eqb c sep then (EmptyString, w :: ws) else (String c w, ws)
  end.

(** [s.split(sep)] for a separator of one character. *)
Definition split (sep : ascii) (s : string) : list string :=
  let (w, ws) := split_fields sep s in w :: ws.

(** [s.splitlines()] *)
Fixpoint splitlines (s : string) : list string :=
  match s with
  | EmptyString => []
  | String c s' =>
      if is_linebreak c then
        match s' with
        | String c' s'' =>
            if (code c =? 13) && (code c' =? 10)
            then EmptyString :: splitlines s''
            else EmptyString :: splitlines s'
        | EmptyString => [EmptyString]
        end
      else
        match splitlines s' with
        | [] => [String c EmptyString]
        | l :: ls => String c l :: ls
        end
  end.

Definition lower_char (c : ascii) : ascii :=
  let n := code c in
  if ((65 <=? n) && (n <=? 90))
     || ((192 <=? n) && (n <=? 222) && negb (n =? 215))
  then ascii_of_nat (n + 32) else c.

Definition upper_char (c : ascii) : ascii :=
  let n := code c in
  if (97 <=? n) && (n <=? 122) then ascii_of_nat (n - 32) else c.

Fixpoint map_chars (f : ascii -> ascii) (s : string) : string :=
  match s with
  | EmptyString => EmptyString
  | String c s' => String (f c) (map_chars f s')
  end.

(** [s.lower()] *)
Definition lower : string -> string := map_chars lower_char.

(** [s.upper()]; only applied to repository names, which are ASCII. *)
Definition upper : string -> string := map_chars upper_char.

(** Truth value of an optional string: [None] and [''] are false. *)
Definition truthy (o : option string) : bool :=
  match o with
  | Some s => negb (String.eqb s EmptyString)
  | None => false
  end.

(** [os.path.join(a, b)] of [posixpath] for a relative [b]. *)
Definition path_join (a b : string) : string :=
  if String.eqb a EmptyString then b
  else if String.eqb (substring (len a - 1) 1 a) "/" then a ++ b
  else a ++ "/" ++ b.

(** [s[n:]] *)
Fixpoint slice_from (n : nat) (s : string) : string :=
  match n, s with
  | O, _ => s
  | S n', String _ s' => slice_from n' s'
  | S _, EmptyString => EmptyString
  end.

(** [s] padded with spaces on the right to [n] characters, as the format
    [{:n}] does with a string. *)
Fixpoint spaces (n : nat) : string :=
  match n with
  | O => EmptyString
  | S n' => String " " (spaces n')
  end.

Definition ljust (n : nat) (s : string) : string := s ++ spaces (n - len s).

(** [sep.join(l)] *)
Fixpoint join (sep : string) (l : list string) : string :=
  match l with
  | [] => EmptyString
  | [x] => x
  | x :: rest => x ++ sep ++ join sep rest
  end.

(** [s.split()]: the fields between runs of whitespace.  [fuel] bounds
    the number of fields, and the length of [s] is enough. *)
Fixpoint split_ws_fuel (fuel : nat) (s : string) : list string :=
  match fuel with
  | O => []
  | S fuel' =>
      match lstrip s with
      | EmptyString => []
      | s1 => let (w, rest) := take_word s1 in w :: split_ws_fuel fuel' rest
      end
  end.

Definition split_ws (s : string) : list string := split_ws_fuel (S (len s)) s.

(** [c in s] for a character [c] *)
Fixpoint contains (c : ascii) (s : string) : bool :=
  match s with
  | EmptyString => false
  | String d s' => Ascii.eqb d c || contains c s'
  end.

End PyStr.

(** ** Exceptions and results *)

Inductive exn : Type :=
| AssertionError
| NameError (name : string)
| AttributeError (attr : string)
| TypeError (what : string)
| KeyError (key : string)
| IndexError
| BuildError (msg : string)
| ConfigurationError (msg : string)
| ExternalError (what : string).

Inductive result (A : Type) : Type :=
| Return (a : A)
| Raise (e : exn).
Arguments Return {A} a.
Arguments Raise {A} e.

Definition is_return {A} (r : result A) : bool :=
  match r with Return _ => true | Raise _ => false end.

Definition rbind {A B} (r : result A) (k : A -> result B) : result B :=
  match r with
  | Return a => k a
  | Raise e => Raise e
  end.


(** ** State transformers

    [M St A] is a computation over a state [St] that returns an [A] or
    raises.  The state is given back in both cases: statements executed
    before a [raise] keep their effect. *)

Definition M (St A : Type) : Type := St -> result A * St.

Definition ret {St A} (a : A) : M St A := fun s => (Return a, s).

Definition raise {St A} (e : exn) : M St A := fun s => (Raise e, s).

Definition bind {St A B} (m : M St A) (k : A -> M St B) : M St B :=
  fun s =>
    match m s with
    | (Return a, s') => k a s'
    | (Raise e, s') => (Raise e, s')
    end.

Definition lift {St A} (r : result A) : M St A := fun s => (r, s).

Definition get {St} : M St St := fun s => (Return s, s).

Definition modify {St} (f : St -> St) : M St unit := fun s => (Return tt, f s).

Notation "x <- m ;; k" := (bind m (fun x => k))
  (at level 100, m at next level, right associativity).
Notation "m ;;; k" := (bind m (fun _ => k))
  (at level 100, right associativity).

(** Runs [m] on the first component of a pair state. *)
Definition on_fst {S1 S2 A} (m : M S1 A) : M (S1 * S2) A :=
  fun s => let (r, s1) := m (fst s) in (r, (s1, snd s)).

(** Runs [m] on the second component of a pair state. *)
Definition on_snd {S1 S2 A} (m : M S2 A) : M (S1 * S2) A :=
  fun s => let (r, s2) := m (snd s) in (r, (fst s, s2)).

(** [for x in l: body x] *)
Fixpoint for_each {St A} (l : list A) (body : A -> M St unit) : M St unit :=
  match l with
  | [] => ret tt
  | x :: l' => body x ;;; for_each l' body
  end.

(** ** Values and the world outside the registry *)

(** Values that the hash fields of a [ProjectInfo] can hold: [None], a
    string, or an exception instance.  Exception classes do not define
    [__eq__], so instances compare by identity: [id] is the address. *)
Inductive pyval : Type :=
| PNone
| PStr (s : string)
| PExc (id : nat) (e : exn).

(** [a == b] *)
Definition py_eq (a b : pyval) : bool :=
  match a, b with
  | PNone, PNone => true
  | PStr s, PStr t => String.eqb s t
  | PExc i _, PExc j _ => i =? j
  | _, _ => false
  end.

(** [bool(a)] *)
Definition py_truthy (a : pyval) : bool :=
  match a with
  | PNone => false
  | PStr s => negb (String.eqb s EmptyString)
  | PExc _ _ => true
  end.

Definition of_opt (o : option string) : pyval :=
  match o with Some s => PStr s | None => PNone end.

(** Lines printed to the console, oldest first, and the next free address
    for a newly created exception instance. *)
Record World : Type := mkWorld {
  console : list string;
  next_id : nat
}.

Definition print (line : string) : M World unit :=
  modify (fun w => mkWorld (console w ++ [line]) (next_id w)).

(** [cls(msg)]: a new instance at a fresh address. *)
Definition new_exception (e : exn) : M World pyval :=
  fun w => (Return (PExc (next_id w) e), mkWorld (console w) (S (next_id w))).

(** The part of the executor that [RefSpec] uses:
    [utils.read_property_file(executor, path)], which reads a file of
    [KEY = value] lines into a dict or raises. *)
Record Executor : Type := mkExecutor {
  read_property_file : string -> result (gmap string string)
}.

(** Decoded JSON. *)
#[local] Unset Elimination Schemes.
Inductive json : Type :=
| JNull
| JBool (b : bool)
| JNum (n : Z)
| JStr (s : string)
| JArr (items : list json)
| JObj (fields : list (string * json)).
#[local] Set Elimination Schemes.

(** Behaviour of the Python library that is taken as given: [json.loads],
    the builtin [int], and the order in which a [for] visits a [set] of
    strings ([set_iter] is given the distinct elements).  The order is
    arbitrary; [set_iter_ok] says that it visits every element once. *)
Record PyLib : Type := mkPyLib {
  json_loads : string -> result json;
  py_int : json -> result Z;
  set_iter : list string -> list string
}.

Definition set_iter_ok (L : PyLib) : Prop :=
  forall l : list string, Permutation (set_iter L l) l.

(** [releng/common.py] is not among the sources at hand.  Repositories
    are strings there ([project.upper()] is applied to them); the code
    uses the list [Project._values], the member [Project.RELENG] and
    [Project.parse]. *)
Record Common : Type := mkCommon {
  Project_values : list string;
  Project_RELENG : string;
  Project_parse : json -> result string
}.

(** ** class RefSpec *)

Module RefSpec.

Record t : Type := mk {
  _value : string;
  _remote : string;
  branch : option string;
  change_number : option string;
  _tar_props : option (gmap string string)
}.

Definition is_tarball_refspec (value : option string) : bool :=
  match value with
  | None => false
  | Some v => PyStr.startswith v "tarballs/"
  end.

(** [RefSpec(value, remote_hash=None, executor=None)] *)
Definition init (value : string) (remote_hash : option string)
    (executor : option Executor) : result t :=
  let remote :=
    match remote_hash with
    | Some h => if PyStr.truthy remote_hash then h else value
    | None => value
    end in
  if is_tarball_refspec (Some value) then
    match executor with
    | None => Raise AssertionError
    | Some ex =>
        let prop_path := PyStr.path_join value "package-info.log" in
        rbind (read_property_file ex prop_path) (fun props =>
        match props !! "HEAD_HASH" with
        | None => Raise (KeyError "HEAD_HASH")
        | Some h => Return (mk value h None None (Some props))
        end)
    end
  else if PyStr.startswith value "refs/changes/" then
    match PyStr.split "/" value !! 3 with
    | None => Raise IndexError
    | Some c => Return (mk value remote None (Some c) None)
    end
  else if PyStr.startswith value "refs/heads/" then
    match PyStr.split "/" value !! 2 with
    | None => Raise IndexError
    | Some b => Return (mk value remote (Some b) None None)
    end
  else Return (mk value remote None None None).

Definition is_no_op (r : t) : bool := String.eqb (_value r) "HEAD".

Definition is_static (r : t) : bool := PyStr.startswith (_value r) "refs/changes/".

Definition fetch (r : t) : string := _value r.

Definition checkout (r : t) : string :=
  if String.eqb (_remote r) (_value r) then "FETCH_HEAD" else _remote r.

Definition is_tarball (r : t) : bool :=
  match _tar_props r with Some _ => true | None => false end.

Definition str (r : t) : string := _value r.

(** The variants of the specification, read off the properties above:
    a locator that is no no-op, no tarball and not static is a branch
    locator (with or without a branch name). *)
Inductive variant : Type := Branch | Static | Tarball | NoOp.

Definition is_branch (r : t) : bool :=
  negb (is_no_op r || is_tarball r || is_static r).

Definition active (r : t) : list variant :=
  (if is_branch r then [Branch] else [])
  ++ (if is_static r then [Static] else [])
  ++ (if is_tarball r then [Tarball] else [])
  ++ (if is_no_op r then [NoOp] else []).

(** A checkout target of its own: [checkout] does not give ['FETCH_HEAD']
    for want of one. *)
Definition has_static_hash (r : t) : bool :=
  negb (String.eqb (_remote r) (_value r)).

(** The property [tarball_props] *)
Definition tarball_props (r : t) : result (gmap string string) :=
  if is_tarball r then
    match _tar_props r with
    | Some props => Return props
    | None => Raise AssertionError
    end
  else Raise AssertionError.

(** [os.path.join(a, b)] of [posixpath]: an absolute [b] stands alone. *)
Definition path_join_any (a b : string) : string :=
  if PyStr.startswith b "/" then b else PyStr.path_join a b.

(** The property [tarball_path] *)
Definition tarball_path (r : t) : result string :=
  if is_tarball r then
    match _tar_props r with
    | Some props =>
        match props !! "PACKAGE_FILE_NAME" with
        | Some name => Return (path_join_any (_value r) name)
        | None => Raise (KeyError "PACKAGE_FILE_NAME")
        end
    | None => Raise (AttributeError "__getitem__")
    end
  else Raise AssertionError.

End RefSpec.

(** ** class GerritChange *)

Module GerritChange.

Record t : Type := mk {
  project : string;
  branch : option string;
  number : Z;
  title : option string;
  url : json;
  is_open : json;
  patchnumber : Z;
  refspec : RefSpec.t
}.

Fixpoint assoc (k : string) (fields : list (string * json)) : option json :=
  match fields with
  | [] => None
  | (k', v) :: rest => if String.eqb k k' then Some v else assoc k rest
  end.

(** [d[k]] *)
Definition getitem (d : json) (k : string) : result json :=
  match d with
  | JObj fields =>
      match assoc k fields with
      | Some v => Return v
      | None => Raise (KeyError k)
      end
  | _ => Raise (TypeError "subscript")
  end.

(** A field that Gerrit's schema types as a string, stored as it is.  A
    value of another JSON type is outside this model of the fields and is
    reported as a [TypeError]. *)
Definition str_or_none (v : json) : result (option string) :=
  match v with
  | JNull => Return None
  | JStr s => Return (Some s)
  | _ => Raise (TypeError "str")
  end.

(** The first argument of [RefSpec]: its methods are those of [str]. *)
Definition str_only (v : json) : result string :=
  match v with
  | JStr s => Return s
  | _ => Raise (AttributeError "startswith")
  end.

(** [GerritChange(json_data)] *)
Definition init (C : Common) (L : PyLib) (json_data : json) : result t :=
  rbind (getitem json_data "project") (fun v =>
  rbind (Project_parse C v) (fun project =>
  rbind (getitem json_data "branch") (fun v =>
  rbind (str_or_none v) (fun branch =>
  rbind (getitem json_data "number") (fun v =>
  rbind (py_int L v) (fun number =>
  rbind (getitem json_data "subject") (fun v =>
  rbind (str_or_none v) (fun title =>
  rbind (getitem json_data "url") (fun url =>
  rbind (getitem json_data "open") (fun is_open =>
  rbind (getitem json_data "currentPatchSet") (fun patchset =>
  rbind (getitem patchset "number") (fun v =>
  rbind (py_int L v) (fun patchnumber =>
  rbind (getitem patchset "ref") (fun ref =>
  rbind (getitem patchset "revision") (fun rev =>
  rbind (str_or_none rev) (fun revision =>
  rbind (str_only ref) (fun value =>
  rbind (RefSpec.init value revision None) (fun refspec =>
  Return (mk project branch number title url is_open patchnumber refspec)
  )))))))))))))))))).

End GerritChange.

(** ** class GerritIntegration *)

Module GerritIntegration.

(** [_cmd_runner] stands for [CommandRunner.check_output]: the output of a
    command, or the exception of a failed one. *)
Record t : Type := mk {
  _env : gmap string string;
  _cmd_runner : list string -> result string;
  _user : string;
  _is_windows : bool
}.

Definition _get_ssh_url (g : t) : string := _user g ++ "@gerrit.gromacs.org".

Definition get_git_url (g : t) (project : string) : string :=
  "ssh://" ++ _get_ssh_url g ++ "/" ++ project ++ ".git".

Definition _get_ssh_gerrit_cmd (g : t) (cmdname : string) : list string :=
  ["ssh"; "-p"; "29418"; _get_ssh_url g; "gerrit"; cmdname].

Definition _get_ssh_query_cmd (g : t) : list string :=
  _get_ssh_gerrit_cmd g "query" ++ ["--format=JSON"].

Definition ls_remote_cmd (g : t) (project : string) (refspec : RefSpec.t)
    : list string :=
  ["git"; "ls-remote"; get_git_url g project; RefSpec.fetch refspec].

(** [get_remote_hash(project, refspec)].  The [BuildError] of the short
    output is created and handed to [return]. *)
Definition get_remote_hash (g : t) (project : string) (refspec : RefSpec.t)
    : M World pyval :=
  out <- lift (_cmd_runner g (ls_remote_cmd g project refspec)) ;;
  let output := PyStr.split_ws_1 out in
  if length output <? 2 then
    new_exception
      (BuildError ("failed to find refspec " ++ RefSpec.str refspec
                   ++ " for " ++ project))
  else
    match output !! 0 with
    | Some h => ret (PStr (PyStr.strip h))
    | None => raise IndexError
    end.

Definition get_triggering_project (C : Common) (g : t)
    : result (option string) :=
  match _env g !! "GERRIT_PROJECT" with
  | None => Return None
  | Some gerrit_project =>
      rbind (Project_parse C (JStr gerrit_project)) (fun p => Return (Some p))
  end.

Definition get_triggering_refspec (g : t) : result RefSpec.t :=
  match _env g !! "GERRIT_REFSPEC" with
  | None => Raise (ConfigurationError "GERRIT_REFSPEC not set")
  | Some refspec => RefSpec.init refspec None None
  end.

Definition get_triggering_branch (g : t) : option string :=
  _env g !! "GERRIT_BRANCH".

Definition query_cmd (g : t) (query : string) : list string :=
  _get_ssh_query_cmd g ++ ["--current-patch-set"; "--"; query].

(** The number of changes in an answer to [gerrit query], as
    [query_change] reads it: one line for each change, and a last line of
    statistics. *)
Definition match_count (out : string) : nat := length (PyStr.splitlines out) - 1.

(** What [query_change] does with the first line of the answer. *)
Definition decode_change (C : Common) (L : PyLib) (line : string)
    : result (option GerritChange.t) :=
  rbind (json_loads L line) (fun json_data =>
  rbind (GerritChange.init C L json_data) (fun change =>
  Return (Some change))).

(** [query_change(query, expect_unique=True)] *)
Definition query_change (C : Common) (L : PyLib) (g : t) (query : string)
    (expect_unique : bool) : result (option GerritChange.t) :=
  if _is_windows g then Return None
  else
    rbind (_cmd_runner g (query_cmd g query)) (fun out =>
    let lines := PyStr.splitlines out in
    if length lines <? 2 then
      Raise (BuildError (query ++ " does not match any change"))
    else if (2 <? length lines) && expect_unique then
      Raise (BuildError (query ++ " does not identify a unique change"))
    else
      match lines !! 0 with
      | None => Raise IndexError
      | Some line => decode_change C L line
      end).

End GerritIntegration.

(** The part of the workspace that [ProjectInfo] uses:
    [_get_git_commit_info(project, commit, allow_none)], which gives the
    title and the hash of a commit of the working tree, or raises. *)
Record Workspace : Type := mkWorkspace {
  _get_git_commit_info :
    string -> pyval -> bool -> result (option string * option string)
}.

(** ** class ProjectInfo *)

Module ProjectInfo.

Record t : Type := mk {
  project : string;
  branch : option string;
  refspec : option RefSpec.t;
  head_hash : pyval;
  head_title : option string;
  remote_hash : pyval;
  is_checked_out : bool
}.

Definition with_branch (b : option string) (s : t) : t :=
  mk (project s) b (refspec s) (head_hash s) (head_title s) (remote_hash s)
     (is_checked_out s).

Definition with_refspec (r : option RefSpec.t) (s : t) : t :=
  mk (project s) (branch s) r (head_hash s) (head_title s) (remote_hash s)
     (is_checked_out s).

Definition with_head_hash (h : pyval) (s : t) : t :=
  mk (project s) (branch s) (refspec s) h (head_title s) (remote_hash s)
     (is_checked_out s).

Definition with_head_title (x : option string) (s : t) : t :=
  mk (project s) (branch s) (refspec s) (head_hash s) x (remote_hash s)
     (is_checked_out s).

Definition with_remote_hash (h : pyval) (s : t) : t :=
  mk (project s) (branch s) (refspec s) (head_hash s) (head_title s) h
     (is_checked_out s).

Definition with_is_checked_out (b : bool) (s : t) : t :=
  mk (project s) (branch s) (refspec s) (head_hash s) (head_title s)
     (remote_hash s) b.

(** The property [is_tarball]: [self.refspec and self.refspec.is_tarball]. *)
Definition is_tarball (s : t) : bool :=
  match refspec s with
  | Some r => RefSpec.is_tarball r
  | None => false
  end.

(** [set_branch(branch)] *)
Definition set_branch (b : option string) : M t unit :=
  s <- get ;;
  match branch s with
  | None => modify (with_branch b)
  | Some _ => ret tt
  end.

(** [ProjectInfo(project, refspec)] *)
Definition init (project : string) (refspec : option RefSpec.t) : t :=
  let s0 := mk project None refspec PNone None PNone false in
  match refspec with
  | Some r =>
      let s1 := snd (set_branch (RefSpec.branch r) s0) in
      if RefSpec.is_tarball r then
        with_remote_hash (PStr (RefSpec.checkout r))
          (with_head_title (Some "From tarball")
             (with_head_hash (PStr (RefSpec.checkout r)) s1))
      else s1
  | None => s0
  end.

(** [override_refspec(refspec)] *)
Definition override_refspec (r : RefSpec.t) : M t unit :=
  s <- get ;;
  if is_checked_out s then raise AssertionError
  else
    modify (with_refspec (Some r)) ;;;
    if PyStr.truthy (RefSpec.branch r)
    then modify (with_branch (RefSpec.branch r))
    else ret tt.

(** [set_checked_out(workspace, gerrit)] *)
Definition set_checked_out (workspace : Workspace) (gerrit : GerritIntegration.t)
    : M (t * World) unit :=
  on_fst (modify (with_is_checked_out true)) ;;;
  s <- on_fst get ;;
  if is_tarball s then ret tt
  else
    info <- lift (_get_git_commit_info workspace (project s) (PStr "HEAD") false) ;;
    on_fst (modify (with_head_title (fst info))) ;;;
    on_fst (modify (with_head_hash (of_opt (snd info)))) ;;;
    s <- on_fst get ;;
    match refspec s with
    | None => raise (AttributeError "is_static")
    | Some r =>
        if RefSpec.is_static r then
          h <- on_snd (GerritIntegration.get_remote_hash gerrit (project s) r) ;;
          on_fst (modify (with_remote_hash h))
        else
          on_fst (modify (with_remote_hash (head_hash s)))
    end.

(** The [elif] of [_load_from_gerrit]: a change is looked up by the commit
    when [head_hash] is true. *)
Definition query_by_commit (C : Common) (L : PyLib) (gerrit : GerritIntegration.t)
    (s : t) : result (option GerritChange.t) :=
  if py_truthy (head_hash s) then
    match head_hash s with
    | PStr h => GerritIntegration.query_change C L gerrit ("commit:" ++ h) false
    | _ => Raise (TypeError "str + non-str")
    end
  else Return None.

(** The lookup of [_load_from_gerrit]: by change number if the locator
    has one, else by commit. *)
Definition lookup_change (C : Common) (L : PyLib) (gerrit : GerritIntegration.t)
    (s : t) : result (option GerritChange.t) :=
  match refspec s with
  | None => Raise (AttributeError "change_number")
  | Some r =>
      match RefSpec.change_number r with
      | Some n =>
          if PyStr.truthy (Some n)
          then GerritIntegration.query_change C L gerrit n true
          else query_by_commit C L gerrit s
      | None => query_by_commit C L gerrit s
      end
  end.

(** The assignments of [_load_from_gerrit] once a change is found. *)
Definition fill_from_change (c : GerritChange.t) (s : t) : t :=
  let s1 :=
    match head_title s with
    | None => with_head_title (GerritChange.title c) s
    | Some _ => s
    end in
  match branch s1 with
  | None => with_branch (GerritChange.branch c) s1
  | Some _ => s1
  end.

(** [_load_from_gerrit(gerrit)] *)
Definition _load_from_gerrit (C : Common) (L : PyLib) (gerrit : GerritIntegration.t)
    : M t unit :=
  s <- get ;;
  match head_title s, branch s with
  | Some _, Some _ => ret tt
  | _, _ =>
      change <- lift (lookup_change C L gerrit s) ;;
      match change with
      | Some c => modify (fill_from_change c)
      | None => ret tt
      end
  end.

(** [ensure_branch_loaded(gerrit)] *)
Definition ensure_branch_loaded (C : Common) (L : PyLib)
    (gerrit : GerritIntegration.t) : M t unit :=
  s <- get ;;
  if PyStr.truthy (branch s) then ret tt else _load_from_gerrit C L gerrit.

(** [load_missing_info(workspace, gerrit)] *)
Definition load_missing_info (C : Common) (L : PyLib) (workspace : Workspace)
    (gerrit : GerritIntegration.t) : M (t * World) unit :=
  s <- on_fst get ;;
  if is_tarball s then ret tt
  else
    (if is_checked_out s then ret tt
     else
       match refspec s with
       | None => raise (AttributeError "fetch")
       | Some r =>
           h <- on_snd (GerritIntegration.get_remote_hash gerrit (project s) r) ;;
           on_fst (modify (with_head_hash h)) ;;;
           on_fst (modify (fun s => with_remote_hash (head_hash s) s)) ;;;
           s1 <- on_fst get ;;
           info <- lift (_get_git_commit_info workspace (project s1)
                           (head_hash s1) true) ;;
           on_fst (modify (with_head_title (fst info)))
       end) ;;;
    on_fst (_load_from_gerrit C L gerrit).

(** [has_correct_hash()] *)
Definition has_correct_hash (s : t) : result bool :=
  if is_checked_out s then Return (py_eq (head_hash s) (remote_hash s))
  else Raise AssertionError.

(** The property [build_branch_label] *)
Definition build_branch_label (s : t) : option string :=
  match branch s with
  | Some b =>
      if PyStr.startswith b "release-" then Some (PyStr.slice_from 8 b)
      else branch s
  | None => branch s
  end.

(** [str(self.refspec)] *)
Definition refspec_str (s : t) : string :=
  match refspec s with
  | Some r => RefSpec.str r
  | None => "None"
  end.

(** [to_dict()]: the entries of the dict, in the order of the source. *)
Definition to_dict (s : t) : list (string * pyval) :=
  [ ("project", PStr (project s));
    ("branch", of_opt (branch s));
    ("build_branch_label", of_opt (build_branch_label s));
    ("refspec", PStr (refspec_str s));
    ("hash", head_hash s);
    ("title", of_opt (head_title s));
    ("refspec_env", PStr (PyStr.upper (project s) ++ "_REFSPEC"));
    ("hash_env", PStr (PyStr.upper (project s) ++ "_HASH")) ].

End ProjectInfo.

(** ** class ProjectsManager *)

Module ProjectsManager.

(** What the manager takes from the factory. *)
Record Factory : Type := mkFactory {
  env : gmap string string;
  executor : Executor;
  gerrit : GerritIntegration.t;
  workspace : Workspace
}.

(** [_projects] is a dict: its entries are kept in insertion order. *)
Record t : Type := mk {
  _projects : list (string * ProjectInfo.t);
  _branch : option string
}.

Definition with_projects (d : list (string * ProjectInfo.t)) (m : t) : t :=
  mk d (_branch m).

Definition with__branch (b : option string) (m : t) : t :=
  mk (_projects m) b.

Fixpoint dict_get {V} (k : string) (d : list (string * V)) : option V :=
  match d with
  | [] => None
  | (k', v) :: rest => if String.eqb k k' then Some v else dict_get k rest
  end.

(** [d[k] = v]: a present key keeps its place, a new one goes last. *)
Fixpoint dict_set {V} (k : string) (v : V) (d : list (string * V))
    : list (string * V) :=
  match d with
  | [] => [(k, v)]
  | (k', v') :: rest =>
      if String.eqb k k' then (k, v) :: rest else (k', v') :: dict_set k v rest
  end.

Definition values {V} (d : list (string * V)) : list V := map snd d.

(** [self._projects[p]] *)
Definition project_at (p : string) : M (t * World) ProjectInfo.t :=
  mgr <- on_fst get ;;
  match dict_get p (_projects mgr) with
  | Some info => ret info
  | None => raise (KeyError p)
  end.

(** [self._projects[p].method(...)]: the object stored under [p] is looked
    up and mutated in place. *)
Definition at_project {A} (p : string) (m : M (ProjectInfo.t * World) A)
    : M (t * World) A :=
  fun s =>
    match dict_get p (_projects (fst s)) with
    | None => (Raise (KeyError p), s)
    | Some info =>
        let (r, s') := m (info, snd s) in
        (r, (with_projects (dict_set p (fst s') (_projects (fst s))) (fst s),
             snd s'))
    end.

(** [_parse_refspec(project)] *)
Definition _parse_refspec (f : Factory) (project : string)
    : result (option RefSpec.t * bool) :=
  let env_name := PyStr.upper project ++ "_REFSPEC" in
  let refspec := env f !! env_name in
  match refspec with
  | Some r =>
      if PyStr.truthy refspec && negb (String.eqb (PyStr.lower r) "auto") then
        let env_name := PyStr.upper project ++ "_HASH" in
        let sha1 := env f !! env_name in
        rbind (RefSpec.init r sha1 (Some (executor f)))
              (fun rs => Return (Some rs, true))
      else Return (None, true)
  | None => Return (None, false)
  end.

(** [_parse_checkout_project()] *)
Definition _parse_checkout_project (C : Common) (f : Factory)
    : result (option string) :=
  match env f !! "CHECKOUT_PROJECT" with
  | None => Return None
  | Some checkout_project =>
      rbind (Project_parse C (JStr checkout_project)) (fun p => Return (Some p))
  end.

(** [set(l)]: the distinct elements of [l]. *)
Definition set_of (l : list string) : list string := remove_dups l.

(** [missing] of [_resolve_missing_refspecs] *)
Definition missing_of (m : t) : list string :=
  set_of (map ProjectInfo.project
            (filter (fun p => ProjectInfo.refspec p = None) (values (_projects m)))).

(** [known] of [_resolve_missing_refspecs], each object with the key it is
    stored under. *)
Definition known_of (C : Common) (m : t) : list (string * ProjectInfo.t) :=
  filter (fun kp => ProjectInfo.refspec (snd kp) <> None
                    /\ ProjectInfo.project (snd kp) <> Project_RELENG C)
         (_projects m).

(** The body of [if not self._branch and known:], for a false
    [self._branch]: the only known repository is asked for its branch. *)
Definition load_known_branch (C : Common) (L : PyLib) (f : Factory)
    (known : list (string * ProjectInfo.t)) : M (t * World) unit :=
  match known with
  | [] => ret tt
  | (key, _) :: others =>
      match others with
      | [] =>
          at_project key
            (on_fst (ProjectInfo.ensure_branch_loaded C L (gerrit f))) ;;;
          k <- project_at key ;;
          on_fst (modify (with__branch (ProjectInfo.branch k)))
      | _ :: _ => raise AssertionError
      end
  end.

(** [_resolve_missing_refspecs()] *)
Definition _resolve_missing_refspecs (C : Common) (L : PyLib) (f : Factory)
    : M (t * World) unit :=
  m0 <- on_fst get ;;
  let missing := missing_of m0 in
  match missing with
  | [] => ret tt
  | _ :: _ =>
      let known := known_of C m0 in
      (if negb (PyStr.truthy (_branch m0))
       then load_known_branch C L f known
       else ret tt) ;;;
      m1 <- on_fst get ;;
      (if negb (PyStr.truthy (_branch m1))
       then on_fst (modify (with__branch (Some "master")))
       else ret tt) ;;;
      m2 <- on_fst get ;;
      match _branch m2 with
      | None => raise (TypeError "str + NoneType")
      | Some b =>
          refspec <- lift (RefSpec.init ("refs/heads/" ++ b) None None) ;;
          for_each (set_iter L missing) (fun project =>
            at_project project (on_fst (ProjectInfo.override_refspec refspec)))
      end
  end.

(** The body of the first loop of [_init_projects]. *)
Definition create_project (f : Factory) (project : string) : M (t * World) unit :=
  pr <- lift (_parse_refspec f project) ;;
  if snd pr then
    on_fst (modify (fun m =>
      with_projects
        (dict_set project (ProjectInfo.init project (fst pr)) (_projects m)) m))
  else ret tt.

(** The first loop of [_init_projects]. *)
Definition create_projects (C : Common) (f : Factory) : M (t * World) unit :=
  for_each (Project_values C) (create_project f).

(** The part of [_init_projects] for a build triggered by Gerrit. *)
Definition apply_trigger (C : Common) (f : Factory) (gerrit_project : string)
    : M (t * World) unit :=
  _ <- project_at gerrit_project ;;
  let gerrit_branch := GerritIntegration.get_triggering_branch (gerrit f) in
  at_project gerrit_project (on_fst (ProjectInfo.set_branch gerrit_branch)) ;;;
  (if String.eqb gerrit_project (Project_RELENG C) then ret tt
   else on_fst (modify (with__branch gerrit_branch))) ;;;
  project_info <- project_at gerrit_project ;;
  if ProjectInfo.is_tarball project_info then ret tt
  else
    refspec <- lift (GerritIntegration.get_triggering_refspec (gerrit f)) ;;
    at_project gerrit_project (on_fst (ProjectInfo.override_refspec refspec)).

(** The part of [_init_projects] for [CHECKOUT_PROJECT]. *)
Definition apply_checkout_project (f : Factory) (checkout_project : string)
    : M (t * World) unit :=
  match env f !! "CHECKOUT_REFSPEC" with
  | Some refspec =>
      let sha1 := env f !! (PyStr.upper checkout_project ++ "_HASH") in
      _ <- project_at checkout_project ;;
      r <- lift (RefSpec.init refspec sha1 None) ;;
      at_project checkout_project (on_fst (ProjectInfo.override_refspec r))
  | None => ret tt
  end.

(** [_init_projects()] up to its last loop; the result is
    [initial_projects]. *)
Definition resolve_projects (C : Common) (L : PyLib) (f : Factory)
    : M (t * World) (list string) :=
  let initial_projects := [Project_RELENG C] in
  create_projects C f ;;;
  checkout_project <- lift (_parse_checkout_project C f) ;;
  gerrit_project <- lift (GerritIntegration.get_triggering_project C (gerrit f)) ;;
  match gerrit_project with
  | Some gp => apply_trigger C f gp
  | None => ret tt
  end ;;;
  initial_projects <-
    match checkout_project with
    | Some cp =>
        apply_checkout_project f cp ;;;
        ret (set_of (initial_projects ++ [cp]))
    | None => ret initial_projects
    end ;;
  _resolve_missing_refspecs C L f ;;;
  ret initial_projects.

(** [_init_projects()] *)
Definition _init_projects (C : Common) (L : PyLib) (f : Factory)
    : M (t * World) unit :=
  initial_projects <- resolve_projects C L f ;;
  for_each (set_iter L initial_projects) (fun project =>
    at_project project
      (ProjectInfo.set_checked_out (workspace f) (gerrit f))).

(** [ProjectsManager(factory)] *)
Definition init (C : Common) (L : PyLib) (f : Factory) (w : World)
    : result unit * (t * World) :=
  _init_projects C L f (mk [] None, w).

(** The entries of a registry built by [_init_projects]: the keys are
    distinct, and each object is stored under its own name. *)
Definition registry_wf (d : list (string * ProjectInfo.t)) : Prop :=
  NoDup (map fst d)
  /\ forall k info, (k, info) ∈ d -> ProjectInfo.project info = k.

(** [str(v)] as [format] inserts it. *)
Definition py_str (v : pyval) : string :=
  match v with
  | PNone => "None"
  | PStr s => s
  | PExc _ (BuildError msg) => msg
  | PExc _ (ConfigurationError msg) => msg
  | PExc _ _ => ""
  end.

(** The loop of [check_projects].  The arguments of [format] are
    evaluated before anything is printed, and the first one is the name
    [project]: the function binds [self], [console], [all_correct] and
    [project_info], the module binds its imports and its classes, and
    [project] is no builtin, so that the evaluation raises. *)
Fixpoint check_loop (infos : list ProjectInfo.t) (all_correct : bool)
    : M World bool :=
  match infos with
  | [] => ret all_correct
  | project_info :: rest =>
      if negb (ProjectInfo.is_checked_out project_info)
      then check_loop rest all_correct
      else
        ok <- lift (ProjectInfo.has_correct_hash project_info) ;;
        if negb ok then
          project <- raise (NameError "project") ;;
          print ("Checkout of " ++ project ++ " failed: HEAD is "
                 ++ py_str (ProjectInfo.head_hash project_info)
                 ++ ", expected "
                 ++ py_str (ProjectInfo.remote_hash project_info)) ;;;
          check_loop rest false
        else check_loop rest all_correct
  end.

(** [check_projects()] *)
Definition check_projects : M (t * World) unit :=
  m <- on_fst get ;;
  all_correct <- on_snd (check_loop (values (_projects m)) true) ;;
  if negb all_correct then raise (BuildError "Checkout failed (Jenkins issue)")
  else ret tt.

(** [_verify_project(project, expect_checkout=False)] *)
Definition _verify_project (project : string) (expect_checkout : bool)
    : M (t * World) unit :=
  m <- on_fst get ;;
  match dict_get project (_projects m) with
  | None => raise (ConfigurationError (PyStr.upper project ++ "_REFSPEC is not set"))
  | Some info =>
      if expect_checkout && negb (ProjectInfo.is_checked_out info)
      then raise (ConfigurationError
                    ("accessing project " ++ project ++ " before checkout"))
      else ret tt
  end.

(** [checkout_project(project)].  [_checkout_project] stands for the
    method of that name of the workspace, which fetches and checks out
    the locator given, or raises. *)
Definition checkout_project (f : Factory)
    (_checkout_project : string -> option RefSpec.t -> result unit)
    (project : string) : M (t * World) unit :=
  _verify_project project false ;;;
  project_info <- project_at project ;;
  if ProjectInfo.is_checked_out project_info then ret tt
  else
    let refspec := ProjectInfo.refspec project_info in
    lift (_checkout_project project refspec) ;;;
    at_project project (ProjectInfo.set_checked_out (workspace f) (gerrit f)).

(** [get_project_info(project, expect_checkout=True)] *)
Definition get_project_info (project : string) (expect_checkout : bool)
    : M (t * World) ProjectInfo.t :=
  _verify_project project expect_checkout ;;;
  project_at project.

(** [override_refspec(project, refspec)] *)
Definition override_refspec (project : string) (refspec : RefSpec.t)
    : M (t * World) unit :=
  _verify_project project false ;;;
  at_project project (on_fst (ProjectInfo.override_refspec refspec)).

(** The list [projects] of [init_workspace]: the names of the objects that
    are checked out. *)
Definition checked_out_projects (m : t) : list string :=
  map ProjectInfo.project
    (filter (fun p => ProjectInfo.is_checked_out p = true) (values (_projects m))).

Definition dashes : string :=
  "-----------------------------------------------------------".

(** The class whose [__format__] is called for [{1:26}] in
    [print_project_info]. *)
Definition refspec_class (s : ProjectInfo.t) : string :=
  match ProjectInfo.refspec s with
  | Some _ => "RefSpec"
  | None => "NoneType"
  end.

(** The body of the loop of [print_project_info].  The second field of the
    format is [{1:26}] for [project_info.refspec]: neither [RefSpec] nor
    [NoneType] defines [__format__], and [object.__format__] raises
    [TypeError] for a format specification that is not empty. *)
Definition print_project (project : string) : M (t * World) unit :=
  m <- on_fst get ;;
  match dict_get project (_projects m) with
  | None => ret tt
  | Some project_info =>
      if negb (ProjectInfo.is_checked_out project_info) then ret tt
      else
        ok <- lift (ProjectInfo.has_correct_hash project_info) ;;
        let correct_info := if negb ok then " (WRONG)" else "" in
        refspec <- raise (TypeError (refspec_class project_info
                                     ++ ".__format__")) ;;
        on_snd (print (PyStr.ljust 16 (ProjectInfo.project project_info ++ ":")
                       ++ " " ++ PyStr.ljust 26 refspec ++ " "
                       ++ py_str (ProjectInfo.head_hash project_info)
                       ++ correct_info)) ;;;
        match ProjectInfo.head_title project_info with
        | Some title =>
            if PyStr.truthy (Some title)
            then on_snd (print (PyStr.ljust 19 "" ++ title))
            else ret tt
        | None => ret tt
        end
  end.

(** [print_project_info()] *)
Definition print_project_info (C : Common) : M (t * World) unit :=
  on_snd (print dashes) ;;;
  on_snd (print "Building using versions:") ;;;
  for_each (Project_values C) print_project ;;;
  on_snd (print dashes).

(** The loop of [get_build_revisions]; the result is the list [projects],
    each object given by the key it is stored under. *)
Fixpoint load_revisions (C : Common) (L : PyLib) (f : Factory) (l : list string)
    : M (t * World) (list string) :=
  match l with
  | [] => ret []
  | project :: rest =>
      m <- on_fst get ;;
      match dict_get project (_projects m) with
      | None => load_revisions C L f rest
      | Some _ =>
          at_project project
            (ProjectInfo.load_missing_info C L (workspace f) (gerrit f)) ;;;
          projects <- load_revisions C L f rest ;;
          ret (project :: projects)
      end
  end.

(** [[project.to_dict() for project in projects]] *)
Fixpoint to_dicts (d : list (string * ProjectInfo.t)) (projects : list string)
    : list (list (string * pyval)) :=
  match projects with
  | [] => []
  | p :: rest =>
      match dict_get p d with
      | Some info => ProjectInfo.to_dict info :: to_dicts d rest
      | None => to_dicts d rest
      end
  end.

(** [get_build_revisions()] *)
Definition get_build_revisions (C : Common) (L : PyLib) (f : Factory)
    : M (t * World) (list (list (string * pyval))) :=
  projects <- load_revisions C L f (Project_values C) ;;
  m <- on_fst get ;;
  ret (to_dicts (_projects m) projects).

End ProjectsManager.

(** ** Life of a ProjectInfo

    [reachable c s]: [s] is a state that a [ProjectInfo] can be in, with
    [c] telling whether [set_checked_out] has been called on it.  Every
    method may be called at any time, with any collaborators, and may
    return or raise. *)

Inductive reachable : bool -> ProjectInfo.t -> Prop :=
| reach_init (project : string) (refspec : option RefSpec.t) :
    reachable false (ProjectInfo.init project refspec)
| reach_set_branch (c : bool) (s : ProjectInfo.t) (b : option string) :
    reachable c s -> reachable c (snd (ProjectInfo.set_branch b s))
| reach_override_refspec (c : bool) (s : ProjectInfo.t) (r : RefSpec.t) :
    reachable c s -> reachable c (snd (ProjectInfo.override_refspec r s))
| reach_ensure_branch_loaded (c : bool) (s : ProjectInfo.t) (C : Common)
    (L : PyLib) (g : GerritIntegration.t) :
    reachable c s -> reachable c (snd (ProjectInfo.ensure_branch_loaded C L g s))
| reach_load_missing_info (c : bool) (s : ProjectInfo.t) (C : Common)
    (L : PyLib) (ws : Workspace) (g : GerritIntegration.t) (w : World) :
    reachable c s ->
    reachable c (fst (snd (ProjectInfo.load_missing_info C L ws g (s, w))))
| reach_set_checked_out (c : bool) (s : ProjectInfo.t) (ws : Workspace)
    (g : GerritIntegration.t) (w : World) :
    reachable c s ->
    reachable true (fst (snd (ProjectInfo.set_checked_out ws g (s, w)))).

(** What no method other than [override_refspec] and [set_checked_out]
    changes, and what no method at all changes: a branch that is set. *)
Definition keeps_branch (s s' : ProjectInfo.t) : Prop :=
  forall b, ProjectInfo.branch s = Some b -> ProjectInfo.branch s' = Some b.

Definition same_frame (s s' : ProjectInfo.t) : Prop :=
  ProjectInfo.project s' = ProjectInfo.project s
  /\ ProjectInfo.refspec s' = ProjectInfo.refspec s
  /\ ProjectInfo.head_hash s' = ProjectInfo.head_hash s
  /\ ProjectInfo.remote_hash s' = ProjectInfo.remote_hash s
  /\ ProjectInfo.is_checked_out s' = ProjectInfo.is_checked_out s
  /\ keeps_branch s s'.

(** [preserves P m]: [m] keeps [P], whether it returns or raises. *)
Definition preserves {St A} (P : St -> Prop) (m : M St A) : Prop :=
  forall s, P s -> P (snd (m s)).

(** No [ProjectInfo] is stored under [p]. *)
Definition no_key (p : string) (s : ProjectsManager.t * World) : Prop :=
  ProjectsManager.dict_get p (ProjectsManager._projects (fst s)) = None.

(** The registry before anything is checked out: it is well formed and
    no object has its flag set. *)
Definition unresolved (s : ProjectsManager.t * World) : Prop :=
  ProjectsManager.registry_wf (ProjectsManager._projects (fst s))
  /\ forall k info, (k, info) ∈ ProjectsManager._projects (fst s) ->
       ProjectInfo.is_checked_out info = false.

(** ** Matrix builds

    [urllib.parse.unquote] is taken as given.  A matrix configuration is
    an object of [matrixbuild.py] of which [opts] and [host] are read. *)

Record UrlLib : Type := mkUrlLib {
  unquote : string -> string
}.

Module Config.

Record t : Type := mk {
  opts : list string;
  host : option string
}.

End Config.

Module MatrixRunInfo.

Record t : Type := mk {
  opts : list string;
  host : option string;
  result : pyval;
  url : option string
}.

Definition is_success (self : t) : bool := py_eq (result self) (PStr "SUCCESS").

Definition is_unstable (self : t) : bool := py_eq (result self) (PStr "UNSTABLE").

Definition is_not_built (self : t) : bool :=
  py_eq (result self) (PStr "NOT_BUILT").

End MatrixRunInfo.

Module MatrixBuildInfo.

(** The field [result] hides the type of results in this module. *)
#[local] Abbreviation outcome := result (only parsing).

Record t : Type := mk {
  result : pyval;
  runs : list MatrixRunInfo.t
}.

(** [d[key]] *)
Definition getitem (d : list (string * pyval)) (key : string)
    : outcome pyval :=
  match ProjectsManager.dict_get key d with
  | Some v => Return v
  | None => Raise (KeyError key)
  end.

(** [[x for x in url.split('/') if x.startswith("OPTIONS=")]] *)
Definition options_parts (url : string) : list string :=
  List.filter (fun x => PyStr.startswith x "OPTIONS=") (PyStr.split "/" url).

(** The body of the loop of [__init__]: the run that one record of
    [json_runs_data] describes. *)
Definition run_of_data (U : UrlLib) (run_data : list (string * pyval))
    : outcome MatrixRunInfo.t :=
  rbind (getitem run_data "result") (fun result =>
  rbind (getitem run_data "url") (fun url =>
  match url with
  | PStr url =>
      if negb (length (options_parts url) =? 1) then Raise AssertionError
      else
        match options_parts url !! 0 with
        | None => Raise IndexError
        | Some part =>
            let opts := PyStr.split_ws (unquote U (PyStr.slice_from 8 part)) in
            match last opts with
            | None => Raise IndexError
            | Some l =>
                match PyStr.split "," l !! 0 with
                | None => Raise IndexError
                | Some h =>
                    Return (MatrixRunInfo.mk (removelast opts)
                              (Some (PyStr.slice_from 5 h)) result (Some url))
                end
            end
        end
  | _ => Raise (AttributeError "split")
  end)).

Fixpoint init_loop (U : UrlLib) (json_runs_data : list (list (string * pyval)))
    (runs : list MatrixRunInfo.t) : outcome (list MatrixRunInfo.t) :=
  match json_runs_data with
  | [] => Return runs
  | run_data :: rest =>
      rbind (run_of_data U run_data) (fun run => init_loop U rest (runs ++ [run]))
  end.

(** [MatrixBuildInfo(result, json_runs_data)] *)
Definition init (U : UrlLib) (result : pyval)
    (json_runs_data : list (list (string * pyval))) : outcome t :=
  rbind (init_loop U json_runs_data []) (fun runs => Return (mk result runs)).

(** [[x for x in self.runs if x.opts == config.opts]] *)
Definition found (runs : list MatrixRunInfo.t) (config : Config.t)
    : list MatrixRunInfo.t :=
  List.filter (fun x => bool_decide (MatrixRunInfo.opts x = Config.opts config))
    runs.

(** The run created for a configuration that was not built. *)
Definition not_built (config : Config.t) : MatrixRunInfo.t :=
  MatrixRunInfo.mk (Config.opts config) (Config.host config)
    (PStr "NOT_BUILT") None.

Fixpoint merge_loop (runs : list MatrixRunInfo.t) (configs : list Config.t)
    (new_runs : list MatrixRunInfo.t) : outcome (list MatrixRunInfo.t) :=
  match configs with
  | [] => Return new_runs
  | config :: rest =>
      match found runs config with
      | [] => merge_loop runs rest (new_runs ++ [not_built config])
      | x :: _ =>
          if length (found runs config) =? 1
          then merge_loop runs rest (new_runs ++ [x])
          else Raise AssertionError
      end
  end.

(** [merge_known_configs(configs)]: [self.runs] is assigned after the
    loop, so a failed assertion leaves it as it was. *)
Definition merge_known_configs (configs : list Config.t) : M t unit :=
  fun self =>
    match merge_loop (runs self) configs [] with
    | Return new_runs => (Return tt, mk (result self) new_runs)
    | Raise e => (Raise e, self)
    end.

Definition is_success (self : t) : bool := py_eq (result self) (PStr "SUCCESS").

Definition is_aborted (self : t) : bool := py_eq (result self) (PStr "ABORTED").

End MatrixBuildInfo.

(** ** class StatusReporter

    The reporter calls the executor, writes to its console, and may end
    the process.  These calls are recorded in the order in which they are
    made, and each of them is taken to return.  [os.path], [json.dumps]
    and [traceback] are taken as given. *)

Inductive action : Type :=
| Remove_path (path : string)
| Ensure_dir_exists (path : string)
| Write_file (path contents : string)
| Sys_exit (returncode : Z)
| Console_print (line : string)
| Print_exception (e : exn) (tb : bool)
| Print_exc (e : exn).

(** [format_exception e tb] are the lines of
    [traceback.format_exception]; [tb] tells whether the traceback is
    given or [None].  [json_dumps] is [json.dumps(output, indent=2)] for
    the items of [output]. *)
Record OsLib : Type := mkOsLib {
  isabs : string -> bool;
  join : string -> string -> string;
  splitext : string -> string * string;
  dirname : string -> string;
  json_dumps : list (string * json) -> string;
  format_exception : exn -> bool -> list string
}.

(** [bool(v)] of a decoded value *)
Definition json_truthy (v : json) : bool :=
  match v with
  | JNull => false
  | JBool b => b
  | JNum n => negb (n =? 0)%Z
  | JStr s => negb (String.eqb s EmptyString)
  | JArr items => negb (length items =? 0)
  | JObj fields => negb (length fields =? 0)
  end.

(** What [__exit__] is given: no exception, an [AbortError] with its
    return code, or an exception of another class. *)
Inductive raised : Type :=
| NoException
| AbortError (returncode : Z)
| Exception (e : exn).

Module StatusReporter.

Record t : Type := mk {
  _status_file : string;
  _propagate_failure : bool;
  failed : bool;
  _aborted : bool;
  _unsuccessful_reason : list string;
  return_value : json;
  _tracebacks : bool
}.

Definition with_failed (b : bool) (s : t) : t :=
  mk (_status_file s) (_propagate_failure s) b (_aborted s)
     (_unsuccessful_reason s) (return_value s) (_tracebacks s).

Definition with__aborted (b : bool) (s : t) : t :=
  mk (_status_file s) (_propagate_failure s) (failed s) b
     (_unsuccessful_reason s) (return_value s) (_tracebacks s).

Definition with__unsuccessful_reason (l : list string) (s : t) : t :=
  mk (_status_file s) (_propagate_failure s) (failed s) (_aborted s)
     l (return_value s) (_tracebacks s).

Definition newline : string := String (ascii_of_nat 10) EmptyString.

(** One call on the executor, the console or the process. *)
Definition act (a : action) : M (t * list action) unit :=
  on_snd (modify (fun calls => (calls ++ [a])%list)).

(** [StatusReporter(factory, tracebacks)], with [factory.env] and
    [factory.workspace.root]. *)
Definition init (O : OsLib) (env : gmap string string) (root : string)
    (tracebacks : bool) : M (list action) t :=
  let status_file :=
    default "logs/unsuccessful-reason.log" (env !! "STATUS_FILE") in
  let propagate_failure := negb (PyStr.truthy (env !! "NO_PROPAGATE_FAILURE")) in
  modify (fun calls => (calls ++ [Remove_path status_file])%list) ;;;
  let status_file :=
    if negb (isabs O status_file) then join O root status_file
    else status_file in
  ret (mk status_file propagate_failure false false [] JNull tracebacks).

(** [mark_failed(reason)] *)
Definition mark_failed (reason : string) : M (t * list action) unit :=
  on_fst (modify (with_failed true)) ;;;
  on_fst (modify (fun self =>
    with__unsuccessful_reason (_unsuccessful_reason self ++ [reason])%list self)).

(** [mark_unstable(reason, details)] *)
Definition mark_unstable (reason : string) (details : option (list string))
    : M (t * list action) unit :=
  act (Console_print ("FAILED: " ++ reason)) ;;;
  match details with
  | None =>
      on_fst (modify (fun self =>
        with__unsuccessful_reason (_unsuccessful_reason self ++ [reason])%list self))
  | Some details =>
      on_fst (modify (fun self =>
        with__unsuccessful_reason (_unsuccessful_reason self ++ details)%list self))
  end.

(** [bool(l)] of a list *)
Definition nonempty {A} (l : list A) : bool := negb (length l =? 0).

(** The [result] of [_report]. *)
Definition result_of (self : t) : string :=
  if _aborted self then "ABORTED"
  else if failed self then "FAILURE"
  else if nonempty (_unsuccessful_reason self) then "UNSTABLE"
  else "SUCCESS".

(** The [reason] of [_report]. *)
Definition reason_of (self : t) : option string :=
  if negb (_aborted self) && nonempty (_unsuccessful_reason self)
  then Some (PyStr.join newline (_unsuccessful_reason self))
  else None.

(** The [contents] of [_report]. *)
Definition contents_of (O : OsLib) (self : t) : option string :=
  let reason := reason_of self in
  let ext := snd (splitext O (_status_file self)) in
  if String.eqb ext ".json" then
    let output :=
      [("result", JStr (result_of self));
       ("reason", match reason with Some r => JStr r | None => JNull end)] in
    let output :=
      if json_truthy (return_value self)
      then (output ++ [("return_value", return_value self)])%list
      else output in
    Some (json_dumps O output)
  else
    match reason with
    | Some r => if PyStr.truthy reason then Some (r ++ newline) else None
    | None => None
    end.

(** [_report(to_console)] *)
Definition _report (O : OsLib) (to_console : bool) : M (t * list action) unit :=
  self <- on_fst get ;;
  let reason := reason_of self in
  (if PyStr.truthy reason && to_console then
     act (Console_print "Build FAILED:") ;;;
     for_each (_unsuccessful_reason self)
       (fun line => act (Console_print ("  " ++ line)))
   else ret tt) ;;;
  let contents := contents_of O self in
  (match contents with
   | Some c =>
       if PyStr.truthy contents then
         act (Ensure_dir_exists (dirname O (_status_file self))) ;;;
         act (Write_file (_status_file self) c)
       else ret tt
   | None => ret tt
   end) ;;;
  if failed self then
    if nonempty (_unsuccessful_reason self) then ret tt
    else raise AssertionError
  else ret tt.

(** [_report_on_exception()]: whatever [_report] raises is printed. *)
Definition _report_on_exception (O : OsLib) : M (t * list action) unit :=
  fun s =>
    match _report O false s with
    | (Return _, s') => (Return tt, s')
    | (Raise e, s') => act (Print_exc e) s'
    end.

(** The end of [__exit__], from [self._report()] on. *)
Definition report_and_exit (O : OsLib) (returncode : Z)
    : M (t * list action) bool :=
  _report O true ;;;
  self <- on_fst get ;;
  (if (_aborted self || failed self) && _propagate_failure self
   then act (Sys_exit returncode) else ret tt) ;;;
  ret true.

(** [__exit__(exc_type, exc_value, tb)] *)
Definition __exit__ (O : OsLib) (exc : raised) : M (t * list action) bool :=
  self <- on_fst get ;;
  let tb := _tracebacks self in
  match exc with
  | NoException => report_and_exit O 1
  | AbortError returncode =>
      on_fst (modify (with__aborted true)) ;;;
      report_and_exit O returncode
  | Exception (ConfigurationError msg) =>
      act (Print_exception (ConfigurationError msg) tb) ;;;
      mark_failed ("Jenkins configuration error: " ++ msg) ;;;
      report_and_exit O 1
  | Exception (BuildError msg) =>
      act (Print_exception (BuildError msg) tb) ;;;
      mark_failed msg ;;;
      report_and_exit O 1
  | Exception e =>
      on_fst (modify (fun self =>
        with__unsuccessful_reason
          (_unsuccessful_reason self
           ++ map PyStr.rstrip (format_exception O e tb))%list
          self)) ;;;
      _report_on_exception O ;;;
      ret false
  end.

(** A failed build has a reason: what the last statement of [_report]
    asserts. *)
Definition has_reason (self : t) : Prop :=
  failed self = true -> _unsuccessful_reason self <> [].

End StatusReporter.

(** ** Inputs of the examples *)

Module Ex.

Definition w0 : World := mkWorld [] 0.

Definition gerrit_silent : GerritIntegration.t :=
  GerritIntegration.mk ∅ (fun _ => Return "") "jenkins" false.

Definition refspec_nonexistent : RefSpec.t :=
  RefSpec.mk "refs/heads/nonexistent" "refs/heads/nonexistent"
    (Some "nonexistent") None None.

Definition refspec_master : RefSpec.t :=
  RefSpec.mk "refs/heads/master" "refs/heads/master" (Some "master") None None.

Definition refspec_release : RefSpec.t :=
  RefSpec.mk "refs/heads/release-2022" "refs/heads/release-2022"
    (Some "release-2022") None None.

Definition refspec_change : RefSpec.t :=
  RefSpec.mk "refs/changes/12/3412/5" "refs/changes/12/3412/5" None
    (Some "3412") None.

(** A working tree whose commits cannot be read. *)
Definition workspace_broken : Workspace :=
  mkWorkspace (fun _ _ _ => Raise (ExternalError "git rev-list failed")).

(** A working tree at commit [1111]. *)
Definition workspace_1111 : Workspace :=
  mkWorkspace (fun _ _ _ => Return (Some "Fix things", Some "1111")).

(** Gerrit answers every [ls-remote] with hash [2222]. *)
Definition gerrit_2222 : GerritIntegration.t :=
  GerritIntegration.mk ∅ (fun _ => Return "2222	refs/changes/12/3412/5")
    "jenkins" false.

Definition common : Common :=
  mkCommon ["gromacs"; "regressiontests"; "releng"] "releng"
    (fun v =>
       match v with
       | JStr s =>
           if bool_decide (s ∈ ["gromacs"; "regressiontests"; "releng"])
           then Return s
           else Raise (ConfigurationError ("unknown project " ++ s))
       | _ => Raise (TypeError "str")
       end).

(** No JSON is decoded in the examples; sets are visited in the order of
    their elements. *)
Definition pylib : PyLib :=
  mkPyLib (fun _ => Raise (ExternalError "json"))
          (fun v => match v with
                    | JNum n => Return n
                    | _ => Raise (TypeError "int")
                    end)
          (fun l => l).

(** Answers of [gerrit query]: statistics only, and two changes. *)
Definition answer_none : string := "{stats}".

Definition answer_two : string := "{change 1}
{change 2}
{stats}".

Definition gerrit_windows : GerritIntegration.t :=
  GerritIntegration.mk ∅ (fun _ => Return answer_none) "jenkins" true.

Definition gerrit_two : GerritIntegration.t :=
  GerritIntegration.mk ∅ (fun _ => Return answer_two) "jenkins" false.

(** Two repositories are checked out: [gromacs] is at the expected commit,
    [regressiontests] is not. *)
Definition info_good : ProjectInfo.t :=
  ProjectInfo.mk "gromacs" (Some "master") (Some refspec_change)
    (PStr "1111") (Some "Fix things") (PStr "1111") true.

Definition info_bad : ProjectInfo.t :=
  ProjectInfo.mk "regressiontests" (Some "master") (Some refspec_change)
    (PStr "1111") (Some "Fix tests") (PStr "2222") true.

Definition manager_mismatch : ProjectsManager.t :=
  ProjectsManager.mk [("gromacs", info_good); ("regressiontests", info_bad)]
    (Some "master").

Definition refspec_head : RefSpec.t := RefSpec.mk "HEAD" "HEAD" None None None.

(** A workspace that checks out nothing and fails. *)
Definition checkout_fails (project : string) (refspec : option RefSpec.t)
    : result unit :=
  Raise (ExternalError "git fetch failed").

Definition checkout_ok (project : string) (refspec : option RefSpec.t)
    : result unit :=
  Return tt.

Definition executor_no_files : Executor :=
  mkExecutor (fun _ => Raise (ExternalError "no such file")).

Definition factory_of (e : gmap string string) (g : GerritIntegration.t)
    : ProjectsManager.Factory :=
  ProjectsManager.mkFactory e executor_no_files
    (GerritIntegration.mk e (GerritIntegration._cmd_runner g) "jenkins"
       (GerritIntegration._is_windows g))
    workspace_1111.

(** The scenario of the specification: [gromacs] has a static locator
    with hash [abc123], the other two repositories have none, and there
    is no trigger. *)
Definition refspec_abc : RefSpec.t :=
  RefSpec.mk "refs/changes/12/3412/5" "abc123" None (Some "3412") None.

Definition manager_static : ProjectsManager.t :=
  ProjectsManager.mk
    [("gromacs", ProjectInfo.init "gromacs" (Some refspec_abc));
     ("regressiontests", ProjectInfo.init "regressiontests" None);
     ("releng", ProjectInfo.init "releng" None)]
    None.

Definition manager_release : ProjectsManager.t :=
  ProjectsManager.mk
    [("gromacs", ProjectInfo.init "gromacs" (Some refspec_abc));
     ("regressiontests", ProjectInfo.init "regressiontests" None);
     ("releng", ProjectInfo.init "releng" None)]
    (Some "release-2022").

(** A build triggered by a change of [gromacs] on [release-2022]. *)
Definition env_change : gmap string string :=
  {[ "GERRIT_PROJECT" := "gromacs"; "GERRIT_BRANCH" := "release-2022";
     "GERRIT_REFSPEC" := "refs/changes/12/3412/5";
     "GROMACS_REFSPEC" := "auto"; "RELENG_REFSPEC" := "refs/heads/master" ]}.

Definition manager_trigger : ProjectsManager.t :=
  ProjectsManager.mk
    [("gromacs", ProjectInfo.init "gromacs" None);
     ("releng", ProjectInfo.init "releng" (Some refspec_master))]
    None.

(** A build triggered for [gromacs]: Gerrit Trigger names the project,
    and neither [GERRIT_REFSPEC] nor [RELENG_REFSPEC] is set. *)
Definition env_trigger : gmap string string :=
  {[ "GERRIT_PROJECT" := "gromacs"; "GROMACS_REFSPEC" := "auto" ]}.

(** A manual build with [GROMACS_REFSPEC] only. *)
Definition env_gromacs_only : gmap string string :=
  {[ "GROMACS_REFSPEC" := "refs/heads/master" ]}.

(** A matrix of three configurations, of which Jenkins reports two runs. *)
Definition configs : list Config.t :=
  [Config.mk ["gcc-9"; "mpi"] (Some "bs_mac");
   Config.mk ["clang-11"] (Some "bs_nix");
   Config.mk ["msvc-2019"] (Some "bs_win")].

Definition build_partial : MatrixBuildInfo.t :=
  MatrixBuildInfo.mk (PStr "FAILURE")
    [MatrixRunInfo.mk ["clang-11"] (Some "bs_nix") (PStr "SUCCESS")
       (Some "job/OPTIONS=clang-11%20host=bs_nix,label/7/");
     MatrixRunInfo.mk ["gcc-5"] (Some "bs_old") (PStr "SUCCESS")
       (Some "job/OPTIONS=gcc-5%20host=bs_old,label/7/");
     MatrixRunInfo.mk ["gcc-9"; "mpi"] (Some "bs_mac") (PStr "FAILURE")
       (Some "job/OPTIONS=gcc-9%20mpi%20host=bs_mac,label/7/")].

(** Decoding of the URLs of the examples: [%20] stands for a space. *)
Fixpoint unquote_20 (s : string) : string :=
  match s with
  | String "%" (String "2" (String "0" s')) => String " " (unquote_20 s')
  | String c s' => String c (unquote_20 s')
  | EmptyString => EmptyString
  end.

Definition urllib : UrlLib := mkUrlLib unquote_20.

(** What Jenkins reports of two runs of a matrix build. *)
Definition runs_data : list (list (string * pyval)) :=
  [[("result", PStr "FAILURE");
    ("url", PStr "job/OPTIONS=gcc-9%20mpi%20host=bs_mac,label/7/")];
   [("result", PStr "SUCCESS");
    ("url", PStr "job/OPTIONS=clang-11%20host=bs_nix,label/7/")]].

(** A library for the examples: paths are absolute if they start with a
    slash, a status file has the extension [.json] if its name ends so,
    and its directory is [logs]. *)
Definition ends_with_json (p : string) : bool :=
  String.eqb (PyStr.slice_from (String.length p - 5) p) ".json".

Definition show_items (items : list (string * json)) : string :=
  "{"
  ++ PyStr.join ";"
       (map (fun kv => fst kv ++ "="
                       ++ match snd kv with
                          | JStr v => v
                          | JNull => "null"
                          | _ => "?"
                          end) items)
  ++ "}".

Definition oslib : OsLib :=
  mkOsLib (fun p => PyStr.startswith p "/") PyStr.path_join
    (fun p => if ends_with_json p
              then (substring 0 (String.length p - 5) p, ".json")
              else (p, ""))
    (fun _ => "/ws/logs") show_items
    (fun e tb => if tb then ["Traceback"; "RuntimeError: boom "]
                 else ["RuntimeError: boom "]).

Definition reporter_json : StatusReporter.t :=
  StatusReporter.mk "/ws/logs/status.json" true false false [] JNull true.

Definition reporter_plain : StatusReporter.t :=
  StatusReporter.mk "/ws/logs/unsuccessful-reason.log" true false false []
    JNull true.

End Ex.

(** * Properties *)

(** ** RefSpec *)

Lemma prefix_cons (c : ascii) (p s : string) :
  String.prefix (String c p) s = true ->
  exists s', s = String c s' /\ String.prefix p s' = true.
Proof.
  destruct s as [|d s']; simpl; [discriminate|].
  destruct (ascii_dec c d) as [->|]; [|discriminate].
  intros H. exists s'. split; [reflexivity | exact H].
Qed.

Lemma tarball_not_static (v : string) :
  PyStr.startswith v "tarballs/" = true ->
  PyStr.startswith v "refs/changes/" = false.
Proof.
  unfold PyStr.startswith. intros H.
  apply prefix_cons in H as (s' & -> & _). reflexivity.
Qed.

Lemma no_op_value (r : RefSpec.t) :
  RefSpec.is_no_op r = true -> RefSpec._value r = "HEAD".
Proof. unfold RefSpec.is_no_op. apply String.eqb_eq. Qed.

(** What a successful construction has built. *)
Lemma init_inv (value : string) (rh : option string) (ex : option Executor)
    (r : RefSpec.t) :
  RefSpec.init value rh ex = Return r ->
  (PyStr.startswith value "tarballs/" = true
   /\ exists props h, props !! "HEAD_HASH" = Some h
        /\ r = RefSpec.mk value h None None (Some props))
  \/ (PyStr.startswith value "tarballs/" = false
      /\ exists b c,
           r = RefSpec.mk value
                 (if PyStr.truthy rh then default value rh else value)
                 b c None).
Proof.
  unfold RefSpec.init, RefSpec.is_tarball_refspec. intros H.
  destruct (PyStr.startswith value "tarballs/") eqn:Et.
  - left. split; [reflexivity|].
    destruct ex as [e|]; [|discriminate].
    destruct (read_property_file e _) as [props|]; simpl in H; [|discriminate].
    destruct (props !! "HEAD_HASH") as [h|] eqn:Eh; [|discriminate].
    exists props, h. split; [exact Eh | congruence].
  - right. split; [reflexivity|].
    assert (Hr : (match rh with
                  | Some h => if PyStr.truthy rh then h else value
                  | None => value
                  end) = (if PyStr.truthy rh then default value rh else value)).
    { destruct rh; simpl; reflexivity. }
    rewrite Hr in H. clear Hr.
    destruct (PyStr.startswith value "refs/changes/").
    + destruct (PyStr.split "/" value !! 3) as [c|]; [|discriminate].
      exists None, (Some c). congruence.
    + destruct (PyStr.startswith value "refs/heads/").
      * destruct (PyStr.split "/" value !! 2) as [b|]; [|discriminate].
        exists (Some b), None. congruence.
      * exists None, None. congruence.
Qed.

(** C5, as the code has it.  A constructed locator has exactly one active
    variant, and carries tarball metadata iff it is a tarball (iff its value
    starts with the tarball marker).  Whether it has a checkout target of
    its own does not depend on the variant: a locator without manifest has
    one iff it was given a true hash that differs from its value, and a
    tarball has one iff the manifest's head hash differs from its value. *)
Theorem C5_refspec_variants (value : string) (rh : option string)
    (ex : option Executor) (r : RefSpec.t) :
  RefSpec.init value rh ex = Return r ->
  length (RefSpec.active r) = 1
  /\ (RefSpec._tar_props r <> None <-> RefSpec.is_tarball r = true)
  /\ (RefSpec.is_tarball r = true <-> PyStr.startswith value "tarballs/" = true)
  /\ (RefSpec.has_static_hash r = true <->
      match RefSpec._tar_props r with
      | Some props => props !! "HEAD_HASH" <> Some value
      | None => PyStr.truthy rh = true /\ rh <> Some value
      end).
Proof.
  intros H. apply init_inv in H.
  destruct H as [(Et & props & h & Eh & ->) | (Et & b & c & ->)].
  - unfold RefSpec.active, RefSpec.is_branch, RefSpec.is_no_op,
      RefSpec.is_static, RefSpec.is_tarball, RefSpec.has_static_hash.
    simpl. rewrite Et, (tarball_not_static _ Et), Eh.
    assert (En : String.eqb value "HEAD" = false).
    { apply String.eqb_neq. intros ->. discriminate. }
    rewrite En. simpl.
    split; [reflexivity|]. split; [split; congruence|].
    split; [tauto|].
    rewrite negb_true_iff, String.eqb_neq. split; congruence.
  - unfold RefSpec.active, RefSpec.is_branch, RefSpec.is_no_op,
      RefSpec.is_static, RefSpec.is_tarball, RefSpec.has_static_hash.
    simpl. rewrite Et. split.
    + destruct (String.eqb value "HEAD") eqn:En.
      * apply String.eqb_eq in En. subst value. reflexivity.
      * simpl. destruct (PyStr.startswith value "refs/changes/"); reflexivity.
    + split; [split; congruence|]. split; [split; congruence|].
      rewrite negb_true_iff, String.eqb_neq.
      destruct rh as [h|]; simpl.
      * destruct (String.eqb h ""); simpl; split;
          try (intros [? ?]); try split; congruence.
      * split; [congruence | intros [? _]; congruence].
Qed.

Lemma C5_refspec_variants_witness :
  RefSpec.init "refs/changes/12/3412/5" (Some "abc123") None
    = Return (RefSpec.mk "refs/changes/12/3412/5" "abc123" None (Some "3412") None)
  /\ length (RefSpec.active
               (RefSpec.mk "refs/changes/12/3412/5" "abc123" None (Some "3412") None))
     = 1.
Proof.
  split; [reflexivity|].
  apply (C5_refspec_variants "refs/changes/12/3412/5" (Some "abc123") None).
  reflexivity.
Defined.

(** C5 as stated fails: [GROMACS_REFSPEC=refs/heads/master] with
    [GROMACS_HASH=abc123] gives a branch locator whose checkout target is
    the hash. *)
Lemma C5_branch_with_hash :
  exists r,
    RefSpec.init "refs/heads/master" (Some "abc123") None = Return r
    /\ RefSpec.active r = [RefSpec.Branch]
    /\ RefSpec.branch r = Some "master"
    /\ RefSpec.checkout r = "abc123"
    /\ ~ (RefSpec.has_static_hash r = true
          <-> (RefSpec.is_static r || RefSpec.is_tarball r) = true).
Proof.
  eexists. split; [reflexivity|].
  repeat split; vm_compute; intros [H _]; specialize (H eq_refl); discriminate.
Qed.

(** The converse also fails: the locator of the triggering change is
    static and is built without a hash. *)
Lemma static_without_hash :
  exists r,
    RefSpec.init "refs/changes/12/3412/5" None None = Return r
    /\ RefSpec.active r = [RefSpec.Static]
    /\ RefSpec.checkout r = "FETCH_HEAD"
    /\ RefSpec.has_static_hash r = false.
Proof. eexists. split; [reflexivity|]. repeat split. Qed.

(** ** GerritIntegration.get_remote_hash *)

Lemma split_ws_1_first (out : string) :
  2 <= length (PyStr.split_ws_1 out) -> is_Some (PyStr.split_ws_1 out !! 0).
Proof.
  intros H. apply lookup_lt_is_Some. lia.
Qed.

(** C3 fails on the code: when the output of [git ls-remote] has fewer
    than two fields, [get_remote_hash] does not raise.  It returns a newly
    created [BuildError] instance to its caller. *)
Theorem C3_get_remote_hash_returns_error (g : GerritIntegration.t)
    (project : string) (refspec : RefSpec.t) (w : World) (out : string) :
  GerritIntegration._cmd_runner g
    (GerritIntegration.ls_remote_cmd g project refspec) = Return out ->
  length (PyStr.split_ws_1 out) < 2 ->
  GerritIntegration.get_remote_hash g project refspec w
  = (Return (PExc (next_id w)
               (BuildError ("failed to find refspec " ++ RefSpec.str refspec
                            ++ " for " ++ project))),
     mkWorld (console w) (S (next_id w))).
Proof.
  intros Hcmd Hlen.
  unfold GerritIntegration.get_remote_hash, bind, lift. rewrite Hcmd.
  apply Nat.ltb_lt in Hlen. rewrite Hlen. reflexivity.
Qed.

Lemma C3_get_remote_hash_returns_error_witness :
  GerritIntegration.get_remote_hash Ex.gerrit_silent "gromacs" Ex.refspec_nonexistent
    Ex.w0
  = (Return (PExc 0
       (BuildError "failed to find refspec refs/heads/nonexistent for gromacs")),
     mkWorld [] 1).
Proof.
  apply (C3_get_remote_hash_returns_error Ex.gerrit_silent "gromacs"
           Ex.refspec_nonexistent Ex.w0 "").
  - reflexivity.
  - simpl. lia.
Defined.

(** The only exceptions that leave [get_remote_hash] are those of the
    command itself; with two fields or more the first one is returned. *)
Lemma get_remote_hash_raises (g : GerritIntegration.t) (project : string)
    (refspec : RefSpec.t) (w w' : World) (e : exn) :
  GerritIntegration.get_remote_hash g project refspec w = (Raise e, w') ->
  GerritIntegration._cmd_runner g
    (GerritIntegration.ls_remote_cmd g project refspec) = Raise e
  /\ w' = w.
Proof.
  unfold GerritIntegration.get_remote_hash, bind, lift.
  destruct (GerritIntegration._cmd_runner g _) as [out|e0].
  - destruct (length (PyStr.split_ws_1 out) <? 2) eqn:El.
    + discriminate.
    + apply Nat.ltb_ge in El. destruct (split_ws_1_first out El) as [h Hh].
      rewrite Hh. discriminate.
  - intros H. inversion H. split; reflexivity.
Qed.

(** ** ProjectInfo *)

Ltac run :=
  unfold bind, ret, raise, lift, get, modify, on_fst, on_snd; simpl.

Lemma set_branch_eq (b : option string) (s : ProjectInfo.t) :
  ProjectInfo.set_branch b s
  = (Return tt,
     match ProjectInfo.branch s with
     | None => ProjectInfo.with_branch b s
     | Some _ => s
     end).
Proof.
  unfold ProjectInfo.set_branch. run.
  destruct (ProjectInfo.branch s); reflexivity.
Qed.

Lemma override_refspec_eq (r : RefSpec.t) (s : ProjectInfo.t) :
  ProjectInfo.override_refspec r s
  = if ProjectInfo.is_checked_out s then (Raise AssertionError, s)
    else (Return tt,
          if PyStr.truthy (RefSpec.branch r)
          then ProjectInfo.with_branch (RefSpec.branch r)
                 (ProjectInfo.with_refspec (Some r) s)
          else ProjectInfo.with_refspec (Some r) s).
Proof.
  unfold ProjectInfo.override_refspec. run.
  destruct (ProjectInfo.is_checked_out s); [reflexivity|].
  destruct (PyStr.truthy (RefSpec.branch r)); reflexivity.
Qed.

Lemma same_frame_refl (s : ProjectInfo.t) : same_frame s s.
Proof. unfold same_frame, keeps_branch. tauto. Qed.

Lemma load_from_gerrit_eq (C : Common) (L : PyLib) (g : GerritIntegration.t)
    (s : ProjectInfo.t) :
  ProjectInfo._load_from_gerrit C L g s
  = match ProjectInfo.head_title s, ProjectInfo.branch s with
    | Some _, Some _ => (Return tt, s)
    | _, _ =>
        match ProjectInfo.lookup_change C L g s with
        | Return (Some c) => (Return tt, ProjectInfo.fill_from_change c s)
        | Return None => (Return tt, s)
        | Raise e => (Raise e, s)
        end
    end.
Proof.
  unfold ProjectInfo._load_from_gerrit. run.
  destruct (ProjectInfo.head_title s), (ProjectInfo.branch s);
    try reflexivity;
    destruct (ProjectInfo.lookup_change C L g s) as [[c|]|e]; reflexivity.
Qed.

Lemma fill_from_change_frame (c : GerritChange.t) (s : ProjectInfo.t) :
  same_frame s (ProjectInfo.fill_from_change c s).
Proof.
  unfold same_frame, keeps_branch, ProjectInfo.fill_from_change.
  destruct s as [p b r hh ht rh co]. simpl.
  destruct ht, b; simpl; repeat split; congruence.
Qed.

Lemma load_from_gerrit_frame (C : Common) (L : PyLib) (g : GerritIntegration.t)
    (s : ProjectInfo.t) :
  same_frame s (snd (ProjectInfo._load_from_gerrit C L g s))
  /\ (is_return (fst (ProjectInfo._load_from_gerrit C L g s)) = false ->
      snd (ProjectInfo._load_from_gerrit C L g s) = s).
Proof.
  rewrite load_from_gerrit_eq.
  destruct (ProjectInfo.head_title s), (ProjectInfo.branch s);
    try (split; [apply same_frame_refl | reflexivity]);
    destruct (ProjectInfo.lookup_change C L g s) as [[c|]|e]; simpl;
    try (split; [apply same_frame_refl | reflexivity]);
    (split; [apply fill_from_change_frame | discriminate]).
Qed.

Lemma ensure_branch_loaded_eq (C : Common) (L : PyLib)
    (g : GerritIntegration.t) (s : ProjectInfo.t) :
  ProjectInfo.ensure_branch_loaded C L g s
  = if PyStr.truthy (ProjectInfo.branch s) then (Return tt, s)
    else ProjectInfo._load_from_gerrit C L g s.
Proof.
  unfold ProjectInfo.ensure_branch_loaded. cbv [bind get].
  destruct (PyStr.truthy (ProjectInfo.branch s)); reflexivity.
Qed.

Lemma ensure_branch_loaded_frame (C : Common) (L : PyLib)
    (g : GerritIntegration.t) (s : ProjectInfo.t) :
  same_frame s (snd (ProjectInfo.ensure_branch_loaded C L g s))
  /\ (is_return (fst (ProjectInfo.ensure_branch_loaded C L g s)) = false ->
      snd (ProjectInfo.ensure_branch_loaded C L g s) = s).
Proof.
  rewrite ensure_branch_loaded_eq.
  destruct (PyStr.truthy (ProjectInfo.branch s)).
  - simpl. split; [apply same_frame_refl | reflexivity].
  - apply load_from_gerrit_frame.
Qed.

Lemma set_checked_out_eq (ws : Workspace) (g : GerritIntegration.t)
    (s : ProjectInfo.t) (w : World) :
  ProjectInfo.set_checked_out ws g (s, w)
  = let s0 := ProjectInfo.with_is_checked_out true s in
    if ProjectInfo.is_tarball s then (Return tt, (s0, w))
    else
      match _get_git_commit_info ws (ProjectInfo.project s) (PStr "HEAD") false with
      | Raise e => (Raise e, (s0, w))
      | Return info =>
          let s1 := ProjectInfo.with_head_hash (of_opt (snd info))
                      (ProjectInfo.with_head_title (fst info) s0) in
          match ProjectInfo.refspec s with
          | None => (Raise (AttributeError "is_static"), (s1, w))
          | Some r =>
              if RefSpec.is_static r then
                match GerritIntegration.get_remote_hash g (ProjectInfo.project s) r w with
                | (Return h, w') => (Return tt, (ProjectInfo.with_remote_hash h s1, w'))
                | (Raise e, w') => (Raise e, (s1, w'))
                end
              else
                (Return tt,
                 (ProjectInfo.with_remote_hash (ProjectInfo.head_hash s1) s1, w))
          end
      end.
Proof.
  unfold ProjectInfo.set_checked_out, ProjectInfo.is_tarball.
  destruct s as [p b [r|] hh ht rh co]; run.
  - destruct (RefSpec.is_tarball r); [reflexivity|].
    destruct (_get_git_commit_info ws _ _ _) as [info|e]; [|reflexivity].
    simpl. destruct (RefSpec.is_static r); [|reflexivity].
    simpl.
    destruct (GerritIntegration.get_remote_hash g _ r w) as [[h|e] w'];
      reflexivity.
  - destruct (_get_git_commit_info ws _ _ _) as [info|e]; reflexivity.
Qed.

Lemma load_missing_info_eq (C : Common) (L : PyLib) (ws : Workspace)
    (g : GerritIntegration.t) (s : ProjectInfo.t) (w : World) :
  ProjectInfo.load_missing_info C L ws g (s, w)
  = if ProjectInfo.is_tarball s then (Return tt, (s, w))
    else if ProjectInfo.is_checked_out s
    then on_fst (ProjectInfo._load_from_gerrit C L g) (s, w)
    else
      match ProjectInfo.refspec s with
      | None => (Raise (AttributeError "fetch"), (s, w))
      | Some r =>
          match GerritIntegration.get_remote_hash g (ProjectInfo.project s) r w with
          | (Raise e, w') => (Raise e, (s, w'))
          | (Return h, w') =>
              let s1 := ProjectInfo.with_remote_hash h
                          (ProjectInfo.with_head_hash h s) in
              match _get_git_commit_info ws (ProjectInfo.project s) h true with
              | Raise e => (Raise e, (s1, w'))
              | Return info =>
                  on_fst (ProjectInfo._load_from_gerrit C L g)
                    (ProjectInfo.with_head_title (fst info) s1, w')
              end
          end
      end.
Proof.
  unfold ProjectInfo.load_missing_info.
  cbv [bind on_fst on_snd get modify lift ret raise fst snd].
  destruct (ProjectInfo.is_tarball s); [reflexivity|].
  destruct (ProjectInfo.is_checked_out s).
  - destruct (ProjectInfo._load_from_gerrit C L g s) as [[]]; reflexivity.
  - destruct (ProjectInfo.refspec s) as [r|]; [|reflexivity].
    destruct (GerritIntegration.get_remote_hash g _ r w) as [[h|e] w'];
      [|reflexivity].
    simpl.
    destruct (_get_git_commit_info ws _ _ _) as [info|e]; [|reflexivity].
    destruct (ProjectInfo._load_from_gerrit C L g _) as [[]]; reflexivity.
Qed.

(** [is_checked_out] tells whether [set_checked_out] has been called. *)
Lemma reachable_flag (c : bool) (s : ProjectInfo.t) :
  reachable c s -> ProjectInfo.is_checked_out s = c.
Proof.
  induction 1 as [p r | c s b _ IH | c s r _ IH | c s C L g _ IH
                  | c s C L ws g w _ IH | c s ws g w _ IH].
  - unfold ProjectInfo.init. destruct r as [r|]; [|reflexivity].
    rewrite set_branch_eq. simpl. destruct (RefSpec.is_tarball r); reflexivity.
  - rewrite set_branch_eq. simpl. destruct (ProjectInfo.branch s); exact IH.
  - rewrite override_refspec_eq. rewrite IH. destruct c; simpl; [exact IH|].
    destruct (PyStr.truthy (RefSpec.branch r)); exact IH.
  - destruct (ensure_branch_loaded_frame C L g s) as [(_ & _ & _ & _ & Hc & _) _].
    congruence.
  - rewrite load_missing_info_eq.
    destruct (ProjectInfo.is_tarball s); [exact IH|].
    destruct (ProjectInfo.is_checked_out s) eqn:Ec.
    + unfold on_fst. simpl.
      destruct (load_from_gerrit_frame C L g s) as [(_ & _ & _ & _ & Hc & _) _].
      destruct (ProjectInfo._load_from_gerrit C L g s). simpl in *. congruence.
    + destruct (ProjectInfo.refspec s) as [r|]; [|simpl; congruence].
      destruct (GerritIntegration.get_remote_hash g _ r w) as [[h|e] w'];
        [|simpl; congruence].
      simpl. destruct (_get_git_commit_info ws _ _ _) as [info|e];
        [|simpl; congruence].
      unfold on_fst. simpl.
      match goal with
      | |- context [ProjectInfo._load_from_gerrit C L g ?x] =>
          destruct (load_from_gerrit_frame C L g x) as [(_ & _ & _ & _ & Hc & _) _];
          destruct (ProjectInfo._load_from_gerrit C L g x)
      end.
      simpl in *. congruence.
  - rewrite set_checked_out_eq. simpl.
    destruct (ProjectInfo.is_tarball s); [reflexivity|].
    destruct (_get_git_commit_info ws _ _ _) as [info|e]; [|reflexivity].
    destruct (ProjectInfo.refspec s) as [r|]; [|reflexivity].
    destruct (RefSpec.is_static r); [|reflexivity].
    destruct (GerritIntegration.get_remote_hash g _ r w) as [[h|e] w'];
      reflexivity.
Qed.

(** The two hashes of a [ProjectInfo] are the same value before checkout,
    and at any time if its locator is not static. *)
Lemma reachable_hashes (c : bool) (s : ProjectInfo.t) :
  reachable c s ->
  c = false
  \/ (exists r, ProjectInfo.refspec s = Some r /\ RefSpec.is_static r = false) ->
  ProjectInfo.head_hash s = ProjectInfo.remote_hash s.
Proof.
  induction 1 as [p r | c s b Hs IH | c s r Hs IH | c s C L g Hs IH
                  | c s C L ws g w Hs IH | c s ws g w Hs IH]; intros Hc.
  - unfold ProjectInfo.init. destruct r as [r|]; [|reflexivity].
    rewrite set_branch_eq. simpl. destruct (RefSpec.is_tarball r); reflexivity.
  - rewrite set_branch_eq in *. simpl in *.
    destruct (ProjectInfo.branch s); apply IH, Hc.
  - pose proof (reachable_flag _ _ Hs) as Hf.
    rewrite override_refspec_eq in *. rewrite Hf in *.
    destruct c; simpl in *; [apply IH, Hc|].
    destruct (PyStr.truthy (RefSpec.branch r)); apply IH; left; reflexivity.
  - destruct (ensure_branch_loaded_frame C L g s) as [(_ & Hr & Hh & Hm & _) _].
    rewrite Hh, Hm. apply IH. rewrite Hr in Hc. exact Hc.
  - pose proof (reachable_flag _ _ Hs) as Hf.
    rewrite load_missing_info_eq in *.
    destruct (ProjectInfo.is_tarball s); [apply IH, Hc|].
    rewrite Hf in *. destruct c.
    + unfold on_fst in *. simpl in *.
      destruct (load_from_gerrit_frame C L g s) as [(_ & Hr & Hh & Hm & _) _].
      destruct (ProjectInfo._load_from_gerrit C L g s). simpl in *.
      rewrite Hh, Hm. apply IH. rewrite Hr in Hc. exact Hc.
    + destruct (ProjectInfo.refspec s) as [r|];
        [|simpl; apply IH; left; reflexivity].
      destruct (GerritIntegration.get_remote_hash g _ r w) as [[h|e] w'];
        [|simpl; apply IH; left; reflexivity].
      simpl. destruct (_get_git_commit_info ws _ _ _) as [info|e];
        [|reflexivity].
      unfold on_fst. simpl.
      match goal with
      | |- context [ProjectInfo._load_from_gerrit C L g ?x] =>
          destruct (load_from_gerrit_frame C L g x) as [(_ & _ & Hh & Hm & _) _];
          destruct (ProjectInfo._load_from_gerrit C L g x)
      end.
      simpl in *. rewrite Hh, Hm. reflexivity.
  - destruct Hc as [Hc | (r & Hr & Hst)]; [discriminate|].
    rewrite set_checked_out_eq in *. unfold ProjectInfo.is_tarball in *.
    simpl in *.
    destruct (ProjectInfo.refspec s) as [r0|] eqn:Er.
    + assert (r0 = r /\ (c = false \/ (exists r1, Some r0 = Some r1
                                         /\ RefSpec.is_static r1 = false))) as [-> Hc].
      { destruct (RefSpec.is_tarball r0);
          [|destruct (_get_git_commit_info ws _ _ _) as [info|e];
            [destruct (RefSpec.is_static r0);
             [destruct (GerritIntegration.get_remote_hash g _ r0 w) as [[h|e] w']|]|]];
          simpl in Hr; rewrite Er in Hr; inversion Hr; subst; split; eauto. }
      destruct (RefSpec.is_tarball r); [apply IH, Hc|].
      destruct (_get_git_commit_info ws _ _ _) as [info|e]; [|apply IH, Hc].
      rewrite Hst. reflexivity.
    + exfalso.
      destruct (_get_git_commit_info ws _ _ _) as [info|e]; simpl in Hr;
        congruence.
Qed.

Lemma py_eq_refl (a : pyval) : py_eq a a = true.
Proof.
  destruct a; simpl; [reflexivity | apply String.eqb_refl | apply Nat.eqb_refl].
Qed.

Lemma set_checked_out_branch (ws : Workspace) (g : GerritIntegration.t)
    (s : ProjectInfo.t) (w : World) :
  ProjectInfo.branch (fst (snd (ProjectInfo.set_checked_out ws g (s, w))))
  = ProjectInfo.branch s.
Proof.
  rewrite set_checked_out_eq. simpl.
  destruct (ProjectInfo.is_tarball s); [reflexivity|].
  destruct (_get_git_commit_info ws _ _ _) as [info|e]; [|reflexivity].
  destruct (ProjectInfo.refspec s) as [r|]; [|reflexivity].
  destruct (RefSpec.is_static r); [|reflexivity].
  destruct (GerritIntegration.get_remote_hash g _ r w) as [[h|e] w'];
    reflexivity.
Qed.

Lemma load_missing_info_branch (C : Common) (L : PyLib) (ws : Workspace)
    (g : GerritIntegration.t) (s : ProjectInfo.t) (w : World) :
  keeps_branch s (fst (snd (ProjectInfo.load_missing_info C L ws g (s, w)))).
Proof.
  rewrite load_missing_info_eq. intros b Hb.
  destruct (ProjectInfo.is_tarball s); [exact Hb|].
  destruct (ProjectInfo.is_checked_out s).
  - unfold on_fst. simpl.
    destruct (load_from_gerrit_frame C L g s) as [(_ & _ & _ & _ & _ & Hk) _].
    destruct (ProjectInfo._load_from_gerrit C L g s). simpl in *. apply Hk, Hb.
  - destruct (ProjectInfo.refspec s) as [r|]; [|exact Hb].
    destruct (GerritIntegration.get_remote_hash g _ r w) as [[h|e] w'];
      [|exact Hb].
    simpl. destruct (_get_git_commit_info ws _ _ _) as [info|e]; [|exact Hb].
    unfold on_fst. simpl.
    match goal with
    | |- context [ProjectInfo._load_from_gerrit C L g ?x] =>
        destruct (load_from_gerrit_frame C L g x) as [(_ & _ & _ & _ & _ & Hk) _];
        destruct (ProjectInfo._load_from_gerrit C L g x)
    end.
    simpl in *. apply Hk, Hb.
Qed.

(** C2, as the code has it.  A branch that is set survives [set_branch],
    both lookups, [load_missing_info] and [set_checked_out], whether they
    return or raise.  [override_refspec] does not go through
    [set_branch]: before checkout it replaces the branch by that of the
    new locator whenever the new locator has a non-empty one, and keeps
    it otherwise. *)
Theorem C2_branch_writes (s : ProjectInfo.t) (b0 : string) :
  ProjectInfo.branch s = Some b0 ->
  (forall b, ProjectInfo.set_branch b s = (Return tt, s))
  /\ (forall C L g,
        ProjectInfo.branch (snd (ProjectInfo._load_from_gerrit C L g s)) = Some b0)
  /\ (forall C L g,
        ProjectInfo.branch (snd (ProjectInfo.ensure_branch_loaded C L g s)) = Some b0)
  /\ (forall C L ws g w,
        ProjectInfo.branch (fst (snd (ProjectInfo.load_missing_info C L ws g (s, w))))
        = Some b0)
  /\ (forall ws g w,
        ProjectInfo.branch (fst (snd (ProjectInfo.set_checked_out ws g (s, w))))
        = Some b0)
  /\ (forall r,
        ProjectInfo.branch (snd (ProjectInfo.override_refspec r s))
        = if negb (ProjectInfo.is_checked_out s) && PyStr.truthy (RefSpec.branch r)
          then RefSpec.branch r else Some b0).
Proof.
  intros Hb. repeat split.
  - intros b. rewrite set_branch_eq, Hb. reflexivity.
  - intros C L g.
    destruct (load_from_gerrit_frame C L g s) as [(_ & _ & _ & _ & _ & Hk) _].
    apply Hk, Hb.
  - intros C L g.
    destruct (ensure_branch_loaded_frame C L g s) as [(_ & _ & _ & _ & _ & Hk) _].
    apply Hk, Hb.
  - intros C L ws g w. apply load_missing_info_branch, Hb.
  - intros ws g w. rewrite set_checked_out_branch. exact Hb.
  - intros r. rewrite override_refspec_eq.
    destruct (ProjectInfo.is_checked_out s); simpl; [exact Hb|].
    destruct (PyStr.truthy (RefSpec.branch r)); simpl; [reflexivity | exact Hb].
Qed.

Lemma C2_branch_writes_witness :
  ProjectInfo.branch (ProjectInfo.init "gromacs" (Some Ex.refspec_master))
    = Some "master"
  /\ ProjectInfo.set_branch (Some "release-2022")
       (ProjectInfo.init "gromacs" (Some Ex.refspec_master))
     = (Return tt, ProjectInfo.init "gromacs" (Some Ex.refspec_master)).
Proof.
  split; [reflexivity|].
  apply (C2_branch_writes (ProjectInfo.init "gromacs" (Some Ex.refspec_master))
           "master").
  reflexivity.
Defined.

(** C2 as stated fails for [override_refspec]: a repository on branch
    [master] whose locator is overridden by one for [release-2022] is on
    [release-2022] afterwards. *)
Lemma C2_override_replaces_branch :
  let s := ProjectInfo.init "gromacs" (Some Ex.refspec_master) in
  reachable false s
  /\ ProjectInfo.branch s = Some "master"
  /\ fst (ProjectInfo.override_refspec Ex.refspec_release s) = Return tt
  /\ ProjectInfo.branch (snd (ProjectInfo.override_refspec Ex.refspec_release s))
     = Some "release-2022"
  /\ ProjectInfo.branch (snd (ProjectInfo.override_refspec Ex.refspec_release s))
     <> ProjectInfo.branch s.
Proof.
  cbv zeta. split; [apply reach_init|]. repeat split. discriminate.
Qed.

(** C4, as the code has it.  [set_checked_out] sets the flag before it
    calls anyone.  When it raises, the flag is set; if the call that
    failed is the one to the workspace nothing else has changed, and
    otherwise (the lookup of the remote hash failed, or there is no
    locator) the title and the hash that the workspace gave are stored
    as well.  The remote hash and the world are as they were. *)
Theorem C4_set_checked_out_raises (ws : Workspace) (g : GerritIntegration.t)
    (s s' : ProjectInfo.t) (w w' : World) (e : exn) :
  ProjectInfo.set_checked_out ws g (s, w) = (Raise e, (s', w')) ->
  w' = w
  /\ ProjectInfo.is_checked_out s' = true
  /\ ProjectInfo.remote_hash s' = ProjectInfo.remote_hash s
  /\ ((_get_git_commit_info ws (ProjectInfo.project s) (PStr "HEAD") false = Raise e
       /\ s' = ProjectInfo.with_is_checked_out true s)
      \/ (exists info,
            _get_git_commit_info ws (ProjectInfo.project s) (PStr "HEAD") false
              = Return info
            /\ s' = ProjectInfo.with_head_hash (of_opt (snd info))
                      (ProjectInfo.with_head_title (fst info)
                         (ProjectInfo.with_is_checked_out true s))
            /\ ((ProjectInfo.refspec s = None /\ e = AttributeError "is_static")
                \/ (exists r, ProjectInfo.refspec s = Some r
                      /\ RefSpec.is_static r = true
                      /\ GerritIntegration._cmd_runner g
                           (GerritIntegration.ls_remote_cmd g
                              (ProjectInfo.project s) r) = Raise e)))).
Proof.
  rewrite set_checked_out_eq. simpl.
  destruct (ProjectInfo.is_tarball s); [discriminate|].
  destruct (_get_git_commit_info ws _ _ _) as [info|e0].
  - destruct (ProjectInfo.refspec s) as [r|] eqn:Er.
    + destruct (RefSpec.is_static r) eqn:Es; [|discriminate].
      destruct (GerritIntegration.get_remote_hash g _ r w) as [[h|e1] w1] eqn:Eg;
        [discriminate|].
      intros H. inversion H. subst.
      apply get_remote_hash_raises in Eg as [Hcmd ->].
      repeat split. right. exists info. repeat split. right. exists r. auto.
    + intros H. inversion H. subst.
      repeat split. right. exists info. repeat split. left. auto.
  - intros H. inversion H. subst. repeat split. left. auto.
Qed.

Lemma C4_set_checked_out_raises_witness :
  ProjectInfo.is_checked_out
    (ProjectInfo.with_is_checked_out true
       (ProjectInfo.init "gromacs" (Some Ex.refspec_master))) = true.
Proof.
  apply (C4_set_checked_out_raises Ex.workspace_broken Ex.gerrit_silent
           (ProjectInfo.init "gromacs" (Some Ex.refspec_master))
           (ProjectInfo.with_is_checked_out true
              (ProjectInfo.init "gromacs" (Some Ex.refspec_master)))
           Ex.w0 Ex.w0 (ExternalError "git rev-list failed")).
  reflexivity.
Defined.

(** C4 as stated fails: when the workspace cannot read the commit, a new
    [ProjectInfo] is left checked out with both hashes unset. *)
Lemma C4_checked_out_without_hashes :
  exists s',
    ProjectInfo.set_checked_out Ex.workspace_broken Ex.gerrit_silent
      (ProjectInfo.init "gromacs" (Some Ex.refspec_master), Ex.w0)
    = (Raise (ExternalError "git rev-list failed"), (s', Ex.w0))
    /\ s' <> ProjectInfo.init "gromacs" (Some Ex.refspec_master)
    /\ ProjectInfo.is_checked_out s' = true
    /\ ProjectInfo.head_hash s' = PNone
    /\ ProjectInfo.remote_hash s' = PNone.
Proof.
  eexists. split; [reflexivity|]. repeat split. discriminate.
Qed.

(** C8.  The two hashes of a [ProjectInfo] whose locator is not static
    are equal at any time of its life, and [set_checked_out] on such a
    locator either leaves them alone (tarball, or the workspace fails) or
    assigns the same value to both.  So [has_correct_hash] is true after [set_checked_out],
    whatever the manifest and the workspace say; and [set_checked_out]
    returns for a tarball and whenever the workspace answers. *)
Theorem C8_non_static_hash_correct (c : bool) (s : ProjectInfo.t)
    (r : RefSpec.t) (ws : Workspace) (g : GerritIntegration.t) (w : World) :
  reachable c s ->
  ProjectInfo.refspec s = Some r ->
  RefSpec.is_static r = false ->
  ProjectInfo.has_correct_hash
    (fst (snd (ProjectInfo.set_checked_out ws g (s, w)))) = Return true
  /\ (RefSpec.is_tarball r = true ->
      fst (ProjectInfo.set_checked_out ws g (s, w)) = Return tt)
  /\ (forall info,
        _get_git_commit_info ws (ProjectInfo.project s) (PStr "HEAD") false
          = Return info ->
        fst (ProjectInfo.set_checked_out ws g (s, w)) = Return tt).
Proof.
  intros Hreach Hr Hs.
  assert (Hh : ProjectInfo.head_hash s = ProjectInfo.remote_hash s).
  { apply (reachable_hashes c s Hreach). right. exists r. auto. }
  rewrite set_checked_out_eq. unfold ProjectInfo.is_tarball. rewrite Hr. simpl.
  unfold ProjectInfo.has_correct_hash.
  destruct (RefSpec.is_tarball r).
  - simpl. rewrite Hh, py_eq_refl. repeat split.
  - destruct (_get_git_commit_info ws _ _ _) as [info|e].
    + rewrite Hs. simpl. rewrite py_eq_refl. repeat split; try discriminate.
    + simpl. rewrite Hh, py_eq_refl. repeat split; try discriminate.
Qed.

Lemma C8_non_static_hash_correct_witness :
  ProjectInfo.has_correct_hash
    (fst (snd (ProjectInfo.set_checked_out Ex.workspace_1111 Ex.gerrit_2222
                 (ProjectInfo.init "gromacs" (Some Ex.refspec_master), Ex.w0))))
  = Return true.
Proof.
  apply (C8_non_static_hash_correct false
           (ProjectInfo.init "gromacs" (Some Ex.refspec_master))
           Ex.refspec_master Ex.workspace_1111 Ex.gerrit_2222 Ex.w0).
  - apply reach_init.
  - reflexivity.
  - reflexivity.
Defined.

(** A static locator can give a mismatch: the working tree is at [1111]
    and Gerrit has [2222] for the change. *)
Lemma static_hash_mismatch :
  ProjectInfo.has_correct_hash
    (fst (snd (ProjectInfo.set_checked_out Ex.workspace_1111 Ex.gerrit_2222
                 (ProjectInfo.init "gromacs" (Some Ex.refspec_change), Ex.w0))))
  = Return false.
Proof. reflexivity. Qed.

(** C9.  Once [set_checked_out] has been called (whether it returned or
    raised, and whatever was called since), [override_refspec] fails
    its assertion and changes nothing; before, it returns and stores the
    new locator. *)
Theorem C9_override_refspec_guard (c : bool) (s : ProjectInfo.t) (r : RefSpec.t) :
  reachable c s ->
  if c then ProjectInfo.override_refspec r s = (Raise AssertionError, s)
  else fst (ProjectInfo.override_refspec r s) = Return tt
       /\ ProjectInfo.refspec (snd (ProjectInfo.override_refspec r s)) = Some r.
Proof.
  intros H. apply reachable_flag in H. rewrite override_refspec_eq, H.
  destruct c; [reflexivity|].
  destruct (PyStr.truthy (RefSpec.branch r)); split; reflexivity.
Qed.

Lemma C9_override_refspec_guard_witness :
  (fst (ProjectInfo.override_refspec Ex.refspec_change
          (ProjectInfo.init "gromacs" (Some Ex.refspec_master))) = Return tt
   /\ ProjectInfo.refspec
        (snd (ProjectInfo.override_refspec Ex.refspec_change
                (ProjectInfo.init "gromacs" (Some Ex.refspec_master))))
      = Some Ex.refspec_change)
  /\ ProjectInfo.override_refspec Ex.refspec_change
       (fst (snd (ProjectInfo.set_checked_out Ex.workspace_1111 Ex.gerrit_2222
                    (ProjectInfo.init "gromacs" (Some Ex.refspec_master), Ex.w0))))
     = (Raise AssertionError,
        fst (snd (ProjectInfo.set_checked_out Ex.workspace_1111 Ex.gerrit_2222
                    (ProjectInfo.init "gromacs" (Some Ex.refspec_master), Ex.w0)))).
Proof.
  split.
  - apply (C9_override_refspec_guard false
             (ProjectInfo.init "gromacs" (Some Ex.refspec_master))
             Ex.refspec_change).
    apply reach_init.
  - apply (C9_override_refspec_guard true
             (fst (snd (ProjectInfo.set_checked_out Ex.workspace_1111 Ex.gerrit_2222
                          (ProjectInfo.init "gromacs" (Some Ex.refspec_master),
                           Ex.w0))))
             Ex.refspec_change).
    apply reach_set_checked_out with (c := false). apply reach_init.
Defined.

(** ** GerritIntegration.query_change *)

Lemma match_count_zero (out : string) :
  GerritIntegration.match_count out = 0 <-> length (PyStr.splitlines out) < 2.
Proof. unfold GerritIntegration.match_count. lia. Qed.

(** C7, as the code has it.  On Windows [query_change] runs no query and
    returns [None].  Elsewhere, for the answer [out] of Gerrit: with no
    change it raises a [BuildError]; with several and uniqueness required
    it raises a [BuildError]; in the other cases it returns the change
    decoded from the first line (or raises what the decoding raises).
    [query_change] has no [ProjectInfo] at hand, and its callers
    [_load_from_gerrit] and [ensure_branch_loaded] leave theirs as it was
    whenever they raise. *)
Theorem C7_query_change (C : Common) (L : PyLib) (g : GerritIntegration.t)
    (query : string) (expect_unique : bool) (out : string) :
  GerritIntegration._cmd_runner g (GerritIntegration.query_cmd g query)
    = Return out ->
  (GerritIntegration._is_windows g = true ->
   GerritIntegration.query_change C L g query expect_unique = Return None)
  /\ (GerritIntegration._is_windows g = false ->
      (GerritIntegration.match_count out = 0 ->
       GerritIntegration.query_change C L g query expect_unique
       = Raise (BuildError (query ++ " does not match any change")))
      /\ (1 < GerritIntegration.match_count out -> expect_unique = true ->
          GerritIntegration.query_change C L g query expect_unique
          = Raise (BuildError (query ++ " does not identify a unique change")))
      /\ (GerritIntegration.match_count out = 1
          \/ (1 < GerritIntegration.match_count out /\ expect_unique = false) ->
          exists line,
            PyStr.splitlines out !! 0 = Some line
            /\ GerritIntegration.query_change C L g query expect_unique
               = GerritIntegration.decode_change C L line))
  /\ (forall s : ProjectInfo.t,
        (is_return (fst (ProjectInfo._load_from_gerrit C L g s)) = false ->
         snd (ProjectInfo._load_from_gerrit C L g s) = s)
        /\ (is_return (fst (ProjectInfo.ensure_branch_loaded C L g s)) = false ->
            snd (ProjectInfo.ensure_branch_loaded C L g s) = s)).
Proof.
  intros Hcmd. unfold GerritIntegration.query_change, GerritIntegration.match_count.
  split; [intros ->; reflexivity|]. split.
  - intros ->. rewrite Hcmd. simpl. repeat split.
    + intros H0.
      assert (Hl : (length (PyStr.splitlines out) <? 2) = true)
        by (apply Nat.ltb_lt; lia).
      rewrite Hl. reflexivity.
    + intros H1 ->.
      assert (Hl : (length (PyStr.splitlines out) <? 2) = false)
        by (apply Nat.ltb_ge; lia).
      assert (Hm : (2 <? length (PyStr.splitlines out)) = true)
        by (apply Nat.ltb_lt; lia).
      rewrite Hl, Hm. reflexivity.
    + intros H.
      assert (Hl : (length (PyStr.splitlines out) <? 2) = false)
        by (apply Nat.ltb_ge; lia).
      assert (Hm : (2 <? length (PyStr.splitlines out)) && expect_unique = false).
      { destruct H as [H | [_ ->]]; [|apply andb_false_r].
        apply andb_false_intro1, Nat.ltb_ge. lia. }
      rewrite Hl, Hm.
      destruct (PyStr.splitlines out) as [|line rest] eqn:El;
        [simpl in H; lia|].
      exists line. split; reflexivity.
  - intros s. split.
    + apply load_from_gerrit_frame.
    + apply ensure_branch_loaded_frame.
Qed.

Lemma C7_query_change_witness :
  GerritIntegration.query_change Ex.common Ex.pylib Ex.gerrit_two "3412" true
  = Raise (BuildError "3412 does not identify a unique change").
Proof.
  apply (C7_query_change Ex.common Ex.pylib Ex.gerrit_two "3412" true
           Ex.answer_two).
  - reflexivity.
  - reflexivity.
  - vm_compute. lia.
  - reflexivity.
Defined.

(** C7 as stated fails on Windows: the query matches no change and
    uniqueness is required, and [query_change] returns [None]. *)
Lemma C7_windows_returns_none :
  GerritIntegration._cmd_runner Ex.gerrit_windows
    (GerritIntegration.query_cmd Ex.gerrit_windows "3412") = Return Ex.answer_none
  /\ GerritIntegration.match_count Ex.answer_none = 0
  /\ GerritIntegration.query_change Ex.common Ex.pylib Ex.gerrit_windows "3412" true
     = Return None.
Proof. repeat split. Qed.

(** ** ProjectsManager.check_projects *)

Lemma check_loop_mismatch (infos : list ProjectInfo.t) (all_correct : bool)
    (w : World) :
  (exists info, info ∈ infos
     /\ ProjectInfo.is_checked_out info = true
     /\ py_eq (ProjectInfo.head_hash info) (ProjectInfo.remote_hash info) = false) ->
  ProjectsManager.check_loop infos all_correct w = (Raise (NameError "project"), w).
Proof.
  induction infos as [|i infos IH]; intros (info & Hin & Hco & Hne).
  - inversion Hin.
  - simpl. unfold ProjectInfo.has_correct_hash.
    destruct (ProjectInfo.is_checked_out i) eqn:Ei; simpl.
    + run. destruct (py_eq (ProjectInfo.head_hash i) (ProjectInfo.remote_hash i))
        eqn:Eq; simpl; [|reflexivity].
      apply IH. exists info. apply elem_of_cons in Hin as [->|Hin]; [congruence|].
      auto.
    + apply IH. exists info. apply elem_of_cons in Hin as [->|Hin]; [congruence|].
      auto.
Qed.

Lemma check_loop_all_correct (infos : list ProjectInfo.t) (all_correct : bool)
    (w : World) :
  (forall info, info ∈ infos -> ProjectInfo.is_checked_out info = true ->
     py_eq (ProjectInfo.head_hash info) (ProjectInfo.remote_hash info) = true) ->
  ProjectsManager.check_loop infos all_correct w = (Return all_correct, w).
Proof.
  induction infos as [|i infos IH]; intros H; [reflexivity|].
  simpl. unfold ProjectInfo.has_correct_hash.
  destruct (ProjectInfo.is_checked_out i) eqn:Ei; simpl.
  - run. rewrite (H i) by (auto; apply list_elem_of_here). simpl.
    apply IH. intros info Hin. apply H. apply list_elem_of_further, Hin.
  - apply IH. intros info Hin. apply H. apply list_elem_of_further, Hin.
Qed.

(** C1 fails on the code.  If some checked-out repository has a hash that
    differs from its remote hash, [check_projects] raises [NameError] for
    the name [project] at the first such repository: nothing is printed,
    the repositories after it are not examined, and no [BuildError] is
    raised. *)
Theorem C1_check_projects_name_error (m : ProjectsManager.t) (w : World) :
  (exists info, info ∈ ProjectsManager.values (ProjectsManager._projects m)
     /\ ProjectInfo.is_checked_out info = true
     /\ py_eq (ProjectInfo.head_hash info) (ProjectInfo.remote_hash info) = false) ->
  ProjectsManager.check_projects (m, w) = (Raise (NameError "project"), (m, w)).
Proof.
  intros H. unfold ProjectsManager.check_projects.
  cbv [bind on_fst on_snd get fst snd].
  rewrite (check_loop_mismatch _ true w H). destruct m; reflexivity.
Qed.

Lemma C1_check_projects_name_error_witness :
  ProjectsManager.check_projects (Ex.manager_mismatch, Ex.w0)
  = (Raise (NameError "project"), (Ex.manager_mismatch, Ex.w0)).
Proof.
  apply (C1_check_projects_name_error Ex.manager_mismatch Ex.w0).
  exists Ex.info_bad. split; [|split; reflexivity].
  apply list_elem_of_further, list_elem_of_here.
Defined.

(** Without a mismatch [check_projects] returns and prints nothing. *)
Lemma check_projects_all_correct (m : ProjectsManager.t) (w : World) :
  (forall info, info ∈ ProjectsManager.values (ProjectsManager._projects m) ->
     ProjectInfo.is_checked_out info = true ->
     py_eq (ProjectInfo.head_hash info) (ProjectInfo.remote_hash info) = true) ->
  ProjectsManager.check_projects (m, w) = (Return tt, (m, w)).
Proof.
  intros H. unfold ProjectsManager.check_projects.
  cbv [bind on_fst on_snd get fst snd].
  rewrite (check_loop_all_correct _ true w H). destruct m; reflexivity.
Qed.

(** ** The registry *)

Lemma dict_get_set_eq {V} (k : string) (v : V) (d : list (string * V)) :
  ProjectsManager.dict_get k (ProjectsManager.dict_set k v d) = Some v.
Proof.
  induction d as [|[k' v'] d IH]; simpl.
  - rewrite String.eqb_refl. reflexivity.
  - destruct (String.eqb k k') eqn:E; simpl.
    + rewrite String.eqb_refl. reflexivity.
    + rewrite E. exact IH.
Qed.

Lemma dict_get_set_ne {V} (k k' : string) (v : V) (d : list (string * V)) :
  k <> k' ->
  ProjectsManager.dict_get k' (ProjectsManager.dict_set k v d)
  = ProjectsManager.dict_get k' d.
Proof.
  intros Hne. induction d as [|[k0 v0] d IH]; simpl.
  - apply String.eqb_neq in Hne. rewrite String.eqb_sym, Hne. reflexivity.
  - destruct (String.eqb k k0) eqn:E; simpl.
    + apply String.eqb_eq in E. subst k0.
      apply String.eqb_neq in Hne. rewrite String.eqb_sym, Hne. reflexivity.
    + destruct (String.eqb k' k0); [reflexivity | exact IH].
Qed.

Lemma dict_set_keys {V} (k : string) (v v0 : V) (d : list (string * V)) :
  ProjectsManager.dict_get k d = Some v0 ->
  map fst (ProjectsManager.dict_set k v d) = map fst d.
Proof.
  induction d as [|[k' v'] d IH]; simpl; [discriminate|].
  destruct (String.eqb k k') eqn:E; simpl.
  - apply String.eqb_eq in E. subst. reflexivity.
  - intros H. rewrite (IH H). reflexivity.
Qed.

Lemma dict_get_elem {V} (k : string) (v : V) (d : list (string * V)) :
  ProjectsManager.dict_get k d = Some v -> (k, v) ∈ d.
Proof.
  induction d as [|[k' v'] d IH]; simpl; [discriminate|].
  destruct (String.eqb k k') eqn:E.
  - apply String.eqb_eq in E. subst. intros H. inversion H. apply list_elem_of_here.
  - intros H. apply list_elem_of_further, IH, H.
Qed.

Lemma elem_dict_get {V} (k : string) (v : V) (d : list (string * V)) :
  NoDup (map fst d) -> (k, v) ∈ d -> ProjectsManager.dict_get k d = Some v.
Proof.
  induction d as [|[k' v'] d IH]; simpl; intros Hnd Hin; [inversion Hin|].
  apply NoDup_cons in Hnd as [Hk Hnd].
  apply elem_of_cons in Hin as [Heq|Hin].
  - inversion Heq. subst. rewrite String.eqb_refl. reflexivity.
  - destruct (String.eqb k k') eqn:E.
    + apply String.eqb_eq in E. subst k'. exfalso. apply Hk.
      apply list_elem_of_In, in_map_iff. exists (k, v). split; [reflexivity|].
      apply list_elem_of_In, Hin.
    + apply IH; assumption.
Qed.

Lemma at_project_eq {A} (p : string) (m : M (ProjectInfo.t * World) A)
    (mgr : ProjectsManager.t) (w : World) :
  ProjectsManager.at_project p m (mgr, w)
  = match ProjectsManager.dict_get p (ProjectsManager._projects mgr) with
    | None => (Raise (KeyError p), (mgr, w))
    | Some info =>
        (fst (m (info, w)),
         (ProjectsManager.with_projects
            (ProjectsManager.dict_set p (fst (snd (m (info, w))))
               (ProjectsManager._projects mgr)) mgr,
          snd (snd (m (info, w)))))
    end.
Proof.
  unfold ProjectsManager.at_project. simpl.
  destruct (ProjectsManager.dict_get p _); [|reflexivity].
  destruct (m (t, w)) as [r [i w']]. reflexivity.
Qed.

Lemma override_twice (r : RefSpec.t) (s : ProjectInfo.t) :
  snd (ProjectInfo.override_refspec r (snd (ProjectInfo.override_refspec r s)))
  = snd (ProjectInfo.override_refspec r s).
Proof.
  rewrite !override_refspec_eq.
  destruct (ProjectInfo.is_checked_out s) eqn:E; simpl.
  - rewrite E. reflexivity.
  - destruct (PyStr.truthy (RefSpec.branch r)) eqn:Et; simpl; rewrite E, ?Et;
      reflexivity.
Qed.

(** The last loop of [_resolve_missing_refspecs]: every repository of [l]
    is overridden, in any order and however often it is visited. *)
Lemma for_each_override (r : RefSpec.t) (l : list string) :
  forall (d : list (string * ProjectInfo.t)) (b : option string) (w : World),
  (forall p, p ∈ l ->
     exists info, ProjectsManager.dict_get p d = Some info
                  /\ ProjectInfo.is_checked_out info = false) ->
  exists d',
    for_each l (fun project =>
      ProjectsManager.at_project project
        (on_fst (ProjectInfo.override_refspec r))) (ProjectsManager.mk d b, w)
    = (Return tt, (ProjectsManager.mk d' b, w))
    /\ map fst d' = map fst d
    /\ forall k,
         ProjectsManager.dict_get k d'
         = if bool_decide (k ∈ l)
           then (fun i => snd (ProjectInfo.override_refspec r i))
                  <$> ProjectsManager.dict_get k d
           else ProjectsManager.dict_get k d.
Proof.
  induction l as [|p l IH]; intros d b w Hl.
  - exists d. split; [reflexivity|]. split; [reflexivity|].
    intros k. rewrite bool_decide_eq_false_2; [reflexivity|]. inversion 1.
  - destruct (Hl p (list_elem_of_here _ _)) as (info & Hget & Hco).
    set (d1 := ProjectsManager.dict_set p
                 (snd (ProjectInfo.override_refspec r info)) d).
    assert (Hstep :
      ProjectsManager.at_project p (on_fst (ProjectInfo.override_refspec r))
        (ProjectsManager.mk d b, w)
      = (Return tt, (ProjectsManager.mk d1 b, w))).
    { rewrite at_project_eq. simpl. rewrite Hget. unfold on_fst, d1. simpl.
      rewrite override_refspec_eq, Hco. reflexivity. }
    destruct (IH d1 b w) as (d' & Hrun & Hkeys & Hlook).
    { intros q Hq. destruct (decide (p = q)) as [<-|Hne].
      - exists (snd (ProjectInfo.override_refspec r info)).
        unfold d1. rewrite dict_get_set_eq. split; [reflexivity|].
        rewrite override_refspec_eq, Hco.
        destruct (PyStr.truthy (RefSpec.branch r)); exact Hco.
      - unfold d1. rewrite dict_get_set_ne by exact Hne.
        apply Hl. apply list_elem_of_further, Hq. }
    exists d'. split; [|split].
    + simpl. unfold bind at 1. rewrite Hstep. exact Hrun.
    + rewrite Hkeys. unfold d1. eapply dict_set_keys, Hget.
    + intros k. rewrite Hlook. unfold d1.
      destruct (decide (p = k)) as [<-|Hne].
      * rewrite dict_get_set_eq, Hget.
        rewrite (bool_decide_eq_true_2 (p ∈ p :: l)) by apply list_elem_of_here.
        destruct (bool_decide (p ∈ l)); simpl; [|reflexivity].
        rewrite override_twice. reflexivity.
      * rewrite dict_get_set_ne by exact Hne.
        assert (Hiff : bool_decide (k ∈ l) = bool_decide (k ∈ p :: l)).
        { apply bool_decide_ext. rewrite elem_of_cons. split; [auto|].
          intros [->|H]; [congruence | exact H]. }
        rewrite Hiff. reflexivity.
Qed.

Lemma bind_eq {St A B} (m : M St A) (k : A -> M St B) (s s' : St) (a : A) :
  m s = (Return a, s') -> bind m k s = k a s'.
Proof. intros H. unfold bind. rewrite H. reflexivity. Qed.

Lemma bind_raise {St A B} (m : M St A) (k : A -> M St B) (s s' : St) (e : exn) :
  m s = (Raise e, s') -> bind m k s = (Raise e, s').
Proof. intros H. unfold bind. rewrite H. reflexivity. Qed.

Lemma on_fst_eq {S1 S2 A} (m : M S1 A) (s1 : S1) (s2 : S2) :
  on_fst m (s1, s2) = (fst (m s1), (snd (m s1), s2)).
Proof. unfold on_fst. simpl. destruct (m s1). reflexivity. Qed.

(** Membership in [missing]. *)
Lemma elem_of_missing (m : ProjectsManager.t) (p : string) :
  p ∈ ProjectsManager.missing_of m <->
  exists k info, (k, info) ∈ ProjectsManager._projects m
                 /\ ProjectInfo.refspec info = None
                 /\ ProjectInfo.project info = p.
Proof.
  unfold ProjectsManager.missing_of, ProjectsManager.set_of, ProjectsManager.values.
  rewrite elem_of_remove_dups, list_elem_of_In, in_map_iff. split.
  - intros (info & Hp & Hin).
    apply list_elem_of_In, list_elem_of_filter in Hin as [Hr Hin].
    apply list_elem_of_In, in_map_iff in Hin as ([k i] & Hi & Hin). simpl in Hi.
    subst i. exists k, info. split; [apply list_elem_of_In, Hin | auto].
  - intros (k & info & Hin & Hr & Hp). exists info. split; [exact Hp|].
    apply list_elem_of_In, list_elem_of_filter. split; [exact Hr|].
    apply list_elem_of_In, in_map_iff. exists (k, info). split; [reflexivity|].
    apply list_elem_of_In, Hin.
Qed.

(** The lookup of the branch of the only known repository, when it gives
    none: the registry keeps its keys, and every repository its locator
    and its flag. *)
Lemma load_known_branch_none (C : Common) (L : PyLib)
    (f : ProjectsManager.Factory) (d : list (string * ProjectInfo.t))
    (b : option string) (w : World) (known : list (string * ProjectInfo.t)) :
  NoDup (map fst d) ->
  PyStr.truthy b = false ->
  (forall kp, kp ∈ known -> kp ∈ d) ->
  (known = []
   \/ exists k info, known = [(k, info)]
        /\ fst (ProjectInfo.ensure_branch_loaded C L (ProjectsManager.gerrit f) info)
           = Return tt
        /\ PyStr.truthy
             (ProjectInfo.branch
                (snd (ProjectInfo.ensure_branch_loaded C L
                        (ProjectsManager.gerrit f) info))) = false) ->
  exists d1 b1,
    ProjectsManager.load_known_branch C L f known (ProjectsManager.mk d b, w)
    = (Return tt, (ProjectsManager.mk d1 b1, w))
    /\ PyStr.truthy b1 = false
    /\ map fst d1 = map fst d
    /\ forall k info, ProjectsManager.dict_get k d = Some info ->
         exists info1, ProjectsManager.dict_get k d1 = Some info1
           /\ ProjectInfo.refspec info1 = ProjectInfo.refspec info
           /\ ProjectInfo.is_checked_out info1 = ProjectInfo.is_checked_out info.
Proof.
  intros Hnd Hb Hsub [-> | (k & info & -> & Hret & Hnone)].
  - exists d, b. split; [reflexivity|]. split; [exact Hb|].
    split; [reflexivity|]. intros k info H. exists info. auto.
  - assert (Hget : ProjectsManager.dict_get k d = Some info).
    { apply elem_dict_get; [exact Hnd|]. apply Hsub, list_elem_of_here. }
    set (info' := snd (ProjectInfo.ensure_branch_loaded C L
                         (ProjectsManager.gerrit f) info)) in *.
    exists (ProjectsManager.dict_set k info' d), (ProjectInfo.branch info').
    split; [|split; [exact Hnone | split]].
    + unfold ProjectsManager.load_known_branch.
      erewrite bind_eq; cycle 1.
      { rewrite at_project_eq. simpl. rewrite Hget, on_fst_eq. simpl.
        rewrite Hret. reflexivity. }
      erewrite bind_eq; cycle 1.
      { unfold ProjectsManager.project_at. run. rewrite dict_get_set_eq.
        reflexivity. }
      reflexivity.
    + eapply dict_set_keys, Hget.
    + intros k0 info0 H0.
      destruct (ensure_branch_loaded_frame C L (ProjectsManager.gerrit f) info)
        as [(_ & Hr & _ & _ & Hc & _) _].
      destruct (decide (k = k0)) as [<-|Hne].
      * rewrite dict_get_set_eq. exists info'. rewrite Hget in H0.
        inversion H0. subst info0. auto.
      * rewrite dict_get_set_ne by exact Hne. exists info0. auto.
Qed.

(** C6.  In a registry as initialization builds it, with no global branch
    yet, some repository without locator, and no branch to learn (there is
    no other repository with a locator than the automation repository, or
    there is one and its lookup leaves its branch unset):
    [_resolve_missing_refspecs] returns, the global branch is ["master"],
    every repository that had no locator has the one locator
    [RefSpec('refs/heads/master')], a branch locator, and every other
    repository has the locator that it had. *)
Theorem C6_fallback_master (C : Common) (L : PyLib)
    (f : ProjectsManager.Factory) (m : ProjectsManager.t) (w : World) :
  set_iter_ok L ->
  ProjectsManager.registry_wf (ProjectsManager._projects m) ->
  PyStr.truthy (ProjectsManager._branch m) = false ->
  ProjectsManager.missing_of m <> [] ->
  (forall k info, (k, info) ∈ ProjectsManager._projects m ->
     ProjectInfo.refspec info = None -> ProjectInfo.is_checked_out info = false) ->
  (ProjectsManager.known_of C m = []
   \/ exists k info, ProjectsManager.known_of C m = [(k, info)]
        /\ fst (ProjectInfo.ensure_branch_loaded C L (ProjectsManager.gerrit f) info)
           = Return tt
        /\ PyStr.truthy
             (ProjectInfo.branch
                (snd (ProjectInfo.ensure_branch_loaded C L
                        (ProjectsManager.gerrit f) info))) = false) ->
  let master :=
    RefSpec.mk "refs/heads/master" "refs/heads/master" (Some "master") None None in
  RefSpec.init "refs/heads/master" None None = Return master
  /\ RefSpec.active master = [RefSpec.Branch]
  /\ exists m',
       ProjectsManager._resolve_missing_refspecs C L f (m, w) = (Return tt, (m', w))
       /\ ProjectsManager._branch m' = Some "master"
       /\ map fst (ProjectsManager._projects m') = map fst (ProjectsManager._projects m)
       /\ forall k info,
            ProjectsManager.dict_get k (ProjectsManager._projects m) = Some info ->
            exists info',
              ProjectsManager.dict_get k (ProjectsManager._projects m') = Some info'
              /\ (ProjectInfo.refspec info = None ->
                  ProjectInfo.refspec info' = Some master
                  /\ ProjectInfo.branch info' = Some "master")
              /\ (ProjectInfo.refspec info <> None ->
                  ProjectInfo.refspec info' = ProjectInfo.refspec info).
Proof.
  intros Hperm [Hnd Hname] Hb Hmiss Hco Hknown master.
  split; [reflexivity|]. split; [reflexivity|].
  destruct m as [d b]. simpl in Hnd, Hname, Hb, Hco.
  destruct (load_known_branch_none C L f d b w
              (ProjectsManager.known_of C (ProjectsManager.mk d b)) Hnd Hb)
    as (d1 & b1 & Hload & Hb1 & Hkeys1 & Hlook1).
  { intros kp Hkp. unfold ProjectsManager.known_of in Hkp.
    apply list_elem_of_filter in Hkp as [_ Hkp]. exact Hkp. }
  { exact Hknown. }
  remember (ProjectsManager.missing_of (ProjectsManager.mk d b)) as missing
    eqn:Emiss.
  assert (Hin : forall p, p ∈ set_iter L missing <-> p ∈ missing).
  { intros p. rewrite (Hperm missing). reflexivity. }
  assert (Hmem : forall k info, ProjectsManager.dict_get k d = Some info ->
            (k ∈ missing <-> ProjectInfo.refspec info = None)).
  { intros k info Hget. rewrite Emiss, elem_of_missing. simpl. split.
    - intros (k2 & info2 & Hin2 & Hr2 & Hp2).
      pose proof (Hname _ _ Hin2) as Hk2. rewrite Hp2 in Hk2. subst k2.
      apply (elem_dict_get _ _ _ Hnd) in Hin2. congruence.
    - intros Hr. exists k, info. apply dict_get_elem in Hget.
      split; [exact Hget|]. split; [exact Hr|]. apply Hname, Hget. }
  destruct (for_each_override master (set_iter L missing) d1 (Some "master") w)
    as (d' & Hrun & Hkeys' & Hlook').
  { intros p Hp. apply Hin in Hp.
    pose proof Hp as Hp'. rewrite Emiss in Hp'. apply elem_of_missing in Hp'.
    destruct Hp' as (k & info & Hkin & Hr & Hpk). simpl in Hkin.
    pose proof (Hname _ _ Hkin) as Hk. rewrite Hpk in Hk. subst k.
    pose proof (elem_dict_get _ _ _ Hnd Hkin) as Hget.
    destruct (Hlook1 _ _ Hget) as (info1 & Hget1 & _ & Hc1).
    exists info1. split; [exact Hget1|]. rewrite Hc1. eapply Hco; eauto. }
  exists (ProjectsManager.mk d' (Some "master")).
  split; [|split; [reflexivity | split]].
  - unfold ProjectsManager._resolve_missing_refspecs.
    erewrite bind_eq by reflexivity. cbv beta zeta. cbn [fst snd].
    rewrite <- Emiss.
    destruct missing as [|x xs]; [contradiction|].
    cbn [ProjectsManager._branch]. rewrite Hb. cbn [negb].
    erewrite bind_eq by exact Hload.
    erewrite bind_eq by reflexivity.
    cbn [fst snd ProjectsManager._branch]. rewrite Hb1. cbn [negb].
    erewrite bind_eq by reflexivity.
    erewrite bind_eq by reflexivity.
    cbn [fst snd ProjectsManager._branch ProjectsManager.with__branch
         ProjectsManager._projects].
    erewrite bind_eq by reflexivity.
    exact Hrun.
  - simpl. rewrite Hkeys'. exact Hkeys1.
  - simpl. intros k info Hget.
    destruct (Hlook1 _ _ Hget) as (info1 & Hget1 & Hr1 & Hc1).
    rewrite Hlook', Hget1. simpl.
    destruct (ProjectInfo.refspec info) as [r|] eqn:Er.
    + rewrite bool_decide_eq_false_2.
      * exists info1. split; [reflexivity|]. split; [discriminate|].
        intros _. exact Hr1.
      * rewrite Hin, (Hmem _ _ Hget). congruence.
    + rewrite bool_decide_eq_true_2 by (rewrite Hin, (Hmem _ _ Hget); exact Er).
      eexists. split; [reflexivity|]. split; [|congruence].
      intros _. rewrite override_refspec_eq, Hc1.
      rewrite (Hco k info (dict_get_elem _ _ _ Hget) Er). simpl. auto.
Qed.

Lemma C6_fallback_master_witness :
  exists m',
    ProjectsManager._resolve_missing_refspecs Ex.common Ex.pylib
      (Ex.factory_of ∅ Ex.gerrit_windows) (Ex.manager_static, Ex.w0)
    = (Return tt, (m', Ex.w0))
    /\ ProjectsManager._branch m' = Some "master"
    /\ map fst (ProjectsManager._projects m')
       = map fst (ProjectsManager._projects Ex.manager_static)
    /\ forall k info,
         ProjectsManager.dict_get k (ProjectsManager._projects Ex.manager_static)
           = Some info ->
         exists info',
           ProjectsManager.dict_get k (ProjectsManager._projects m') = Some info'
           /\ (ProjectInfo.refspec info = None ->
               ProjectInfo.refspec info' = Some Ex.refspec_master
               /\ ProjectInfo.branch info' = Some "master")
           /\ (ProjectInfo.refspec info <> None ->
               ProjectInfo.refspec info' = ProjectInfo.refspec info).
Proof.
  apply (C6_fallback_master Ex.common Ex.pylib (Ex.factory_of ∅ Ex.gerrit_windows)
           Ex.manager_static Ex.w0).
  - intros l. reflexivity.
  - split.
    + simpl. apply (bool_decide_unpack _). vm_compute. exact I.
    + intros k info H. simpl in H.
      repeat (apply elem_of_cons in H as [H|H]; [inversion H; reflexivity|]).
      inversion H.
  - reflexivity.
  - vm_compute. discriminate.
  - intros k info H Hr. simpl in H.
    repeat (apply elem_of_cons in H as [H|H]; [inversion H; reflexivity|]).
    inversion H.
  - right. exists "gromacs", (ProjectInfo.init "gromacs" (Some Ex.refspec_abc)).
    split; [vm_compute; reflexivity|]. split; reflexivity.
Defined.

(** ** ProjectsManager._init_projects *)

Lemma parse_refspec_absent (f : ProjectsManager.Factory) (p : string) :
  ProjectsManager.env f !! (PyStr.upper p ++ "_REFSPEC") = None ->
  ProjectsManager._parse_refspec f p = Return (None, false).
Proof. unfold ProjectsManager._parse_refspec. intros ->. reflexivity. Qed.

Lemma parse_refspec_present (f : ProjectsManager.Factory) (p v : string)
    (pr : option RefSpec.t * bool) :
  ProjectsManager.env f !! (PyStr.upper p ++ "_REFSPEC") = Some v ->
  ProjectsManager._parse_refspec f p = Return pr ->
  snd pr = true
  /\ (PyStr.truthy (Some v) = false \/ PyStr.lower v = "auto" -> fst pr = None).
Proof.
  unfold ProjectsManager._parse_refspec. intros ->.
  destruct (PyStr.truthy (Some v)) eqn:Et; simpl.
  - destruct (String.eqb (PyStr.lower v) "auto") eqn:Ea; simpl.
    + intros H. inversion H. auto.
    + destruct (RefSpec.init v _ _) as [rs|e]; simpl; [|discriminate].
      intros H. inversion H. simpl. split; [reflexivity|].
      intros [Hf | Ha]; [discriminate|].
      apply String.eqb_neq in Ea. contradiction.
  - intros H. inversion H. auto.
Qed.

(** The first loop of [_init_projects]: a [ProjectInfo] is stored for the
    repositories of the list whose [_REFSPEC] input parses, under their
    names; the global branch and the world are not touched. *)
Lemma create_loop (C : Common) (f : ProjectsManager.Factory) (l : list string) :
  forall (d : list (string * ProjectInfo.t)) (b : option string) (w : World),
  exists d',
    snd (for_each l (ProjectsManager.create_project f) (ProjectsManager.mk d b, w))
    = (ProjectsManager.mk d' b, w)
    /\ (forall p,
          ProjectsManager.dict_get p d' = ProjectsManager.dict_get p d
          \/ exists loc, ProjectsManager._parse_refspec f p = Return (loc, true)
               /\ ProjectsManager.dict_get p d' = Some (ProjectInfo.init p loc))
    /\ (is_return (fst (for_each l (ProjectsManager.create_project f)
                         (ProjectsManager.mk d b, w))) = true ->
        forall p loc, p ∈ l ->
          ProjectsManager._parse_refspec f p = Return (loc, true) ->
          ProjectsManager.dict_get p d' = Some (ProjectInfo.init p loc)).
Proof.
  induction l as [|q l IH]; intros d b w.
  - exists d. split; [reflexivity|]. split; [auto|]. intros _ p loc Hp. inversion Hp.
  - cbn [for_each]. unfold bind at 1 2.
    unfold ProjectsManager.create_project at 1 3.
    unfold bind at 1 2. unfold lift at 1 2.
    destruct (ProjectsManager._parse_refspec f q) as [[loc0 [|]]|e] eqn:Eq;
      cbn [fst snd].
    + rewrite on_fst_eq. cbn [fst snd modify ProjectsManager.with_projects
        ProjectsManager._projects ProjectsManager._branch].
      destruct (IH (ProjectsManager.dict_set q (ProjectInfo.init q loc0) d) b w)
        as (d' & Hst & Hlook & Hret).
      exists d'. split; [exact Hst|]. split.
      * intros p. destruct (Hlook p) as [Hsame | Hnew]; [|right; exact Hnew].
        destruct (decide (q = p)) as [<-|Hne].
        -- right. exists loc0. split; [exact Eq|].
           rewrite Hsame. apply dict_get_set_eq.
        -- left. rewrite Hsame. apply dict_get_set_ne, Hne.
      * intros Hr p loc Hp Hparse.
        destruct (decide (p ∈ l)) as [Hin|Hnin]; [apply (Hret Hr p loc Hin Hparse)|].
        apply elem_of_cons in Hp as [->|Hp]; [|contradiction].
        rewrite Eq in Hparse. inversion Hparse. subst loc0.
        destruct (Hlook q) as [Hsame | (loc' & Hp' & Hg')].
        -- rewrite Hsame. apply dict_get_set_eq.
        -- rewrite Eq in Hp'. inversion Hp'. subst loc'. exact Hg'.
    + cbn [ret].
      destruct (IH d b w) as (d' & Hst & Hlook & Hret).
      exists d'. split; [exact Hst|]. split; [exact Hlook|].
      intros Hr p loc Hp Hparse.
      apply elem_of_cons in Hp as [->|Hp]; [congruence|].
      apply (Hret Hr p loc Hp Hparse).
    + exists d. split; [reflexivity|]. split; [auto|]. discriminate.
Qed.

Lemma create_loop_raises (f : ProjectsManager.Factory) (p : string) (e : exn)
    (l : list string) :
  ProjectsManager._parse_refspec f p = Raise e ->
  p ∈ l ->
  forall s,
    is_return (fst (for_each l (ProjectsManager.create_project f) s)) = false.
Proof.
  intros Eparse. induction l as [|q l IH]; intros Hin s; [inversion Hin|].
  cbn [for_each]. unfold bind at 1.
  destruct (decide (q = p)) as [->|Hne].
  - unfold ProjectsManager.create_project, bind, lift. rewrite Eparse. reflexivity.
  - apply elem_of_cons in Hin as [->|Hin]; [congruence|].
    destruct (ProjectsManager.create_project f q s) as [[[]|e0] s1];
      [apply IH, Hin | reflexivity].
Qed.

Lemma preserves_ret {St A} (P : St -> Prop) (a : A) : preserves P (ret a).
Proof. intros s H. exact H. Qed.

Lemma preserves_raise {St A} (P : St -> Prop) (e : exn) :
  preserves P (@raise St A e).
Proof. intros s H. exact H. Qed.

Lemma preserves_lift {St A} (P : St -> Prop) (r : result A) :
  preserves P (@lift St A r).
Proof. intros s H. exact H. Qed.

Lemma preserves_bind {St A B} (P : St -> Prop) (m : M St A) (k : A -> M St B) :
  preserves P m -> (forall a, preserves P (k a)) -> preserves P (bind m k).
Proof.
  intros Hm Hk s H. unfold bind. specialize (Hm s H).
  destruct (m s) as [[a|e] s']; simpl in *; [apply Hk, Hm | exact Hm].
Qed.

Lemma preserves_for_each {St A} (P : St -> Prop) (l : list A)
    (body : A -> M St unit) :
  (forall x, preserves P (body x)) -> preserves P (for_each l body).
Proof.
  intros Hb. induction l as [|x l IH]; simpl.
  - apply preserves_ret.
  - apply preserves_bind; [apply Hb | intros _; exact IH].
Qed.

Lemma no_key_get (p : string) : preserves (no_key p) (on_fst get).
Proof. intros [m w] H. exact H. Qed.

Lemma no_key_branch (p : string) (b : option string) :
  preserves (no_key p) (on_fst (modify (ProjectsManager.with__branch b))).
Proof. intros [m w] H. exact H. Qed.

Lemma no_key_project_at (p q : string) :
  preserves (no_key p) (ProjectsManager.project_at q).
Proof.
  unfold ProjectsManager.project_at. apply preserves_bind; [apply no_key_get|].
  intros m. destruct (ProjectsManager.dict_get q _);
    [apply preserves_ret | apply preserves_raise].
Qed.

Lemma no_key_at_project {A} (p q : string) (m : M (ProjectInfo.t * World) A) :
  preserves (no_key p) (ProjectsManager.at_project q m).
Proof.
  intros [mgr w] H. unfold no_key in *. rewrite at_project_eq. simpl in *.
  destruct (ProjectsManager.dict_get q (ProjectsManager._projects mgr)) eqn:Eq;
    simpl; [|exact H].
  rewrite dict_get_set_ne; [exact H|]. intros ->. congruence.
Qed.

Lemma no_key_resolve_missing (C : Common) (L : PyLib)
    (f : ProjectsManager.Factory) (p : string) :
  preserves (no_key p) (ProjectsManager._resolve_missing_refspecs C L f).
Proof.
  unfold ProjectsManager._resolve_missing_refspecs.
  apply preserves_bind; [apply no_key_get|]. intros m0. cbv zeta.
  destruct (ProjectsManager.missing_of m0); [apply preserves_ret|].
  apply preserves_bind.
  { destruct (negb _); [|apply preserves_ret].
    unfold ProjectsManager.load_known_branch.
    destruct (ProjectsManager.known_of C m0) as [|[key i] [|]];
      [apply preserves_ret | | apply preserves_raise].
    apply preserves_bind; [apply no_key_at_project|]. intros _.
    apply preserves_bind; [apply no_key_project_at|]. intros k.
    apply no_key_branch. }
  intros _. apply preserves_bind; [apply no_key_get|]. intros m1.
  apply preserves_bind.
  { destruct (negb _); [apply no_key_branch | apply preserves_ret]. }
  intros _. apply preserves_bind; [apply no_key_get|]. intros m2.
  destruct (ProjectsManager._branch m2); [|apply preserves_raise].
  apply preserves_bind; [apply preserves_lift|]. intros r.
  apply preserves_for_each. intros x. apply no_key_at_project.
Qed.

Lemma no_key_apply_trigger (C : Common) (f : ProjectsManager.Factory)
    (p gp : string) :
  preserves (no_key p) (ProjectsManager.apply_trigger C f gp).
Proof.
  unfold ProjectsManager.apply_trigger.
  apply preserves_bind; [apply no_key_project_at|]. intros _.
  apply preserves_bind; [apply no_key_at_project|]. intros _.
  apply preserves_bind.
  { destruct (String.eqb gp _); [apply preserves_ret | apply no_key_branch]. }
  intros _. apply preserves_bind; [apply no_key_project_at|]. intros info.
  destruct (ProjectInfo.is_tarball info); [apply preserves_ret|].
  apply preserves_bind; [apply preserves_lift|]. intros r.
  apply no_key_at_project.
Qed.

Lemma no_key_apply_checkout_project (f : ProjectsManager.Factory) (p cp : string) :
  preserves (no_key p) (ProjectsManager.apply_checkout_project f cp).
Proof.
  unfold ProjectsManager.apply_checkout_project.
  destruct (ProjectsManager.env f !! "CHECKOUT_REFSPEC"); [|apply preserves_ret].
  apply preserves_bind; [apply no_key_project_at|]. intros _.
  apply preserves_bind; [apply preserves_lift|]. intros r.
  apply no_key_at_project.
Qed.

(** Without [<REPO>_REFSPEC] no [ProjectInfo] is created for the
    repository, and none appears later. *)
Lemma no_key_create_projects (C : Common) (f : ProjectsManager.Factory)
    (p : string) :
  ProjectsManager.env f !! (PyStr.upper p ++ "_REFSPEC") = None ->
  preserves (no_key p) (ProjectsManager.create_projects C f).
Proof.
  intros Henv [[d b] w] H. unfold no_key in *. simpl in H.
  unfold ProjectsManager.create_projects.
  destruct (create_loop C f (Project_values C) d b w) as (d' & Hst & Hlook & _).
  rewrite Hst. simpl.
  destruct (Hlook p) as [Hsame | (loc & Hparse & _)]; [congruence|].
  rewrite (parse_refspec_absent f p Henv) in Hparse. discriminate.
Qed.

Lemma no_key_resolve_projects (C : Common) (L : PyLib)
    (f : ProjectsManager.Factory) (p : string) :
  ProjectsManager.env f !! (PyStr.upper p ++ "_REFSPEC") = None ->
  preserves (no_key p) (ProjectsManager.resolve_projects C L f).
Proof.
  intros Henv. unfold ProjectsManager.resolve_projects. cbv zeta.
  apply preserves_bind; [apply no_key_create_projects, Henv|]. intros _.
  apply preserves_bind; [apply preserves_lift|]. intros cp.
  apply preserves_bind; [apply preserves_lift|]. intros gp.
  apply preserves_bind.
  { destruct gp; [apply no_key_apply_trigger | apply preserves_ret]. }
  intros _. apply preserves_bind.
  { destruct cp; [|apply preserves_ret].
    apply preserves_bind; [apply no_key_apply_checkout_project|]. intros _.
    apply preserves_ret. }
  intros ip. apply preserves_bind; [apply no_key_resolve_missing|]. intros _.
  apply preserves_ret.
Qed.

(** The automation repository is always to be marked. *)
Lemma resolve_projects_releng (C : Common) (L : PyLib)
    (f : ProjectsManager.Factory) (s s' : ProjectsManager.t * World)
    (ip : list string) :
  ProjectsManager.resolve_projects C L f s = (Return ip, s') ->
  Project_RELENG C ∈ ip.
Proof.
  unfold ProjectsManager.resolve_projects. cbv zeta.
  unfold bind at 1.
  destruct (ProjectsManager.create_projects C f s) as [[[]|?] s1]; [|discriminate].
  unfold bind at 1, lift at 1.
  destruct (ProjectsManager._parse_checkout_project C f) as [cp|?];
    [|discriminate].
  unfold bind at 1, lift at 1.
  destruct (GerritIntegration.get_triggering_project C _) as [gp|?];
    [|discriminate].
  unfold bind at 1.
  match goal with
  | |- context [match ?m s1 with _ => _ end] =>
      destruct (m s1) as [[[]|?] s2]; [|discriminate]
  end.
  unfold bind at 1. destruct cp as [cp|].
  - unfold bind at 1.
    destruct (ProjectsManager.apply_checkout_project f cp s2) as [[[]|?] s3];
      [|discriminate].
    unfold ret at 1. unfold bind at 1.
    destruct (ProjectsManager._resolve_missing_refspecs C L f s3) as [[[]|?] s4];
      [|discriminate].
    intros H. unfold ret in H.
    assert (Hip : ip = ProjectsManager.set_of ([Project_RELENG C] ++ [cp]))
      by congruence.
    rewrite Hip. unfold ProjectsManager.set_of.
    apply elem_of_remove_dups, elem_of_app. left. apply list_elem_of_here.
  - unfold ret at 1. unfold bind at 1.
    destruct (ProjectsManager._resolve_missing_refspecs C L f s2) as [[[]|?] s4];
      [|discriminate].
    intros H. inversion H. apply list_elem_of_here.
Qed.

(** A loop of method calls on the stored objects does not return if one
    of the names has no object. *)
Lemma for_each_no_key (p : string) (l : list string)
    (m : M (ProjectInfo.t * World) unit) (s : ProjectsManager.t * World) :
  p ∈ l -> no_key p s ->
  is_return (fst (for_each l (fun project =>
                     ProjectsManager.at_project project m) s)) = false.
Proof.
  revert s. induction l as [|q l IH]; intros s Hp Hs; [inversion Hp|].
  cbn [for_each]. unfold bind.
  destruct (decide (q = p)) as [->|Hne].
  - destruct s as [mgr w]. rewrite at_project_eq.
    unfold no_key in Hs. simpl in Hs. rewrite Hs. reflexivity.
  - pose proof (no_key_at_project p q m s Hs) as Hs'.
    destruct (ProjectsManager.at_project q m s) as [[[]|e] s']; [|reflexivity].
    apply IH; [|exact Hs'].
    apply elem_of_cons in Hp as [->|Hp]; [congruence | exact Hp].
Qed.

(** C10, as the code has it.  After the first loop of [_init_projects] a
    repository has a [ProjectInfo] iff its [<REPO>_REFSPEC] input is
    present (for a known repository), and the locator is unset if the
    value is empty or [auto] in any case.  If Gerrit names a triggering
    repository whose input is absent, and the steps before the lookup
    return, initialization raises [KeyError].  If the input of the
    automation repository is absent, initialization never returns; it
    raises [KeyError] in its last loop when the steps before return with
    the automation repository as the only one to mark. *)
Theorem C10_missing_refspec_input (C : Common) (L : PyLib)
    (f : ProjectsManager.Factory) (w : World) :
  set_iter_ok L ->
  (forall s1,
     ProjectsManager.create_projects C f (ProjectsManager.mk [] None, w)
       = (Return tt, s1) ->
     snd s1 = w
     /\ forall p,
          match ProjectsManager.env f !! (PyStr.upper p ++ "_REFSPEC") with
          | None =>
              ProjectsManager.dict_get p (ProjectsManager._projects (fst s1)) = None
          | Some v =>
              p ∈ Project_values C ->
              exists loc,
                ProjectsManager.dict_get p (ProjectsManager._projects (fst s1))
                  = Some (ProjectInfo.init p loc)
                /\ (PyStr.truthy (Some v) = false \/ PyStr.lower v = "auto" ->
                    loc = None)
          end)
  /\ (forall s1 cp gp,
        ProjectsManager.create_projects C f (ProjectsManager.mk [] None, w)
          = (Return tt, s1) ->
        ProjectsManager._parse_checkout_project C f = Return cp ->
        GerritIntegration.get_triggering_project C (ProjectsManager.gerrit f)
          = Return (Some gp) ->
        ProjectsManager.env f !! (PyStr.upper gp ++ "_REFSPEC") = None ->
        ProjectsManager.init C L f w = (Raise (KeyError gp), s1))
  /\ (ProjectsManager.env f !! (PyStr.upper (Project_RELENG C) ++ "_REFSPEC") = None ->
      is_return (fst (ProjectsManager.init C L f w)) = false
      /\ forall s',
           ProjectsManager.resolve_projects C L f (ProjectsManager.mk [] None, w)
             = (Return [Project_RELENG C], s') ->
           ProjectsManager.init C L f w = (Raise (KeyError (Project_RELENG C)), s')).
Proof.
  intros Hperm.
  assert (Hcreate : forall s1 p,
            ProjectsManager.create_projects C f (ProjectsManager.mk [] None, w)
              = (Return tt, s1) ->
            ProjectsManager.env f !! (PyStr.upper p ++ "_REFSPEC") = None ->
            no_key p s1).
  { intros s1 p Hc Henv.
    pose proof (no_key_create_projects C f p Henv
                  (ProjectsManager.mk [] None, w) eq_refl) as H.
    rewrite Hc in H. exact H. }
  split; [|split].
  - intros s1 Hc. unfold ProjectsManager.create_projects in Hc.
    destruct (create_loop C f (Project_values C) [] None w)
      as (d' & Hst & Hlook & Hret).
    rewrite Hc in Hst, Hret. simpl in Hst, Hret. subst s1. simpl.
    split; [reflexivity|]. intros p.
    destruct (ProjectsManager.env f !! (PyStr.upper p ++ "_REFSPEC")) as [v|] eqn:Ev.
    + intros Hp.
      destruct (ProjectsManager._parse_refspec f p) as [[loc ex]|e] eqn:Eparse.
      * destruct (parse_refspec_present f p v _ Ev Eparse) as [Hex Hloc].
        simpl in Hex, Hloc. subst ex. exists loc. split; [|exact Hloc].
        apply (Hret eq_refl p loc Hp). exact Eparse.
      * exfalso.
        pose proof (create_loop_raises f p e (Project_values C) Eparse Hp
                      (ProjectsManager.mk [] None, w)) as Hraise.
        rewrite Hc in Hraise. discriminate.
    + destruct (Hlook p) as [Hsame | (loc & Hparse & _)]; [exact Hsame|].
      rewrite (parse_refspec_absent f p Ev) in Hparse. discriminate.
  - intros s1 cp gp Hc Hcp Hgp Henv.
    pose proof (Hcreate s1 gp Hc Henv) as Hno. destruct s1 as [m1 w1].
    unfold ProjectsManager.init, ProjectsManager._init_projects.
    apply bind_raise. unfold ProjectsManager.resolve_projects. cbv zeta.
    erewrite bind_eq by exact Hc.
    rewrite Hcp. erewrite bind_eq by reflexivity.
    rewrite Hgp. erewrite bind_eq by reflexivity.
    apply bind_raise. unfold ProjectsManager.apply_trigger.
    apply bind_raise. unfold ProjectsManager.project_at.
    erewrite bind_eq by reflexivity. unfold no_key in Hno. rewrite Hno.
    reflexivity.
  - intros Henv.
    assert (Hno : no_key (Project_RELENG C)
                    (snd (ProjectsManager.resolve_projects C L f
                            (ProjectsManager.mk [] None, w)))).
    { apply (no_key_resolve_projects C L f _ Henv). reflexivity. }
    unfold ProjectsManager.init, ProjectsManager._init_projects. split.
    + unfold bind.
      destruct (ProjectsManager.resolve_projects C L f _) as [[ip|e] s'] eqn:Er;
        [|reflexivity].
      simpl in Hno.
      pose proof (resolve_projects_releng C L f _ _ _ Er) as Hin.
      apply for_each_no_key with (p := Project_RELENG C); [|exact Hno].
      rewrite (Hperm ip). exact Hin.
    + intros s' Hr. rewrite Hr in Hno. simpl in Hno.
      erewrite bind_eq by exact Hr.
      assert (Hone : set_iter L [Project_RELENG C] = [Project_RELENG C]).
      { apply Permutation_singleton_r, Hperm. }
      rewrite Hone. cbn [for_each]. apply bind_raise.
      destruct s' as [mgr w']. rewrite at_project_eq.
      unfold no_key in Hno. simpl in Hno. rewrite Hno. reflexivity.
Qed.

Lemma C10_missing_refspec_input_witness :
  is_return
    (fst (ProjectsManager.init Ex.common Ex.pylib
            (Ex.factory_of Ex.env_gromacs_only Ex.gerrit_silent) Ex.w0)) = false.
Proof.
  destruct (C10_missing_refspec_input Ex.common Ex.pylib
              (Ex.factory_of Ex.env_gromacs_only Ex.gerrit_silent) Ex.w0)
    as (_ & _ & H).
  - intros l. reflexivity.
  - apply H. vm_compute. reflexivity.
Defined.

(** C10 as stated fails: Gerrit names [gromacs] as the triggering
    repository, [GROMACS_REFSPEC] is [auto], and neither [GERRIT_REFSPEC]
    nor [RELENG_REFSPEC] is set.  The input of the automation repository
    is absent, and initialization fails with a [ConfigurationError] before
    it looks the automation repository up. *)
Lemma C10_configuration_error_first :
  Ex.env_trigger !! "RELENG_REFSPEC" = None
  /\ PyStr.upper (Project_RELENG Ex.common) ++ "_REFSPEC" = "RELENG_REFSPEC"
  /\ fst (ProjectsManager.init Ex.common Ex.pylib
            (Ex.factory_of Ex.env_trigger Ex.gerrit_silent) Ex.w0)
     = Raise (ConfigurationError "GERRIT_REFSPEC not set")
  /\ fst (ProjectsManager.init Ex.common Ex.pylib
            (Ex.factory_of Ex.env_trigger Ex.gerrit_silent) Ex.w0)
     <> Raise (KeyError "releng").
Proof.
  split; [vm_compute; reflexivity|]. split; [reflexivity|].
  split; [vm_compute; reflexivity|]. vm_compute. discriminate.
Qed.

(** With only [GROMACS_REFSPEC] set, initialization ends in the
    [KeyError] of the automation repository. *)
Lemma init_key_error_releng :
  fst (ProjectsManager.init Ex.common Ex.pylib
         (Ex.factory_of Ex.env_gromacs_only Ex.gerrit_silent) Ex.w0)
  = Raise (KeyError "releng").
Proof. vm_compute. reflexivity. Qed.

(** ** The registry before the fallback pass *)

Lemma dict_set_elem {V} (k k' : string) (v v' : V) (d : list (string * V)) :
  (k', v') ∈ ProjectsManager.dict_set k v d -> (k', v') = (k, v) \/ (k', v') ∈ d.
Proof.
  induction d as [|[k0 v0] d IH]; simpl.
  - intros H. apply list_elem_of_singleton in H. auto.
  - destruct (String.eqb k k0).
    + intros H. apply elem_of_cons in H as [H|H]; [auto|].
      right. apply list_elem_of_further, H.
    + intros H. apply elem_of_cons in H as [H|H].
      * right. rewrite H. apply list_elem_of_here.
      * destruct (IH H) as [Heq|Hin]; [auto|].
        right. apply list_elem_of_further, Hin.
Qed.

Lemma dict_set_key_elem {V} (k x : string) (v : V) (d : list (string * V)) :
  x ∈ map fst (ProjectsManager.dict_set k v d) -> x = k \/ x ∈ map fst d.
Proof.
  intros H. apply list_elem_of_In, in_map_iff in H as ([k' v'] & Hx & Hin).
  simpl in Hx. subst k'. apply list_elem_of_In, dict_set_elem in Hin as [Heq|Hin].
  - inversion Heq. auto.
  - right. apply list_elem_of_In, in_map_iff. exists (x, v').
    split; [reflexivity | apply list_elem_of_In, Hin].
Qed.

Lemma dict_set_NoDup {V} (k : string) (v : V) (d : list (string * V)) :
  NoDup (map fst d) -> NoDup (map fst (ProjectsManager.dict_set k v d)).
Proof.
  induction d as [|[k0 v0] d IH]; simpl; intros Hnd.
  - apply NoDup_singleton.
  - apply NoDup_cons in Hnd as [Hk0 Hnd].
    destruct (String.eqb k k0) eqn:E; simpl.
    + apply String.eqb_eq in E. subst k0. apply NoDup_cons. auto.
    + apply NoDup_cons. split; [|apply IH, Hnd].
      intros Hin. apply dict_set_key_elem in Hin as [->|Hin]; [|contradiction].
      rewrite String.eqb_refl in E. discriminate.
Qed.

Lemma unresolved_set (k : string) (info : ProjectInfo.t)
    (m : ProjectsManager.t) (w w' : World) :
  ProjectInfo.project info = k ->
  ProjectInfo.is_checked_out info = false ->
  unresolved (m, w) ->
  unresolved
    (ProjectsManager.with_projects
       (ProjectsManager.dict_set k info (ProjectsManager._projects m)) m, w').
Proof.
  intros Hp Hc [[Hnd Hname] Hflag]. simpl in *. repeat split; simpl.
  - apply dict_set_NoDup, Hnd.
  - intros k' i' Hin. apply dict_set_elem in Hin as [Heq|Hin];
      [inversion Heq; subst; reflexivity | apply Hname, Hin].
  - intros k' i' Hin. apply dict_set_elem in Hin as [Heq|Hin];
      [inversion Heq; subst; exact Hc | eapply Hflag, Hin].
Qed.

(** A method that keeps the name and the flag of the object keeps the
    registry unresolved. *)
Lemma unresolved_at_project {A} (q : string) (m : M (ProjectInfo.t * World) A) :
  (forall info w, ProjectInfo.is_checked_out info = false ->
     ProjectInfo.project (fst (snd (m (info, w)))) = ProjectInfo.project info
     /\ ProjectInfo.is_checked_out (fst (snd (m (info, w)))) = false) ->
  preserves unresolved (ProjectsManager.at_project q m).
Proof.
  intros Hm [mgr w] H. rewrite at_project_eq.
  destruct (ProjectsManager.dict_get q (ProjectsManager._projects mgr)) as [info|]
    eqn:Eq; simpl; [|exact H].
  pose proof (dict_get_elem _ _ _ Eq) as Hin.
  destruct H as [[Hnd Hname] Hflag]. simpl in *.
  destruct (Hm info w (Hflag _ _ Hin)) as [Hp Hc].
  apply unresolved_set with (w := w);
    [rewrite Hp; apply Hname, Hin | exact Hc |].
  repeat split; assumption.
Qed.

Lemma unresolved_set_branch (q : string) (b : option string) :
  preserves unresolved
    (ProjectsManager.at_project q (on_fst (ProjectInfo.set_branch b))).
Proof.
  apply unresolved_at_project. intros info w Hc. rewrite on_fst_eq. simpl.
  rewrite set_branch_eq. simpl. destruct (ProjectInfo.branch info); auto.
Qed.

Lemma unresolved_override (q : string) (r : RefSpec.t) :
  preserves unresolved
    (ProjectsManager.at_project q (on_fst (ProjectInfo.override_refspec r))).
Proof.
  apply unresolved_at_project. intros info w Hc. rewrite on_fst_eq. simpl.
  rewrite override_refspec_eq, Hc. simpl.
  destruct (PyStr.truthy (RefSpec.branch r)); auto.
Qed.

Lemma unresolved_ensure_branch_loaded (C : Common) (L : PyLib)
    (g : GerritIntegration.t) (q : string) :
  preserves unresolved
    (ProjectsManager.at_project q (on_fst (ProjectInfo.ensure_branch_loaded C L g))).
Proof.
  apply unresolved_at_project. intros info w Hc. rewrite on_fst_eq. simpl.
  destruct (ensure_branch_loaded_frame C L g info) as [(Hp & _ & _ & _ & Hf & _) _].
  split; congruence.
Qed.

Lemma unresolved_get : preserves unresolved (on_fst get).
Proof. intros [m w] H. exact H. Qed.

Lemma unresolved_branch (b : option string) :
  preserves unresolved (on_fst (modify (ProjectsManager.with__branch b))).
Proof. intros [m w] H. exact H. Qed.

Lemma unresolved_project_at (q : string) :
  preserves unresolved (ProjectsManager.project_at q).
Proof.
  unfold ProjectsManager.project_at. apply preserves_bind; [apply unresolved_get|].
  intros m. destruct (ProjectsManager.dict_get q _);
    [apply preserves_ret | apply preserves_raise].
Qed.

Lemma init_name_flag (p : string) (loc : option RefSpec.t) :
  ProjectInfo.project (ProjectInfo.init p loc) = p
  /\ ProjectInfo.is_checked_out (ProjectInfo.init p loc) = false.
Proof.
  unfold ProjectInfo.init. destruct loc as [r|]; [|auto].
  rewrite set_branch_eq. simpl. destruct (RefSpec.is_tarball r); auto.
Qed.

(** When [_init_projects] calls [_resolve_missing_refspecs] the registry
    is unresolved: it is so at the start, and each step before the call
    keeps it so, and so does the fallback pass itself. *)
Lemma unresolved_before_fallback (C : Common) (L : PyLib)
    (f : ProjectsManager.Factory) :
  (forall w, unresolved (ProjectsManager.mk [] None, w))
  /\ preserves unresolved (ProjectsManager.create_projects C f)
  /\ (forall gp, preserves unresolved (ProjectsManager.apply_trigger C f gp))
  /\ (forall cp, preserves unresolved (ProjectsManager.apply_checkout_project f cp))
  /\ preserves unresolved (ProjectsManager._resolve_missing_refspecs C L f).
Proof.
  split; [|split; [|split; [|split]]].
  - intros w. repeat split; simpl.
    + apply NoDup_nil_2.
    + intros k info H. inversion H.
    + intros k info H. inversion H.
  - unfold ProjectsManager.create_projects. apply preserves_for_each.
    intros p. unfold ProjectsManager.create_project.
    apply preserves_bind; [apply preserves_lift|]. intros [loc [|]]; simpl;
      [|apply preserves_ret].
    intros [m w] H. rewrite on_fst_eq. simpl.
    destruct (init_name_flag p loc) as [Hp Hc].
    apply unresolved_set with (w := w); assumption.
  - intros gp. unfold ProjectsManager.apply_trigger.
    apply preserves_bind; [apply unresolved_project_at|]. intros _.
    apply preserves_bind; [apply unresolved_set_branch|]. intros _.
    apply preserves_bind.
    { destruct (String.eqb gp _); [apply preserves_ret | apply unresolved_branch]. }
    intros _. apply preserves_bind; [apply unresolved_project_at|]. intros info.
    destruct (ProjectInfo.is_tarball info); [apply preserves_ret|].
    apply preserves_bind; [apply preserves_lift|]. intros r.
    apply unresolved_override.
  - intros cp. unfold ProjectsManager.apply_checkout_project.
    destruct (ProjectsManager.env f !! "CHECKOUT_REFSPEC"); [|apply preserves_ret].
    apply preserves_bind; [apply unresolved_project_at|]. intros _.
    apply preserves_bind; [apply preserves_lift|]. intros r.
    apply unresolved_override.
  - unfold ProjectsManager._resolve_missing_refspecs.
    apply preserves_bind; [apply unresolved_get|]. intros m0. cbv zeta.
    destruct (ProjectsManager.missing_of m0); [apply preserves_ret|].
    apply preserves_bind.
    { destruct (negb _); [|apply preserves_ret].
      unfold ProjectsManager.load_known_branch.
      destruct (ProjectsManager.known_of C m0) as [|[key i] [|]];
        [apply preserves_ret | | apply preserves_raise].
      apply preserves_bind; [apply unresolved_ensure_branch_loaded|]. intros _.
      apply preserves_bind; [apply unresolved_project_at|]. intros k.
      apply unresolved_branch. }
    intros _. apply preserves_bind; [apply unresolved_get|]. intros m1.
    apply preserves_bind.
    { destruct (negb _); [apply unresolved_branch | apply preserves_ret]. }
    intros _. apply preserves_bind; [apply unresolved_get|]. intros m2.
    destruct (ProjectsManager._branch m2); [|apply preserves_raise].
    apply preserves_bind; [apply preserves_lift|]. intros r.
    apply preserves_for_each. intros x. apply unresolved_override.
Qed.

(** * More of the module *)

(** ** RefSpec: what is read off the value *)

Lemma split_fields_rest (sep : ascii) (s : string) :
  snd (PyStr.split_fields sep s) = [] <-> PyStr.contains sep s = false.
Proof.
  induction s as [|c s IH]; simpl; [tauto|].
  destruct (PyStr.split_fields sep s) as [w ws]. simpl in IH.
  destruct (Ascii.eqb c sep); simpl; [split; discriminate | exact IH].
Qed.

Lemma split_fields_whole (sep : ascii) (s : string) :
  PyStr.contains sep s = false -> fst (PyStr.split_fields sep s) = s.
Proof.
  induction s as [|c s IH]; simpl; [reflexivity|].
  destruct (PyStr.split_fields sep s) as [w ws]. simpl in IH.
  destruct (Ascii.eqb c sep); simpl; [discriminate|].
  intros H. rewrite (IH H). reflexivity.
Qed.

Lemma split_fields_app (sep : ascii) (p s : string) :
  PyStr.contains sep p = false ->
  PyStr.split_fields sep (p ++ String sep s)
  = (p, fst (PyStr.split_fields sep s) :: snd (PyStr.split_fields sep s)).
Proof.
  induction p as [|c p IH]; simpl.
  - intros _. destruct (PyStr.split_fields sep s) as [w ws].
    rewrite Ascii.eqb_refl. reflexivity.
  - destruct (Ascii.eqb c sep); simpl; [discriminate|].
    intros H. rewrite (IH H). reflexivity.
Qed.

Lemma split_two_fields (a b rest : string) :
  PyStr.contains "/" a = false -> PyStr.contains "/" b = false ->
  PyStr.split "/" (a ++ String "/" (b ++ String "/" rest))
  = a :: b :: fst (PyStr.split_fields "/" rest)
       :: snd (PyStr.split_fields "/" rest).
Proof.
  intros Ha Hb. unfold PyStr.split.
  rewrite (split_fields_app "/" a _ Ha), (split_fields_app "/" b _ Hb).
  reflexivity.
Qed.

Lemma startswith_app (p s : string) : PyStr.startswith (p ++ s) p = true.
Proof.
  unfold PyStr.startswith. induction p as [|c p IH]; simpl;
    [destruct s; reflexivity|].
  destruct (ascii_dec c c); [exact IH | contradiction].
Qed.

(** X1.  A branch-head value always gives a locator, whatever follows
    [refs/heads/]: the value is kept, and the branch is what follows up to
    the next slash, so the whole rest only if it has no slash. *)
Theorem refspec_heads_branch (b : string) (rh : option string)
    (ex : option Executor) :
  exists r,
    RefSpec.init ("refs/heads/" ++ b) rh ex = Return r
    /\ RefSpec.fetch r = "refs/heads/" ++ b
    /\ RefSpec.branch r = Some (fst (PyStr.split_fields "/" b))
    /\ RefSpec.change_number r = None
    /\ RefSpec.active r = [RefSpec.Branch]
    /\ (PyStr.contains "/" b = false -> RefSpec.branch r = Some b).
Proof.
  unfold RefSpec.init, RefSpec.is_tarball_refspec.
  change (PyStr.startswith ("refs/heads/" ++ b) "tarballs/") with false.
  change (PyStr.startswith ("refs/heads/" ++ b) "refs/changes/") with false.
  rewrite startswith_app. cbv iota.
  destruct (PyStr.split_fields "/" b) as [w ws] eqn:Es.
  assert (Hsplit : PyStr.split "/" ("refs/heads/" ++ b)
                   = "refs" :: "heads" :: w :: ws).
  { change ("refs/heads/" ++ b) with ("refs" ++ String "/" ("heads" ++ String "/" b)).
    rewrite split_two_fields by reflexivity. rewrite Es. reflexivity. }
  rewrite Hsplit. simpl.
  eexists. split; [reflexivity|]. repeat split.
  intros Hc. pose proof (split_fields_whole "/" b Hc) as Hw.
  rewrite Es in Hw. simpl in Hw. simpl. rewrite Hw. reflexivity.
Qed.

Lemma refspec_heads_branch_witness :
  exists r,
    RefSpec.init ("refs/heads/" ++ "release-2021") None None = Return r
    /\ RefSpec.branch r = Some "release-2021".
Proof.
  destruct (refspec_heads_branch "release-2021" None None)
    as (r & Hr & _ & _ & _ & _ & Hb).
  exists r. split; [exact Hr | apply Hb; reflexivity].
Defined.

(** X2.  A fixed-change value gives a locator iff something follows a
    slash after [refs/changes/]; the change number is then the second
    field of what follows.  Without a slash the construction raises
    [IndexError]. *)
Theorem refspec_changes_number (x : string) (rh : option string)
    (ex : option Executor) :
  (PyStr.contains "/" x = false ->
   RefSpec.init ("refs/changes/" ++ x) rh ex = Raise IndexError)
  /\ (PyStr.contains "/" x = true ->
      exists r n,
        RefSpec.init ("refs/changes/" ++ x) rh ex = Return r
        /\ snd (PyStr.split_fields "/" x) !! 0 = Some n
        /\ RefSpec.change_number r = Some n
        /\ RefSpec.branch r = None
        /\ RefSpec.fetch r = "refs/changes/" ++ x
        /\ RefSpec.active r = [RefSpec.Static]).
Proof.
  unfold RefSpec.init, RefSpec.is_tarball_refspec.
  change (PyStr.startswith ("refs/changes/" ++ x) "tarballs/") with false.
  rewrite startswith_app. cbv iota.
  pose proof (split_fields_rest "/" x) as Hrest.
  destruct (PyStr.split_fields "/" x) as [w ws] eqn:Es.
  assert (Hsplit : PyStr.split "/" ("refs/changes/" ++ x)
                   = "refs" :: "changes" :: w :: ws).
  { change ("refs/changes/" ++ x)
      with ("refs" ++ String "/" ("changes" ++ String "/" x)).
    rewrite split_two_fields by reflexivity. rewrite Es. reflexivity. }
  rewrite Hsplit. simpl in *.
  split; intros Hc.
  - apply Hrest in Hc. subst ws. reflexivity.
  - destruct ws as [|n ws].
    { destruct Hrest as [Hr _]. rewrite Hr in Hc by reflexivity. discriminate. }
    simpl. eexists _, n. split; [reflexivity|]. repeat split.
    unfold RefSpec.active, RefSpec.is_branch, RefSpec.is_no_op, RefSpec.is_static,
      RefSpec.is_tarball.
    cbn [RefSpec._value RefSpec._tar_props]. rewrite startswith_app.
    reflexivity.
Qed.

Lemma refspec_changes_number_witness :
  RefSpec.init ("refs/changes/" ++ "12") None None = Raise IndexError
  /\ exists r n,
       RefSpec.init ("refs/changes/" ++ "12/3412/5") None None = Return r
       /\ snd (PyStr.split_fields "/" "12/3412/5") !! 0 = Some n
       /\ RefSpec.change_number r = Some n.
Proof.
  split.
  - apply (refspec_changes_number "12" None None). reflexivity.
  - destruct (refspec_changes_number "12/3412/5" None None) as [_ H].
    destruct (H eq_refl) as (r & n & H1 & H2 & H3 & _).
    exists r, n. auto.
Defined.

(** X3.  For a value with the tarball marker the hash given is ignored,
    and nothing is built without an executor.  Of a constructed locator
    the tarball accessors answer iff it is a tarball: they give the
    manifest (whose head hash is the remote side) and the package path,
    and they fail their assertion on any other locator. *)
Theorem refspec_tarball_accessors (value : string) (rh : option string)
    (ex : option Executor) (r : RefSpec.t) :
  RefSpec.init value rh ex = Return r ->
  if PyStr.startswith value "tarballs/" then
    RefSpec.init value None ex = Return r
    /\ ex <> None
    /\ exists props h,
         RefSpec.tarball_props r = Return props
         /\ props !! "HEAD_HASH" = Some h
         /\ RefSpec._remote r = h
         /\ RefSpec.tarball_path r
            = match props !! "PACKAGE_FILE_NAME" with
              | Some name => Return (RefSpec.path_join_any value name)
              | None => Raise (KeyError "PACKAGE_FILE_NAME")
              end
  else
    RefSpec.tarball_props r = Raise AssertionError
    /\ RefSpec.tarball_path r = Raise AssertionError.
Proof.
  intros H. pose proof H as Hinv. apply init_inv in Hinv.
  destruct Hinv as [(Et & props & h & Eh & ->) | (Et & b & c & ->)]; rewrite Et.
  - split; [|split].
    + revert H. unfold RefSpec.init, RefSpec.is_tarball_refspec. rewrite Et.
      destruct ex as [e|]; [|discriminate].
      destruct (read_property_file e _) as [props'|]; simpl; [|discriminate].
      destruct (props' !! "HEAD_HASH"); [|discriminate]. auto.
    + intros ->. revert H. unfold RefSpec.init, RefSpec.is_tarball_refspec.
      rewrite Et. discriminate.
    + exists props, h. split; [reflexivity|]. split; [exact Eh|].
      split; reflexivity.
  - split; reflexivity.
Qed.

Lemma refspec_tarball_accessors_witness :
  RefSpec.tarball_props Ex.refspec_master = Raise AssertionError
  /\ RefSpec.tarball_path Ex.refspec_master = Raise AssertionError.
Proof.
  apply (refspec_tarball_accessors "refs/heads/master" None None Ex.refspec_master).
  reflexivity.
Defined.

(** ** ProjectInfo: label, summary *)

Lemma startswith_slice (p b : string) :
  PyStr.startswith b p = true -> b = p ++ PyStr.slice_from (String.length p) b.
Proof.
  unfold PyStr.startswith. revert b.
  induction p as [|c p IH]; intros b H; [reflexivity|].
  apply prefix_cons in H as (b' & -> & H).
  change (String c b' = String c (p ++ PyStr.slice_from (String.length p) b')).
  f_equal. apply IH, H.
Qed.

(** X4.  The build label of a branch: a branch that starts with
    [release-] is that prefix followed by its label; any other branch is its
    own label; without branch there is no label. *)
Theorem build_branch_label_prefix (s : ProjectInfo.t) :
  match ProjectInfo.branch s with
  | None => ProjectInfo.build_branch_label s = None
  | Some b =>
      exists l, ProjectInfo.build_branch_label s = Some l
                /\ if PyStr.startswith b "release-" then b = "release-" ++ l
                   else l = b
  end.
Proof.
  unfold ProjectInfo.build_branch_label.
  destruct (ProjectInfo.branch s) as [b|]; [|reflexivity].
  destruct (PyStr.startswith b "release-") eqn:E.
  - eexists. split; [reflexivity|]. apply (startswith_slice "release-" b E).
  - exists b. split; reflexivity.
Qed.

Lemma load_missing_info_frame (C : Common) (L : PyLib) (ws : Workspace)
    (g : GerritIntegration.t) (s : ProjectInfo.t) (w : World) :
  ProjectInfo.project (fst (snd (ProjectInfo.load_missing_info C L ws g (s, w))))
    = ProjectInfo.project s
  /\ ProjectInfo.refspec (fst (snd (ProjectInfo.load_missing_info C L ws g (s, w))))
     = ProjectInfo.refspec s
  /\ ProjectInfo.is_checked_out
       (fst (snd (ProjectInfo.load_missing_info C L ws g (s, w))))
     = ProjectInfo.is_checked_out s
  /\ (ProjectInfo.is_checked_out s = true ->
      ProjectInfo.has_correct_hash
        (fst (snd (ProjectInfo.load_missing_info C L ws g (s, w))))
      = ProjectInfo.has_correct_hash s).
Proof.
  rewrite load_missing_info_eq.
  destruct (ProjectInfo.is_tarball s); [auto|].
  destruct (ProjectInfo.is_checked_out s) eqn:Ec.
  - rewrite on_fst_eq. simpl.
    destruct (load_from_gerrit_frame C L g s) as [(Hp & Hr & Hh & Hm & Hf & _) _].
    repeat split; try congruence.
    intros _. unfold ProjectInfo.has_correct_hash. rewrite Hf, Hh, Hm. reflexivity.
  - destruct (ProjectInfo.refspec s) as [r|] eqn:Er;
      [|simpl; repeat split; auto; try discriminate].
    destruct (GerritIntegration.get_remote_hash g _ r w) as [[h|e] w'];
      [|simpl; repeat split; auto; try discriminate].
    simpl. destruct (_get_git_commit_info ws _ _ _) as [info|e];
      [|simpl; repeat split; auto; try discriminate].
    rewrite on_fst_eq. simpl.
    match goal with
    | |- context [ProjectInfo._load_from_gerrit C L g ?x] =>
        destruct (load_from_gerrit_frame C L g x) as [(Hp & Hr & _ & _ & Hf & _) _]
    end.
    simpl in *. repeat split; try congruence; try discriminate.
Qed.



Lemma get_remote_hash_short (g : GerritIntegration.t) (project : string)
    (refspec : RefSpec.t) (w : World) (out : string) :
  GerritIntegration._cmd_runner g
    (GerritIntegration.ls_remote_cmd g project refspec) = Return out ->
  length (PyStr.split_ws_1 out) < 2 ->
  GerritIntegration.get_remote_hash g project refspec w
  = (Return (PExc (next_id w)
               (BuildError ("failed to find refspec " ++ RefSpec.str refspec
                            ++ " for " ++ project))),
     mkWorld (console w) (S (next_id w))).
Proof.
  intros Hcmd Hlen.
  unfold GerritIntegration.get_remote_hash, bind, lift. rewrite Hcmd.
  apply Nat.ltb_lt in Hlen. rewrite Hlen. reflexivity.
Qed.

(** X6.  What the returned [BuildError] of [get_remote_hash] leads to in
    [load_missing_info]: for a repository that is not checked out, whose
    locator has no change number and whose ref Gerrit does not know, the
    instance is stored as both hashes, and as soon as the title or the
    branch is still unknown the lookup by commit fails with [TypeError]
    on ['commit:' + self.head_hash]. *)
Theorem load_missing_info_unknown_ref (C : Common) (L : PyLib) (ws : Workspace)
    (g : GerritIntegration.t) (s : ProjectInfo.t) (w : World) (r : RefSpec.t)
    (out : string) (info : option string * option string) :
  ProjectInfo.is_checked_out s = false ->
  ProjectInfo.refspec s = Some r ->
  RefSpec.is_tarball r = false ->
  PyStr.truthy (RefSpec.change_number r) = false ->
  GerritIntegration._cmd_runner g
    (GerritIntegration.ls_remote_cmd g (ProjectInfo.project s) r) = Return out ->
  length (PyStr.split_ws_1 out) < 2 ->
  _get_git_commit_info ws (ProjectInfo.project s)
    (PExc (next_id w)
       (BuildError ("failed to find refspec " ++ RefSpec.str r ++ " for "
                    ++ ProjectInfo.project s))) true = Return info ->
  fst info = None \/ ProjectInfo.branch s = None ->
  exists s',
    ProjectInfo.load_missing_info C L ws g (s, w)
    = (Raise (TypeError "str + non-str"), (s', mkWorld (console w) (S (next_id w))))
    /\ ProjectInfo.head_hash s' = ProjectInfo.remote_hash s'
    /\ py_truthy (ProjectInfo.head_hash s') = true
    /\ forall h, ProjectInfo.head_hash s' <> PStr h.
Proof.
  intros Hc Hr Ht Hn Hcmd Hlen Hws Hunknown.
  rewrite load_missing_info_eq. unfold ProjectInfo.is_tarball. rewrite Hr, Ht, Hc.
  rewrite (get_remote_hash_short g _ r w out Hcmd Hlen).
  cbv zeta. rewrite Hws. rewrite on_fst_eq, load_from_gerrit_eq.
  destruct s as [p b rs hh ht rh co]. simpl in *. subst rs.
  unfold ProjectInfo.lookup_change, ProjectInfo.query_by_commit. simpl.
  destruct info as [title hash]. simpl in *.
  destruct (RefSpec.change_number r) as [n|]; simpl in Hn; rewrite ?Hn;
    (destruct Hunknown as [-> | ->];
     [|destruct title];
     eexists; (split; [reflexivity|]); repeat split; discriminate).
Qed.

Lemma load_missing_info_unknown_ref_witness :
  exists s',
    ProjectInfo.load_missing_info Ex.common Ex.pylib Ex.workspace_1111
      Ex.gerrit_silent (ProjectInfo.init "gromacs" (Some Ex.refspec_head), Ex.w0)
    = (Raise (TypeError "str + non-str"), (s', mkWorld [] 1))
    /\ ProjectInfo.head_hash s' = ProjectInfo.remote_hash s'
    /\ py_truthy (ProjectInfo.head_hash s') = true
    /\ forall h, ProjectInfo.head_hash s' <> PStr h.
Proof.
  apply (load_missing_info_unknown_ref Ex.common Ex.pylib Ex.workspace_1111
           Ex.gerrit_silent (ProjectInfo.init "gromacs" (Some Ex.refspec_head))
           Ex.w0 Ex.refspec_head "" (Some "Fix things", Some "1111")).
  - reflexivity.
  - reflexivity.
  - reflexivity.
  - reflexivity.
  - reflexivity.
  - simpl. lia.
  - reflexivity.
  - right. reflexivity.
Defined.

(** ** ProjectsManager: access to the registry *)


Lemma verify_project_eq (p : string) (ec : bool) (m : ProjectsManager.t)
    (w : World) :
  ProjectsManager._verify_project p ec (m, w)
  = match ProjectsManager.dict_get p (ProjectsManager._projects m) with
    | None =>
        (Raise (ConfigurationError (PyStr.upper p ++ "_REFSPEC is not set")), (m, w))
    | Some info =>
        if ec && negb (ProjectInfo.is_checked_out info)
        then (Raise (ConfigurationError
                       ("accessing project " ++ p ++ " before checkout")), (m, w))
        else (Return tt, (m, w))
    end.
Proof.
  unfold ProjectsManager._verify_project. run.
  destruct (ProjectsManager.dict_get p _) as [info|]; [|reflexivity].
  destruct (ec && negb (ProjectInfo.is_checked_out info)); reflexivity.
Qed.

Lemma project_at_eq (p : string) (m : ProjectsManager.t) (w : World) :
  ProjectsManager.project_at p (m, w)
  = match ProjectsManager.dict_get p (ProjectsManager._projects m) with
    | Some info => (Return info, (m, w))
    | None => (Raise (KeyError p), (m, w))
    end.
Proof.
  unfold ProjectsManager.project_at. run.
  destruct (ProjectsManager.dict_get p _); reflexivity.
Qed.

(** X7.  [get_project_info] never fails with [KeyError] and never changes
    anything: it raises a [ConfigurationError] for a repository without
    [ProjectInfo], and for one that is not checked out when the checkout
    is expected; otherwise it returns the stored object. *)
Theorem get_project_info_total (p : string) (ec : bool) (m : ProjectsManager.t)
    (w : World) :
  ProjectsManager.get_project_info p ec (m, w)
  = (match ProjectsManager.dict_get p (ProjectsManager._projects m) with
     | None => Raise (ConfigurationError (PyStr.upper p ++ "_REFSPEC is not set"))
     | Some info =>
         if ec && negb (ProjectInfo.is_checked_out info)
         then Raise (ConfigurationError
                       ("accessing project " ++ p ++ " before checkout"))
         else Return info
     end, (m, w)).
Proof.
  unfold ProjectsManager.get_project_info, bind.
  rewrite verify_project_eq.
  destruct (ProjectsManager.dict_get p _) as [info|] eqn:E; [|reflexivity].
  destruct (ec && negb (ProjectInfo.is_checked_out info)); [reflexivity|].
  rewrite project_at_eq, E. reflexivity.
Qed.

Lemma checkout_project_eq (f : ProjectsManager.Factory)
    (co : string -> option RefSpec.t -> result unit) (p : string)
    (m : ProjectsManager.t) (w : World) :
  ProjectsManager.checkout_project f co p (m, w)
  = match ProjectsManager.dict_get p (ProjectsManager._projects m) with
    | None =>
        (Raise (ConfigurationError (PyStr.upper p ++ "_REFSPEC is not set")), (m, w))
    | Some info =>
        if ProjectInfo.is_checked_out info then (Return tt, (m, w))
        else
          match co p (ProjectInfo.refspec info) with
          | Raise e => (Raise e, (m, w))
          | Return _ =>
              ProjectsManager.at_project p
                (ProjectInfo.set_checked_out (ProjectsManager.workspace f)
                   (ProjectsManager.gerrit f)) (m, w)
          end
    end.
Proof.
  unfold ProjectsManager.checkout_project. unfold bind at 1.
  rewrite verify_project_eq.
  destruct (ProjectsManager.dict_get p _) as [info|] eqn:E; [|reflexivity].
  simpl. unfold bind at 1. rewrite project_at_eq, E.
  destruct (ProjectInfo.is_checked_out info); [reflexivity|].
  unfold bind at 1, lift. destruct (co p _) as [[]|e]; reflexivity.
Qed.

Lemma set_checked_out_flag (ws : Workspace) (g : GerritIntegration.t)
    (s : ProjectInfo.t) (w : World) :
  ProjectInfo.is_checked_out
    (fst (snd (ProjectInfo.set_checked_out ws g (s, w)))) = true.
Proof.
  rewrite set_checked_out_eq. simpl.
  destruct (ProjectInfo.is_tarball s); [reflexivity|].
  destruct (_get_git_commit_info ws _ _ _) as [info|e]; [|reflexivity].
  destruct (ProjectInfo.refspec s) as [r|]; [|reflexivity].
  destruct (RefSpec.is_static r); [|reflexivity].
  destruct (GerritIntegration.get_remote_hash g _ r w) as [[h|e] w'];
    reflexivity.
Qed.

Lemma checkout_project_post (f : ProjectsManager.Factory)
    (co : string -> option RefSpec.t -> result unit) (p : string)
    (m m' : ProjectsManager.t) (w w' : World) :
  ProjectsManager.checkout_project f co p (m, w) = (Return tt, (m', w')) ->
  exists info',
    ProjectsManager.dict_get p (ProjectsManager._projects m') = Some info'
    /\ ProjectInfo.is_checked_out info' = true.
Proof.
  intros H. rewrite checkout_project_eq in H.
  destruct (ProjectsManager.dict_get p _) as [info|] eqn:E; [|discriminate].
  destruct (ProjectInfo.is_checked_out info) eqn:Ec.
  - inversion H. subst. exists info. auto.
  - destruct (co p _) as [[]|e]; [|discriminate].
    rewrite at_project_eq, E in H. inversion H. subst. simpl.
    rewrite dict_get_set_eq. eexists. split; [reflexivity|].
    apply set_checked_out_flag.
Qed.

(** X8.  [checkout_project] is idempotent.  It raises a
    [ConfigurationError] for a repository without [ProjectInfo], and the
    error of the workspace if the checkout fails, in both cases without any
    change.  On a repository that is checked out it returns without any
    change, whatever the workspace would do.  Whenever it returns, the
    repository is checked out, and a second call returns and changes
    nothing. *)
Theorem checkout_project_idempotent (f : ProjectsManager.Factory)
    (co co' : string -> option RefSpec.t -> result unit) (p : string)
    (m : ProjectsManager.t) (w : World) :
  (ProjectsManager.dict_get p (ProjectsManager._projects m) = None ->
   ProjectsManager.checkout_project f co p (m, w)
   = (Raise (ConfigurationError (PyStr.upper p ++ "_REFSPEC is not set")), (m, w)))
  /\ (forall info e,
        ProjectsManager.dict_get p (ProjectsManager._projects m) = Some info ->
        ProjectInfo.is_checked_out info = false ->
        co p (ProjectInfo.refspec info) = Raise e ->
        ProjectsManager.checkout_project f co p (m, w) = (Raise e, (m, w)))
  /\ (forall info,
        ProjectsManager.dict_get p (ProjectsManager._projects m) = Some info ->
        ProjectInfo.is_checked_out info = true ->
        ProjectsManager.checkout_project f co p (m, w) = (Return tt, (m, w)))
  /\ (forall m' w',
        ProjectsManager.checkout_project f co p (m, w) = (Return tt, (m', w')) ->
        (exists info',
           ProjectsManager.dict_get p (ProjectsManager._projects m') = Some info'
           /\ ProjectInfo.is_checked_out info' = true)
        /\ ProjectsManager.checkout_project f co' p (m', w')
           = (Return tt, (m', w'))).
Proof.
  split; [|split; [|split]].
  - intros H. rewrite checkout_project_eq, H. reflexivity.
  - intros info e H Hc He. rewrite checkout_project_eq, H, Hc, He. reflexivity.
  - intros info H Hc. rewrite checkout_project_eq, H, Hc. reflexivity.
  - intros m' w' H.
    pose proof (checkout_project_post f co p m m' w w' H) as Hinfo.
    split; [exact Hinfo|]. destruct Hinfo as (info' & Hget & Hc).
    rewrite checkout_project_eq, Hget, Hc. reflexivity.
Qed.

Lemma checkout_project_idempotent_witness :
  ProjectsManager.checkout_project (Ex.factory_of ∅ Ex.gerrit_2222)
    Ex.checkout_fails "gromacs" (Ex.manager_mismatch, Ex.w0)
  = (Return tt, (Ex.manager_mismatch, Ex.w0)).
Proof.
  destruct (checkout_project_idempotent (Ex.factory_of ∅ Ex.gerrit_2222)
              Ex.checkout_fails Ex.checkout_ok "gromacs" Ex.manager_mismatch Ex.w0)
    as (_ & _ & H & _).
  apply (H Ex.info_good); reflexivity.
Defined.




(** ** ProjectsManager: the fallback pass in general *)

Lemma heads_init (b : string) :
  exists r,
    RefSpec.init ("refs/heads/" ++ b) None None = Return r
    /\ RefSpec.branch r = Some (fst (PyStr.split_fields "/" b)).
Proof.
  unfold RefSpec.init, RefSpec.is_tarball_refspec.
  change (PyStr.startswith ("refs/heads/" ++ b) "tarballs/") with false.
  change (PyStr.startswith ("refs/heads/" ++ b) "refs/changes/") with false.
  rewrite startswith_app. cbv iota.
  change ("refs/heads/" ++ b) with ("refs" ++ String "/" ("heads" ++ String "/" b)).
  rewrite split_two_fields by reflexivity. simpl.
  eexists. split; reflexivity.
Qed.

Lemma dict_get_key {V} (k : string) (d : list (string * V)) :
  k ∈ map fst d -> exists v, ProjectsManager.dict_get k d = Some v.
Proof.
  induction d as [|[k' v'] d IH]; simpl; intros H; [inversion H|].
  destruct (String.eqb k k') eqn:E; [eauto|].
  apply elem_of_cons in H as [->|H]; [|apply IH, H].
  rewrite String.eqb_refl in E. discriminate.
Qed.

Lemma load_known_branch_frame (C : Common) (L : PyLib)
    (f : ProjectsManager.Factory) (known : list (string * ProjectInfo.t))
    (d d1 : list (string * ProjectInfo.t)) (b b1 : option string) (w w1 : World) :
  ProjectsManager.load_known_branch C L f known (ProjectsManager.mk d b, w)
    = (Return tt, (ProjectsManager.mk d1 b1, w1)) ->
  w1 = w
  /\ map fst d1 = map fst d
  /\ forall k info, ProjectsManager.dict_get k d = Some info ->
       exists info1, ProjectsManager.dict_get k d1 = Some info1
         /\ ProjectInfo.refspec info1 = ProjectInfo.refspec info
         /\ ProjectInfo.is_checked_out info1 = ProjectInfo.is_checked_out info.
Proof.
  unfold ProjectsManager.load_known_branch.
  destruct known as [|[key i] [|]]; [| |discriminate].
  - intros H. inversion H. subst. split; [reflexivity|]. split; [reflexivity|].
    intros k info Hk. exists info. auto.
  - unfold bind at 1. rewrite at_project_eq. simpl.
    destruct (ProjectsManager.dict_get key d) as [info0|] eqn:Eg; [|discriminate].
    rewrite on_fst_eq. simpl.
    destruct (ensure_branch_loaded_frame C L (ProjectsManager.gerrit f) info0)
      as [(_ & Hr & _ & _ & Hc & _) _].
    destruct (ProjectInfo.ensure_branch_loaded C L (ProjectsManager.gerrit f) info0)
      as [[[]|e] info'] eqn:Ee; simpl in *; [|discriminate].
    unfold bind at 1. rewrite project_at_eq. simpl. rewrite dict_get_set_eq.
    rewrite on_fst_eq. simpl. intros H. inversion H. subst.
    split; [reflexivity|]. split; [eapply dict_set_keys, Eg|].
    intros k info Hk. destruct (decide (key = k)) as [<-|Hne].
    + rewrite dict_get_set_eq. exists info'. rewrite Eg in Hk. inversion Hk.
      subst. auto.
    + rewrite dict_get_set_ne by exact Hne. exists info. auto.
Qed.

(** The fallback pass from the state that the lookup of a branch leaves. *)
Lemma resolve_forward (C : Common) (L : PyLib) (f : ProjectsManager.Factory)
    (d d1 : list (string * ProjectInfo.t)) (b b1 : option string) (w : World) :
  set_iter_ok L ->
  unresolved (ProjectsManager.mk d b, w) ->
  ProjectsManager.missing_of (ProjectsManager.mk d b) <> [] ->
  (if negb (PyStr.truthy b)
   then ProjectsManager.load_known_branch C L f
          (ProjectsManager.known_of C (ProjectsManager.mk d b))
   else ret tt) (ProjectsManager.mk d b, w)
    = (Return tt, (ProjectsManager.mk d1 b1, w)) ->
  map fst d1 = map fst d ->
  (forall k info, ProjectsManager.dict_get k d = Some info ->
     exists info1, ProjectsManager.dict_get k d1 = Some info1
       /\ ProjectInfo.refspec info1 = ProjectInfo.refspec info
       /\ ProjectInfo.is_checked_out info1 = ProjectInfo.is_checked_out info) ->
  exists bs r d',
    (if PyStr.truthy b1 then b1 else Some "master") = Some bs
    /\ RefSpec.init ("refs/heads/" ++ bs) None None = Return r
    /\ RefSpec.branch r = Some (fst (PyStr.split_fields "/" bs))
    /\ ProjectsManager._resolve_missing_refspecs C L f (ProjectsManager.mk d b, w)
       = (Return tt, (ProjectsManager.mk d' (Some bs), w))
    /\ map fst d' = map fst d
    /\ forall k info, ProjectsManager.dict_get k d = Some info ->
         exists info',
           ProjectsManager.dict_get k d' = Some info'
           /\ ProjectInfo.is_checked_out info' = ProjectInfo.is_checked_out info
           /\ (ProjectInfo.refspec info = None ->
               ProjectInfo.refspec info' = Some r)
           /\ (ProjectInfo.refspec info <> None ->
               ProjectInfo.refspec info' = ProjectInfo.refspec info).
Proof.
  intros Hperm [[Hnd Hname] Hco] Hmiss Hload Hkeys1 Hlook1. simpl in Hnd, Hname, Hco.
  assert (Hbs : exists bs, (if PyStr.truthy b1 then b1 else Some "master") = Some bs).
  { destruct (PyStr.truthy b1) eqn:Et; [|eauto].
    destruct b1 as [x|]; [eauto | discriminate]. }
  destruct Hbs as (bs & Hbs).
  destruct (heads_init bs) as (r & Hinit & Hbranch).
  remember (ProjectsManager.missing_of (ProjectsManager.mk d b)) as missing
    eqn:Emiss.
  assert (Hin : forall p, p ∈ set_iter L missing <-> p ∈ missing).
  { intros p. rewrite (Hperm missing). reflexivity. }
  assert (Hmem : forall k info, ProjectsManager.dict_get k d = Some info ->
            (k ∈ missing <-> ProjectInfo.refspec info = None)).
  { intros k info Hget. rewrite Emiss, elem_of_missing. simpl. split.
    - intros (k2 & info2 & Hin2 & Hr2 & Hp2).
      pose proof (Hname _ _ Hin2) as Hk2. rewrite Hp2 in Hk2. subst k2.
      apply (elem_dict_get _ _ _ Hnd) in Hin2. congruence.
    - intros Hr. exists k, info. apply dict_get_elem in Hget.
      split; [exact Hget|]. split; [exact Hr|]. apply Hname, Hget. }
  destruct (for_each_override r (set_iter L missing) d1 (Some bs) w)
    as (d' & Hrun & Hkeys' & Hlook').
  { intros p Hp. apply Hin in Hp.
    pose proof Hp as Hp'. rewrite Emiss in Hp'. apply elem_of_missing in Hp'.
    destruct Hp' as (k & info & Hkin & Hr & Hpk). simpl in Hkin.
    pose proof (Hname _ _ Hkin) as Hk. rewrite Hpk in Hk. subst k.
    pose proof (elem_dict_get _ _ _ Hnd Hkin) as Hget.
    destruct (Hlook1 _ _ Hget) as (info1 & Hget1 & _ & Hc1).
    exists info1. split; [exact Hget1|]. rewrite Hc1. eapply Hco; eauto. }
  exists bs, r, d'. split; [exact Hbs|]. split; [exact Hinit|].
  split; [exact Hbranch|]. split; [|split].
  - unfold ProjectsManager._resolve_missing_refspecs.
    erewrite bind_eq by reflexivity. cbv beta zeta. cbn [fst snd].
    rewrite <- Emiss.
    destruct missing as [|x xs]; [contradiction|].
    cbn [ProjectsManager._branch].
    erewrite bind_eq by exact Hload.
    erewrite bind_eq by reflexivity.
    cbn [fst snd ProjectsManager._branch].
    assert (Hdef :
      (if negb (PyStr.truthy b1)
       then on_fst (modify (ProjectsManager.with__branch (Some "master")))
       else ret tt) (ProjectsManager.mk d1 b1, w)
      = (Return tt, (ProjectsManager.mk d1 (Some bs), w))).
    { destruct (PyStr.truthy b1); simpl in *; [|inversion Hbs; reflexivity].
      rewrite Hbs. reflexivity. }
    erewrite bind_eq by exact Hdef.
    erewrite bind_eq by reflexivity.
    cbn [fst snd ProjectsManager._branch]. rewrite Hinit.
    erewrite bind_eq by reflexivity.
    exact Hrun.
  - rewrite Hkeys'. exact Hkeys1.
  - intros k info Hget.
    destruct (Hlook1 _ _ Hget) as (info1 & Hget1 & Hr1 & Hc1).
    rewrite Hlook', Hget1. simpl.
    destruct (ProjectInfo.refspec info) as [r0|] eqn:Er.
    + rewrite bool_decide_eq_false_2.
      * exists info1. split; [reflexivity|]. split; [exact Hc1|].
        split; [discriminate|]. intros _. exact Hr1.
      * rewrite Hin, (Hmem _ _ Hget). congruence.
    + rewrite bool_decide_eq_true_2 by (rewrite Hin, (Hmem _ _ Hget); exact Er).
      pose proof (Hco k info (dict_get_elem _ _ _ Hget)) as Hfalse.
      eexists. split; [reflexivity|].
      rewrite override_refspec_eq, Hc1, Hfalse. simpl.
      split; [|split; [|congruence]].
      * destruct (PyStr.truthy (RefSpec.branch r)); simpl; congruence.
      * intros _. destruct (PyStr.truthy (RefSpec.branch r)); reflexivity.
Qed.

Lemma dict_get_in_keys {V} (k : string) (v : V) (d : list (string * V)) :
  ProjectsManager.dict_get k d = Some v -> k ∈ map fst d.
Proof.
  intros H. apply dict_get_elem in H.
  apply list_elem_of_In, in_map_iff. exists (k, v). split; [reflexivity|].
  apply list_elem_of_In, H.
Qed.

Lemma no_missing (d : list (string * ProjectInfo.t)) (b : option string) :
  NoDup (map fst d) ->
  (forall k info, ProjectsManager.dict_get k d = Some info ->
     ProjectInfo.refspec info <> None) ->
  ProjectsManager.missing_of (ProjectsManager.mk d b) = [].
Proof.
  intros Hnd Hall. apply elem_of_nil_inv. intros p Hp.
  apply elem_of_missing in Hp as (k & info & Hin & Hr & _). simpl in Hin.
  apply (Hall k info); [apply elem_dict_get; assumption | exact Hr].
Qed.

Lemma missing_nil_located (d : list (string * ProjectInfo.t)) (b : option string) :
  (forall k info, (k, info) ∈ d -> ProjectInfo.project info = k) ->
  ProjectsManager.missing_of (ProjectsManager.mk d b) = [] ->
  forall k info, ProjectsManager.dict_get k d = Some info ->
    ProjectInfo.refspec info <> None.
Proof.
  intros Hname Hnil k info Hget Hr.
  assert (Hin : k ∈ ProjectsManager.missing_of (ProjectsManager.mk d b)).
  { apply elem_of_missing. exists k, info. apply dict_get_elem in Hget.
    split; [exact Hget|]. split; [exact Hr | apply Hname, Hget]. }
  rewrite Hnil in Hin. inversion Hin.
Qed.

(** What the fallback pass has done when it returns with work to do. *)
Lemma resolve_inv (C : Common) (L : PyLib) (f : ProjectsManager.Factory)
    (d : list (string * ProjectInfo.t)) (b : option string) (w w' : World)
    (m' : ProjectsManager.t) :
  set_iter_ok L ->
  unresolved (ProjectsManager.mk d b, w) ->
  ProjectsManager.missing_of (ProjectsManager.mk d b) <> [] ->
  ProjectsManager._resolve_missing_refspecs C L f (ProjectsManager.mk d b, w)
    = (Return tt, (m', w')) ->
  exists bs r d',
    m' = ProjectsManager.mk d' (Some bs) /\ w' = w
    /\ RefSpec.init ("refs/heads/" ++ bs) None None = Return r
    /\ map fst d' = map fst d
    /\ forall k info, ProjectsManager.dict_get k d = Some info ->
         exists info',
           ProjectsManager.dict_get k d' = Some info'
           /\ ProjectInfo.is_checked_out info' = ProjectInfo.is_checked_out info
           /\ (ProjectInfo.refspec info = None ->
               ProjectInfo.refspec info' = Some r)
           /\ (ProjectInfo.refspec info <> None ->
               ProjectInfo.refspec info' = ProjectInfo.refspec info).
Proof.
  intros Hperm Hun Hmiss H.
  destruct ((if negb (PyStr.truthy b)
             then ProjectsManager.load_known_branch C L f
                    (ProjectsManager.known_of C (ProjectsManager.mk d b))
             else ret tt) (ProjectsManager.mk d b, w))
    as [[[]|e] [[d1 b1] w1]] eqn:E1.
  - assert (Hframe : w1 = w /\ map fst d1 = map fst d
              /\ forall k info, ProjectsManager.dict_get k d = Some info ->
                   exists info1, ProjectsManager.dict_get k d1 = Some info1
                     /\ ProjectInfo.refspec info1 = ProjectInfo.refspec info
                     /\ ProjectInfo.is_checked_out info1
                        = ProjectInfo.is_checked_out info).
    { destruct (negb (PyStr.truthy b)).
      - apply (load_known_branch_frame C L f _ d d1 b b1 w w1 E1).
      - inversion E1. subst. split; [reflexivity|]. split; [reflexivity|].
        intros k info Hk. exists info. auto. }
    destruct Hframe as (-> & Hkeys1 & Hlook1).
    destruct (resolve_forward C L f d d1 b b1 w Hperm Hun Hmiss E1 Hkeys1 Hlook1)
      as (bs & r & d' & _ & Hinit & _ & Hres & Hkeys & Hlook).
    rewrite Hres in H. inversion H. subst.
    exists bs, r, d'. auto.
  - exfalso. revert H. unfold ProjectsManager._resolve_missing_refspecs.
    erewrite bind_eq by reflexivity. cbv beta zeta. cbn [fst snd].
    destruct (ProjectsManager.missing_of (ProjectsManager.mk d b)) as [|x xs];
      [contradiction|].
    cbn [ProjectsManager._branch].
    erewrite bind_raise by exact E1. discriminate.
Qed.

Lemma fallback_post (C : Common) (L : PyLib)
    (f : ProjectsManager.Factory) (m m' : ProjectsManager.t) (w w' : World) :
  set_iter_ok L ->
  unresolved (m, w) ->
  ProjectsManager._resolve_missing_refspecs C L f (m, w) = (Return tt, (m', w')) ->
  ProjectsManager.missing_of m' = []
  /\ w' = w
  /\ map fst (ProjectsManager._projects m') = map fst (ProjectsManager._projects m)
  /\ exists r,
       forall k info,
         ProjectsManager.dict_get k (ProjectsManager._projects m) = Some info ->
         exists info',
           ProjectsManager.dict_get k (ProjectsManager._projects m') = Some info'
           /\ ProjectInfo.is_checked_out info' = false
           /\ ProjectInfo.refspec info'
              = match ProjectInfo.refspec info with
                | None => Some r
                | Some r0 => Some r0
                end.
Proof.
  intros Hperm Hun H. destruct m as [d b].
  pose proof Hun as [[Hnd Hname] Hco]. simpl in Hnd, Hname, Hco.
  destruct (ProjectsManager.missing_of (ProjectsManager.mk d b)) as [|x xs] eqn:Em.
  - unfold ProjectsManager._resolve_missing_refspecs in H.
    erewrite bind_eq in H by reflexivity. cbv beta zeta in H. cbn [fst snd] in H.
    rewrite Em in H. inversion H. subst.
    split; [exact Em|]. split; [reflexivity|]. split; [reflexivity|].
    exists Ex.refspec_master. simpl. intros k info Hget. exists info.
    split; [exact Hget|]. split; [eapply Hco, dict_get_elem, Hget|].
    pose proof (missing_nil_located d b Hname Em k info Hget) as Hr.
    destruct (ProjectInfo.refspec info); [reflexivity | contradiction].
  - assert (Hmiss : ProjectsManager.missing_of (ProjectsManager.mk d b) <> [])
      by (rewrite Em; discriminate).
    destruct (resolve_inv C L f d b w w' m' Hperm Hun Hmiss H)
      as (bs & r & d' & -> & -> & Hinit & Hkeys & Hlook).
    simpl. split; [|split; [reflexivity | split; [exact Hkeys|]]].
    + apply no_missing; [rewrite Hkeys; exact Hnd|].
      intros k info' Hget'.
      pose proof (dict_get_in_keys _ _ _ Hget') as Hk. rewrite Hkeys in Hk.
      destruct (dict_get_key _ _ Hk) as (info & Hget).
      destruct (Hlook k info Hget) as (info2 & Hget2 & _ & Hn & Hs).
      rewrite Hget' in Hget2. inversion Hget2. subst info2.
      destruct (ProjectInfo.refspec info) as [r0|] eqn:Er.
      * rewrite Hs; discriminate.
      * rewrite Hn; [discriminate | reflexivity].
    + exists r. intros k info Hget.
      destruct (Hlook k info Hget) as (info' & Hget' & Hc & Hn & Hs).
      exists info'. split; [exact Hget'|]. split.
      * rewrite Hc. eapply Hco, dict_get_elem, Hget.
      * destruct (ProjectInfo.refspec info) as [r0|] eqn:Er;
          [apply Hs; discriminate | apply Hn; reflexivity].
Qed.

(** X10.  When the fallback pass returns, no repository of the registry
    is without locator: the repositories that had none share one locator,
    those that had one keep it, and nothing is checked out by the pass.
    The keys of the registry and the world are as before. *)
Theorem fallback_leaves_none_missing (C : Common) (L : PyLib)
    (f : ProjectsManager.Factory) (m m' : ProjectsManager.t) (w w' : World) :
  set_iter_ok L ->
  unresolved (m, w) ->
  ProjectsManager._resolve_missing_refspecs C L f (m, w) = (Return tt, (m', w')) ->
  ProjectsManager.missing_of m' = []
  /\ w' = w
  /\ map fst (ProjectsManager._projects m') = map fst (ProjectsManager._projects m)
  /\ exists r,
       forall k info,
         ProjectsManager.dict_get k (ProjectsManager._projects m) = Some info ->
         exists info',
           ProjectsManager.dict_get k (ProjectsManager._projects m') = Some info'
           /\ ProjectInfo.is_checked_out info' = false
           /\ ProjectInfo.refspec info'
              = match ProjectInfo.refspec info with
                | None => Some r
                | Some r0 => Some r0
                end.
Proof. apply fallback_post. Qed.

Lemma fallback_leaves_none_missing_witness :
  ProjectsManager.missing_of
    (fst (snd (ProjectsManager._resolve_missing_refspecs Ex.common Ex.pylib
                 (Ex.factory_of ∅ Ex.gerrit_windows) (Ex.manager_static, Ex.w0))))
  = [].
Proof.
  apply (fallback_leaves_none_missing Ex.common Ex.pylib
           (Ex.factory_of ∅ Ex.gerrit_windows) Ex.manager_static
           (fst (snd (ProjectsManager._resolve_missing_refspecs Ex.common Ex.pylib
                        (Ex.factory_of ∅ Ex.gerrit_windows)
                        (Ex.manager_static, Ex.w0))))
           Ex.w0 Ex.w0).
  - intros l. reflexivity.
  - split; [split|].
    + simpl. apply (bool_decide_unpack _). vm_compute. exact I.
    + intros k info H. simpl in H.
      repeat (apply elem_of_cons in H as [H|H]; [inversion H; reflexivity|]).
      inversion H.
    + intros k info H. simpl in H.
      repeat (apply elem_of_cons in H as [H|H]; [inversion H; reflexivity|]).
      inversion H.
  - vm_compute. reflexivity.
Defined.

(** X11.  With a global branch the fallback pass cannot fail and asks
    nobody: whatever the review system would answer, it returns, keeps the
    global branch, and gives the locator of that branch to every
    repository that had none. *)
Theorem fallback_with_global_branch (C : Common) (L : PyLib)
    (f : ProjectsManager.Factory) (m : ProjectsManager.t) (w : World) (b : string) :
  set_iter_ok L ->
  unresolved (m, w) ->
  ProjectsManager._branch m = Some b ->
  PyStr.truthy (Some b) = true ->
  exists m' r,
    ProjectsManager._resolve_missing_refspecs C L f (m, w) = (Return tt, (m', w))
    /\ (ProjectsManager.missing_of m <> [] -> ProjectsManager._branch m' = Some b)
    /\ RefSpec.init ("refs/heads/" ++ b) None None = Return r
    /\ forall k info,
         ProjectsManager.dict_get k (ProjectsManager._projects m) = Some info ->
         exists info',
           ProjectsManager.dict_get k (ProjectsManager._projects m') = Some info'
           /\ ProjectInfo.refspec info'
              = match ProjectInfo.refspec info with
                | None => Some r
                | Some r0 => Some r0
                end.
Proof.
  intros Hperm Hun Hb Ht. destruct m as [d b0]. simpl in Hb. subst b0.
  pose proof Hun as [[Hnd Hname] Hco]. simpl in Hnd, Hname, Hco.
  destruct (ProjectsManager.missing_of (ProjectsManager.mk d (Some b)))
    as [|x xs] eqn:Em.
  - destruct (heads_init b) as (r & Hinit & _).
    exists (ProjectsManager.mk d (Some b)), r. split; [|split; [|split]].
    + unfold ProjectsManager._resolve_missing_refspecs.
      erewrite bind_eq by reflexivity. cbv beta zeta. cbn [fst snd].
      rewrite Em. reflexivity.
    + intros H. contradiction.
    + exact Hinit.
    + simpl. intros k info Hget. exists info. split; [exact Hget|].
      pose proof (missing_nil_located d (Some b) Hname Em k info Hget) as Hr.
      destruct (ProjectInfo.refspec info); [reflexivity | contradiction].
  - assert (Hmiss : ProjectsManager.missing_of (ProjectsManager.mk d (Some b)) <> [])
      by (rewrite Em; discriminate).
    assert (Hload :
      (if negb (PyStr.truthy (Some b))
       then ProjectsManager.load_known_branch C L f
              (ProjectsManager.known_of C (ProjectsManager.mk d (Some b)))
       else ret tt) (ProjectsManager.mk d (Some b), w)
      = (Return tt, (ProjectsManager.mk d (Some b), w))).
    { rewrite Ht. reflexivity. }
    destruct (resolve_forward C L f d d (Some b) (Some b) w Hperm Hun Hmiss Hload
                eq_refl)
      as (bs & r & d' & Hbs & Hinit & _ & Hres & Hkeys & Hlook).
    { intros k info Hget. exists info. auto. }
    rewrite Ht in Hbs. inversion Hbs. subst bs.
    exists (ProjectsManager.mk d' (Some b)), r.
    split; [exact Hres|]. split; [reflexivity|]. split; [exact Hinit|].
    simpl. intros k info Hget.
    destruct (Hlook k info Hget) as (info' & Hget' & _ & Hn & Hs).
    exists info'. split; [exact Hget'|].
    destruct (ProjectInfo.refspec info) as [r0|] eqn:Er;
      [apply Hs; discriminate | apply Hn; reflexivity].
Qed.

Lemma fallback_with_global_branch_witness :
  exists m' r,
    ProjectsManager._resolve_missing_refspecs Ex.common Ex.pylib
      (Ex.factory_of ∅ Ex.gerrit_silent) (Ex.manager_release, Ex.w0)
    = (Return tt, (m', Ex.w0))
    /\ (ProjectsManager.missing_of Ex.manager_release <> [] ->
        ProjectsManager._branch m' = Some "release-2022")
    /\ RefSpec.init ("refs/heads/" ++ "release-2022") None None = Return r
    /\ forall k info,
         ProjectsManager.dict_get k (ProjectsManager._projects Ex.manager_release)
           = Some info ->
         exists info',
           ProjectsManager.dict_get k (ProjectsManager._projects m') = Some info'
           /\ ProjectInfo.refspec info'
              = match ProjectInfo.refspec info with
                | None => Some r
                | Some r0 => Some r0
                end.
Proof.
  apply (fallback_with_global_branch Ex.common Ex.pylib
           (Ex.factory_of ∅ Ex.gerrit_silent) Ex.manager_release Ex.w0
           "release-2022").
  - intros l. reflexivity.
  - split; [split|].
    + simpl. apply (bool_decide_unpack _). vm_compute. exact I.
    + intros k info H. simpl in H.
      repeat (apply elem_of_cons in H as [H|H]; [inversion H; reflexivity|]).
      inversion H.
    + intros k info H. simpl in H.
      repeat (apply elem_of_cons in H as [H|H]; [inversion H; reflexivity|]).
      inversion H.
  - reflexivity.
  - reflexivity.
Defined.

(** ** ProjectsManager: the trigger *)

Lemma dict_set_set {V} (k : string) (v v0 : V) (d : list (string * V)) :
  ProjectsManager.dict_set k v (ProjectsManager.dict_set k v0 d)
  = ProjectsManager.dict_set k v d.
Proof.
  induction d as [|[k' v'] d IH]; simpl.
  - rewrite String.eqb_refl. reflexivity.
  - destruct (String.eqb k k') eqn:E; simpl.
    + rewrite String.eqb_refl. reflexivity.
    + rewrite E, IH. reflexivity.
Qed.

(** X12.  The locator of the triggering change takes the place of
    whatever locator the triggering repository had, unless that one is a
    tarball, which stays and needs no [GERRIT_REFSPEC].  The branch of the
    trigger becomes the global branch unless the trigger is the automation
    repository, and the branch of the repository if it had none.  The
    other repositories are not touched. *)
Theorem trigger_takes_precedence (C : Common) (f : ProjectsManager.Factory)
    (gp : string) (m : ProjectsManager.t) (w : World) (info : ProjectInfo.t) :
  ProjectsManager.dict_get gp (ProjectsManager._projects m) = Some info ->
  ProjectInfo.is_checked_out info = false ->
  let gerrit_branch :=
    GerritIntegration.get_triggering_branch (ProjectsManager.gerrit f) in
  let branched := snd (ProjectInfo.set_branch gerrit_branch info) in
  let global :=
    if String.eqb gp (Project_RELENG C) then ProjectsManager._branch m
    else gerrit_branch in
  (ProjectInfo.is_tarball info = true ->
   ProjectsManager.apply_trigger C f gp (m, w)
   = (Return tt,
      (ProjectsManager.mk
         (ProjectsManager.dict_set gp branched (ProjectsManager._projects m))
         global, w)))
  /\ (forall rs r,
        ProjectInfo.is_tarball info = false ->
        GerritIntegration._env (ProjectsManager.gerrit f) !! "GERRIT_REFSPEC"
          = Some rs ->
        RefSpec.init rs None None = Return r ->
        exists info',
          ProjectsManager.apply_trigger C f gp (m, w)
          = (Return tt,
             (ProjectsManager.mk
                (ProjectsManager.dict_set gp info' (ProjectsManager._projects m))
                global, w))
          /\ ProjectInfo.refspec info' = Some r
          /\ ProjectInfo.branch info'
             = if PyStr.truthy (RefSpec.branch r) then RefSpec.branch r
               else ProjectInfo.branch branched)
  /\ (ProjectInfo.is_tarball info = false ->
      GerritIntegration._env (ProjectsManager.gerrit f) !! "GERRIT_REFSPEC" = None ->
      fst (ProjectsManager.apply_trigger C f gp (m, w))
      = Raise (ConfigurationError "GERRIT_REFSPEC not set")).
Proof.
  intros Hget Hco gerrit_branch branched global.
  assert (Htar : ProjectInfo.is_tarball branched = ProjectInfo.is_tarball info).
  { unfold branched. rewrite set_branch_eq. simpl.
    destruct (ProjectInfo.branch info); reflexivity. }
  assert (Hflag : ProjectInfo.is_checked_out branched = false).
  { unfold branched. rewrite set_branch_eq. simpl.
    destruct (ProjectInfo.branch info); exact Hco. }
  assert (Hrun : ProjectsManager.apply_trigger C f gp (m, w)
    = (if ProjectInfo.is_tarball branched then ret tt
       else
         refspec <- lift (GerritIntegration.get_triggering_refspec
                            (ProjectsManager.gerrit f)) ;;
         ProjectsManager.at_project gp
           (on_fst (ProjectInfo.override_refspec refspec)))
        (ProjectsManager.mk
           (ProjectsManager.dict_set gp branched (ProjectsManager._projects m))
           global, w)).
  { unfold ProjectsManager.apply_trigger.
    unfold bind at 1. rewrite project_at_eq, Hget.
    unfold bind at 1. rewrite at_project_eq. simpl. rewrite Hget, on_fst_eq.
    rewrite set_branch_eq. simpl.
    unfold bind at 1.
    assert (Hglobal :
      (if String.eqb gp (Project_RELENG C) then ret tt
       else on_fst (modify (ProjectsManager.with__branch gerrit_branch)))
        (ProjectsManager.with_projects
           (ProjectsManager.dict_set gp branched (ProjectsManager._projects m)) m, w)
      = (Return tt,
         (ProjectsManager.mk
            (ProjectsManager.dict_set gp branched (ProjectsManager._projects m))
            global, w))).
    { unfold global. destruct (String.eqb gp (Project_RELENG C)); reflexivity. }
    unfold branched in Hglobal |- *. rewrite set_branch_eq in Hglobal. simpl in Hglobal.
    fold gerrit_branch. rewrite Hglobal.
    unfold bind at 1. rewrite project_at_eq. simpl. rewrite dict_get_set_eq.
    rewrite set_branch_eq. reflexivity. }
  rewrite Hrun, Htar. split; [|split].
  - intros ->. reflexivity.
  - intros rs r -> Hrs Hr. unfold bind at 1, lift.
    unfold GerritIntegration.get_triggering_refspec. rewrite Hrs, Hr.
    rewrite at_project_eq. simpl. rewrite dict_get_set_eq, on_fst_eq.
    rewrite override_refspec_eq, Hflag. simpl.
    rewrite dict_set_set.
    eexists. split; [reflexivity|]. split.
    + destruct (PyStr.truthy (RefSpec.branch r)); reflexivity.
    + destruct (PyStr.truthy (RefSpec.branch r)); reflexivity.
  - intros -> Hrs. unfold bind at 1, lift.
    unfold GerritIntegration.get_triggering_refspec. rewrite Hrs. reflexivity.
Qed.

Lemma trigger_takes_precedence_witness :
  exists info',
    ProjectsManager.apply_trigger Ex.common
      (Ex.factory_of Ex.env_change Ex.gerrit_silent) "gromacs"
      (Ex.manager_trigger, Ex.w0)
    = (Return tt,
       (ProjectsManager.mk
          (ProjectsManager.dict_set "gromacs" info'
             (ProjectsManager._projects Ex.manager_trigger))
          (Some "release-2022"), Ex.w0))
    /\ ProjectInfo.refspec info' = Some Ex.refspec_change
    /\ ProjectInfo.branch info' = Some "release-2022".
Proof.
  destruct (trigger_takes_precedence Ex.common
              (Ex.factory_of Ex.env_change Ex.gerrit_silent) "gromacs"
              Ex.manager_trigger Ex.w0 (ProjectInfo.init "gromacs" None))
    as (_ & H & _).
  - reflexivity.
  - reflexivity.
  - destruct (H "refs/changes/12/3412/5" Ex.refspec_change)
      as (info' & H1 & H2 & H3).
    + reflexivity.
    + vm_compute. reflexivity.
    + reflexivity.
    + exists info'. split; [exact H1|]. split; [exact H2 | exact H3].
Defined.

(** ** ProjectsManager: what initialization establishes *)

Lemma bind_inv {St A B} (m : M St A) (k : A -> M St B) (s s'' : St) (b : B) :
  bind m k s = (Return b, s'') ->
  exists a s', m s = (Return a, s') /\ k a s' = (Return b, s'').
Proof.
  unfold bind. destruct (m s) as [[a|e] s']; [eauto | discriminate].
Qed.

Lemma set_checked_out_frame (ws : Workspace) (g : GerritIntegration.t)
    (s : ProjectInfo.t) (w : World) :
  ProjectInfo.project (fst (snd (ProjectInfo.set_checked_out ws g (s, w))))
    = ProjectInfo.project s
  /\ ProjectInfo.refspec (fst (snd (ProjectInfo.set_checked_out ws g (s, w))))
     = ProjectInfo.refspec s.
Proof.
  rewrite set_checked_out_eq. simpl.
  destruct (ProjectInfo.is_tarball s); [auto|].
  destruct (_get_git_commit_info ws _ _ _) as [info|e]; [|auto].
  destruct (ProjectInfo.refspec s) as [r|] eqn:Er; [|simpl; auto].
  destruct (RefSpec.is_static r); [|simpl; auto].
  destruct (GerritIntegration.get_remote_hash g _ r w) as [[h|e] w'];
    simpl; auto.
Qed.

(** The last loop of [_init_projects], when it returns. *)
Lemma for_each_set_checked_out (ws : Workspace) (g : GerritIntegration.t)
    (l : list string) :
  forall (d d' : list (string * ProjectInfo.t)) (b b' : option string)
         (w w' : World),
  for_each l (fun project =>
    ProjectsManager.at_project project (ProjectInfo.set_checked_out ws g))
    (ProjectsManager.mk d b, w)
  = (Return tt, (ProjectsManager.mk d' b', w')) ->
  b' = b
  /\ map fst d' = map fst d
  /\ (forall k, k ∈ l -> exists info',
        ProjectsManager.dict_get k d' = Some info'
        /\ ProjectInfo.is_checked_out info' = true)
  /\ forall k info, ProjectsManager.dict_get k d = Some info ->
       exists info', ProjectsManager.dict_get k d' = Some info'
         /\ ProjectInfo.project info' = ProjectInfo.project info
         /\ ProjectInfo.refspec info' = ProjectInfo.refspec info
         /\ (ProjectInfo.is_checked_out info = true ->
             ProjectInfo.is_checked_out info' = true).
Proof.
  induction l as [|p l IH]; intros d d' b b' w w' H.
  - inversion H. subst. split; [reflexivity|]. split; [reflexivity|].
    split; [intros k Hk; inversion Hk|]. intros k info Hk. exists info. auto.
  - cbn [for_each] in H. apply bind_inv in H as ([] & [[d1 b1] w1] & H1 & H2).
    rewrite at_project_eq in H1. simpl in H1.
    destruct (ProjectsManager.dict_get p d) as [i|] eqn:Ep; [|discriminate].
    inversion H1. subst d1 b1 w1. clear H1.
    destruct (set_checked_out_frame ws g i w) as [Hpi Hri].
    pose proof (set_checked_out_flag ws g i w) as Hfi.
    set (i' := fst (snd (ProjectInfo.set_checked_out ws g (i, w)))) in *.
    destruct (IH _ _ _ _ _ _ H2) as (Hb & Hkeys & Hdone & Hframe).
    split; [exact Hb|]. split; [|split].
    + rewrite Hkeys. eapply dict_set_keys, Ep.
    + intros k Hk. apply elem_of_cons in Hk as [->|Hk]; [|apply Hdone, Hk].
      destruct (Hframe p i') as (i2 & Hg2 & _ & _ & Hc2);
        [apply dict_get_set_eq|].
      exists i2. split; [exact Hg2 | apply Hc2, Hfi].
    + intros k info Hk. destruct (decide (p = k)) as [<-|Hne].
      * rewrite Ep in Hk. inversion Hk. subst info.
        destruct (Hframe p i') as (i2 & Hg2 & Hp2 & Hr2 & Hc2);
          [apply dict_get_set_eq|].
        exists i2. split; [exact Hg2|]. split; [congruence|].
        split; [congruence|]. intros _. apply Hc2, Hfi.
      * apply Hframe. rewrite dict_get_set_ne by exact Hne. exact Hk.
Qed.

Lemma unresolved_resolve_projects (C : Common) (L : PyLib)
    (f : ProjectsManager.Factory) :
  preserves unresolved (ProjectsManager.resolve_projects C L f).
Proof.
  destruct (unresolved_before_fallback C L f) as (_ & Hc & Ht & Hp & Hr).
  unfold ProjectsManager.resolve_projects. cbv zeta.
  apply preserves_bind; [exact Hc|]. intros _.
  apply preserves_bind; [apply preserves_lift|]. intros cp.
  apply preserves_bind; [apply preserves_lift|]. intros gp.
  apply preserves_bind.
  { destruct gp; [apply Ht | apply preserves_ret]. }
  intros _. apply preserves_bind.
  { destruct cp; [|apply preserves_ret].
    apply preserves_bind; [apply Hp|]. intros _. apply preserves_ret. }
  intros ip. apply preserves_bind; [exact Hr|]. intros _. apply preserves_ret.
Qed.

(** When [resolve_projects] returns, the fallback pass has returned from
    an unresolved registry. *)
Lemma resolve_projects_inv (C : Common) (L : PyLib) (f : ProjectsManager.Factory)
    (w : World) (ip : list string) (s' : ProjectsManager.t * World) :
  ProjectsManager.resolve_projects C L f (ProjectsManager.mk [] None, w)
    = (Return ip, s') ->
  exists s0,
    unresolved s0
    /\ ProjectsManager._resolve_missing_refspecs C L f s0 = (Return tt, s').
Proof.
  destruct (unresolved_before_fallback C L f) as (H0 & Hc & Ht & Hp & _).
  unfold ProjectsManager.resolve_projects. cbv zeta. intros H.
  apply bind_inv in H as ([] & s1 & Q1 & H).
  pose proof (Hc _ (H0 w)) as Hu1. rewrite Q1 in Hu1. simpl in Hu1.
  apply bind_inv in H as (cp & s2 & Q2 & H).
  unfold lift in Q2. assert (s2 = s1) by congruence. subst s2. clear Q2.
  apply bind_inv in H as (gp & s3 & Q3 & H).
  unfold lift in Q3. assert (s3 = s1) by congruence. subst s3. clear Q3.
  apply bind_inv in H as ([] & s4 & Q4 & H).
  assert (Hu4 : unresolved s4).
  { destruct gp as [gp|].
    - pose proof (Ht gp _ Hu1) as Hu. rewrite Q4 in Hu. exact Hu.
    - unfold ret in Q4. assert (s4 = s1) by congruence. subst s4. exact Hu1. }
  apply bind_inv in H as (ip' & s5 & Q5 & H).
  assert (Hu5 : unresolved s5).
  { destruct cp as [cp|].
    - apply bind_inv in Q5 as ([] & s6 & Q6 & Q7).
      pose proof (Hp cp _ Hu4) as Hu. rewrite Q6 in Hu. simpl in Hu.
      unfold ret in Q7. assert (s5 = s6) by congruence. subst s5. exact Hu.
    - unfold ret in Q5. assert (s5 = s4) by congruence. subst s5. exact Hu4. }
  apply bind_inv in H as ([] & s6 & Q6 & H).
  unfold ret in H. assert (s' = s6) by congruence. subst s'.
  exists s5. split; assumption.
Qed.

(** X13.  When [ProjectsManager(factory)] returns, the registry is well
    formed, every repository in it has a locator, and the automation
    repository is in it and checked out. *)
Theorem init_postcondition (C : Common) (L : PyLib) (f : ProjectsManager.Factory)
    (w w' : World) (m : ProjectsManager.t) :
  set_iter_ok L ->
  ProjectsManager.init C L f w = (Return tt, (m, w')) ->
  ProjectsManager.registry_wf (ProjectsManager._projects m)
  /\ ProjectsManager.missing_of m = []
  /\ exists info,
       ProjectsManager.dict_get (Project_RELENG C) (ProjectsManager._projects m)
         = Some info
       /\ ProjectInfo.is_checked_out info = true.
Proof.
  intros Hperm H. unfold ProjectsManager.init, ProjectsManager._init_projects in H.
  apply bind_inv in H as (ip & [[d1 b1] w1] & Hres & Hloop).
  pose proof (resolve_projects_releng C L f _ _ _ Hres) as Hin.
  destruct (resolve_projects_inv C L f w ip _ Hres) as ([m0 w0] & Hu0 & Hfall).
  destruct (fallback_post C L f m0 _ w0 w1 Hperm Hu0 Hfall) as (Hmiss & _ & _ & _).
  destruct (unresolved_before_fallback C L f) as (_ & _ & _ & _ & Hpres).
  pose proof (Hpres _ Hu0) as Hu1. rewrite Hfall in Hu1.
  destruct Hu1 as [[Hnd Hname] _]. simpl in Hnd, Hname.
  destruct m as [d' b'].
  destruct (for_each_set_checked_out _ _ _ _ _ _ _ _ _ Hloop)
    as (_ & Hkeys & Hdone & Hframe).
  simpl. split; [split|split].
  - rewrite Hkeys. exact Hnd.
  - intros k info' Hel.
    assert (Hg' : ProjectsManager.dict_get k d' = Some info')
      by (apply elem_dict_get; [rewrite Hkeys; exact Hnd | exact Hel]).
    pose proof (dict_get_in_keys _ _ _ Hg') as Hk. rewrite Hkeys in Hk.
    destruct (dict_get_key _ _ Hk) as (info & Hg).
    destruct (Hframe k info Hg) as (i2 & Hg2 & Hp2 & _).
    rewrite Hg' in Hg2. inversion Hg2. subst i2. rewrite Hp2.
    apply Hname, dict_get_elem, Hg.
  - apply no_missing; [rewrite Hkeys; exact Hnd|].
    intros k info' Hg'.
    pose proof (dict_get_in_keys _ _ _ Hg') as Hk. rewrite Hkeys in Hk.
    destruct (dict_get_key _ _ Hk) as (info & Hg).
    destruct (Hframe k info Hg) as (i2 & Hg2 & _ & Hr2 & _).
    rewrite Hg' in Hg2. inversion Hg2. subst i2. rewrite Hr2.
    apply (missing_nil_located d1 b1 Hname Hmiss k info Hg).
  - apply Hdone. rewrite (Hperm ip). exact Hin.
Qed.

Lemma init_postcondition_witness :
  ProjectsManager.missing_of
    (fst (snd (ProjectsManager.init Ex.common Ex.pylib
                 (Ex.factory_of Ex.env_change Ex.gerrit_2222) Ex.w0))) = [].
Proof.
  apply (init_postcondition Ex.common Ex.pylib
           (Ex.factory_of Ex.env_change Ex.gerrit_2222) Ex.w0
           (snd (snd (ProjectsManager.init Ex.common Ex.pylib
                        (Ex.factory_of Ex.env_change Ex.gerrit_2222) Ex.w0)))).
  - intros l. reflexivity.
  - vm_compute. reflexivity.
Defined.

(** ** ProjectsManager: reports *)

Lemma print_project_eq (p : string) (m : ProjectsManager.t) (w : World) :
  ProjectsManager.print_project p (m, w)
  = match ProjectsManager.dict_get p (ProjectsManager._projects m) with
    | None => (Return tt, (m, w))
    | Some info =>
        if ProjectInfo.is_checked_out info then
          (Raise (TypeError (ProjectsManager.refspec_class info
                             ++ ".__format__")), (m, w))
        else (Return tt, (m, w))
    end.
Proof.
  unfold ProjectsManager.print_project. run.
  destruct (ProjectsManager.dict_get p _) as [info|]; [|reflexivity].
  unfold ProjectInfo.has_correct_hash.
  destruct (ProjectInfo.is_checked_out info); reflexivity.
Qed.

Lemma print_loop (l : list string) (m : ProjectsManager.t) (w : World) :
  (exists p info, p ∈ l
     /\ ProjectsManager.dict_get p (ProjectsManager._projects m) = Some info
     /\ ProjectInfo.is_checked_out info = true) ->
  exists cls,
    for_each l ProjectsManager.print_project (m, w)
    = (Raise (TypeError (cls ++ ".__format__")), (m, w)).
Proof.
  induction l as [|q l IH]; intros (p & info & Hin & Hget & Hco);
    [inversion Hin|].
  cbn [for_each]. unfold bind. rewrite print_project_eq.
  destruct (ProjectsManager.dict_get q _) as [i|] eqn:Eq.
  - destruct (ProjectInfo.is_checked_out i) eqn:Ei; [eauto|].
    apply IH. exists p, info. apply elem_of_cons in Hin as [->|Hin];
      [congruence | auto].
  - apply IH. exists p, info. apply elem_of_cons in Hin as [->|Hin];
      [congruence | auto].
Qed.

Lemma print_loop_quiet (l : list string) (m : ProjectsManager.t) (w : World) :
  (forall p info, p ∈ l ->
     ProjectsManager.dict_get p (ProjectsManager._projects m) = Some info ->
     ProjectInfo.is_checked_out info = false) ->
  for_each l ProjectsManager.print_project (m, w) = (Return tt, (m, w)).
Proof.
  induction l as [|q l IH]; intros H; [reflexivity|].
  cbn [for_each]. unfold bind. rewrite print_project_eq.
  destruct (ProjectsManager.dict_get q _) as [i|] eqn:Eq.
  - rewrite (H q i (list_elem_of_here _ _) Eq).
    apply IH. intros p info Hp. apply H, list_elem_of_further, Hp.
  - apply IH. intros p info Hp. apply H, list_elem_of_further, Hp.
Qed.

(** X14.  [print_project_info] prints no version line.  If a known
    repository is checked out, it prints the two lines of the header and
    raises [TypeError] at the first such repository, because the format
    [{1:26}] is applied to an object without [__format__]; otherwise it
    prints the header and the closing line, and returns.  The registry is
    never changed. *)
Theorem print_project_info_type_error (C : Common) (m : ProjectsManager.t)
    (w : World) :
  ((exists p info, p ∈ Project_values C
      /\ ProjectsManager.dict_get p (ProjectsManager._projects m) = Some info
      /\ ProjectInfo.is_checked_out info = true) ->
   exists cls,
     ProjectsManager.print_project_info C (m, w)
     = (Raise (TypeError (cls ++ ".__format__")),
        (m, mkWorld (console w ++ [ProjectsManager.dashes;
                                   "Building using versions:"])
                    (next_id w))))
  /\ ((forall p info, p ∈ Project_values C ->
         ProjectsManager.dict_get p (ProjectsManager._projects m) = Some info ->
         ProjectInfo.is_checked_out info = false) ->
      ProjectsManager.print_project_info C (m, w)
      = (Return tt,
         (m, mkWorld (console w ++ [ProjectsManager.dashes;
                                    "Building using versions:";
                                    ProjectsManager.dashes])
                     (next_id w)))).
Proof.
  unfold ProjectsManager.print_project_info.
  assert (Hhead : forall k : unit -> M (ProjectsManager.t * World) unit,
    (on_snd (print ProjectsManager.dashes) ;;;
     on_snd (print "Building using versions:") ;;; k tt) (m, w)
    = k tt (m, mkWorld (console w ++ [ProjectsManager.dashes;
                                      "Building using versions:"]) (next_id w))).
  { intros k. unfold bind, on_snd, print, modify. simpl.
    rewrite <- app_assoc. reflexivity. }
  split.
  - intros H.
    destruct (print_loop (Project_values C) m
                (mkWorld (console w ++ [ProjectsManager.dashes;
                                        "Building using versions:"]) (next_id w)) H)
      as (cls & Hloop).
    exists cls.
    rewrite (Hhead (fun _ =>
               for_each (Project_values C) ProjectsManager.print_project ;;;
               on_snd (print ProjectsManager.dashes))).
    apply bind_raise, Hloop.
  - intros H.
    rewrite (Hhead (fun _ =>
               for_each (Project_values C) ProjectsManager.print_project ;;;
               on_snd (print ProjectsManager.dashes))).
    erewrite bind_eq by (apply print_loop_quiet, H).
    unfold on_snd, print, modify. simpl. rewrite <- app_assoc. reflexivity.
Qed.

Lemma print_project_info_type_error_witness :
  exists cls,
    ProjectsManager.print_project_info Ex.common (Ex.manager_mismatch, Ex.w0)
    = (Raise (TypeError (cls ++ ".__format__")),
       (Ex.manager_mismatch,
        mkWorld [ProjectsManager.dashes; "Building using versions:"] 0)).
Proof.
  apply (print_project_info_type_error Ex.common Ex.manager_mismatch Ex.w0).
  exists "gromacs", Ex.info_good. split; [|split; reflexivity].
  apply list_elem_of_here.
Defined.

Lemma load_revisions_spec (C : Common) (L : PyLib) (f : ProjectsManager.Factory)
    (l : list string) :
  forall (d d' : list (string * ProjectInfo.t)) (b b' : option string)
         (w w' : World) (ps : list string),
  ProjectsManager.load_revisions C L f l (ProjectsManager.mk d b, w)
    = (Return ps, (ProjectsManager.mk d' b', w')) ->
  b' = b
  /\ map fst d' = map fst d
  /\ ps = filter (fun p => is_Some (ProjectsManager.dict_get p d)) l
  /\ forall k info, ProjectsManager.dict_get k d = Some info ->
       exists info', ProjectsManager.dict_get k d' = Some info'
         /\ ProjectInfo.project info' = ProjectInfo.project info
         /\ ProjectInfo.refspec info' = ProjectInfo.refspec info
         /\ ProjectInfo.is_checked_out info' = ProjectInfo.is_checked_out info
         /\ (ProjectInfo.is_checked_out info = true ->
             ProjectInfo.has_correct_hash info'
             = ProjectInfo.has_correct_hash info).
Proof.
  induction l as [|p l IH]; intros d d' b b' w w' ps H.
  - inversion H. subst. repeat split; try reflexivity.
    intros k info Hk. exists info. auto.
  - cbn [ProjectsManager.load_revisions] in H.
    apply bind_inv in H as (m0 & s0 & H0 & H).
    unfold on_fst, get in H0. simpl in H0. inversion H0. subst m0 s0. clear H0.
    simpl in H. rewrite filter_cons.
    destruct (ProjectsManager.dict_get p d) as [i|] eqn:Ep.
    + apply bind_inv in H as ([] & [[d1 b1] w1] & H1 & H).
      apply bind_inv in H as (ps' & [[d2 b2] w2] & H2 & H).
      unfold ret in H. inversion H. subst. clear H.
      rewrite at_project_eq in H1. simpl in H1. rewrite Ep in H1.
      inversion H1. subst d1 b1 w1. clear H1.
      destruct (load_missing_info_frame C L (ProjectsManager.workspace f)
                  (ProjectsManager.gerrit f) i w) as (Hp & Hr & Hc & Hv).
      set (i' := fst (snd (ProjectInfo.load_missing_info C L
                             (ProjectsManager.workspace f)
                             (ProjectsManager.gerrit f) (i, w)))) in *.
      destruct (IH _ _ _ _ _ _ _ H2) as (Hb & Hkeys & Hps & Hframe).
      assert (Hsame : forall q,
                is_Some (ProjectsManager.dict_get q
                           (ProjectsManager.dict_set p i' d))
                <-> is_Some (ProjectsManager.dict_get q d)).
      { intros q. destruct (decide (p = q)) as [<-|Hne].
        - rewrite dict_get_set_eq, Ep. split; eauto.
        - rewrite dict_get_set_ne by exact Hne. reflexivity. }
      split; [exact Hb|]. split; [|split].
      * rewrite Hkeys. eapply dict_set_keys, Ep.
      * rewrite decide_True by eauto. rewrite Hps. f_equal.
        apply list_filter_iff. exact Hsame.
      * intros k info Hk. destruct (decide (p = k)) as [<-|Hne].
        -- rewrite Ep in Hk. inversion Hk. subst info.
           destruct (Hframe p i') as (i2 & Hg2 & Hp2 & Hr2 & Hc2 & Hv2);
             [apply dict_get_set_eq|].
           exists i2. split; [exact Hg2|]. repeat split; try congruence.
           intros Ht. rewrite Hv2 by congruence. apply Hv, Ht.
        -- apply Hframe. rewrite dict_get_set_ne by exact Hne. exact Hk.
    + destruct (IH _ _ _ _ _ _ _ H) as (Hb & Hkeys & Hps & Hframe).
      rewrite decide_False by (intros [x Hx]; discriminate).
      auto.
Qed.

Lemma to_dicts_projects (d : list (string * ProjectInfo.t)) (ps : list string) :
  (forall p, p ∈ ps -> exists info,
     ProjectsManager.dict_get p d = Some info /\ ProjectInfo.project info = p) ->
  map (ProjectsManager.dict_get "project") (ProjectsManager.to_dicts d ps)
  = map (fun p => Some (PStr p)) ps.
Proof.
  induction ps as [|p ps IH]; intros H; [reflexivity|].
  simpl. destruct (H p (list_elem_of_here _ _)) as (info & Hg & Hp).
  rewrite Hg. simpl. rewrite Hp, IH; [reflexivity|].
  intros q Hq. apply H, list_elem_of_further, Hq.
Qed.

(** X15.  When [get_build_revisions] returns, it gives one record for each
    known repository that has a [ProjectInfo], in the order of
    [Project._values], each under the name of its repository.  The
    registry keeps its keys, and every repository its locator, its flag,
    and, if it is checked out, the verdict of [has_correct_hash]. *)
Theorem get_build_revisions_records (C : Common) (L : PyLib)
    (f : ProjectsManager.Factory) (m m' : ProjectsManager.t) (w w' : World)
    (dicts : list (list (string * pyval))) :
  ProjectsManager.registry_wf (ProjectsManager._projects m) ->
  ProjectsManager.get_build_revisions C L f (m, w) = (Return dicts, (m', w')) ->
  map (ProjectsManager.dict_get "project") dicts
  = map (fun p => Some (PStr p))
      (filter (fun p => is_Some (ProjectsManager.dict_get p
                                   (ProjectsManager._projects m)))
         (Project_values C))
  /\ map fst (ProjectsManager._projects m') = map fst (ProjectsManager._projects m)
  /\ forall k info,
       ProjectsManager.dict_get k (ProjectsManager._projects m) = Some info ->
       exists info',
         ProjectsManager.dict_get k (ProjectsManager._projects m') = Some info'
         /\ ProjectInfo.refspec info' = ProjectInfo.refspec info
         /\ ProjectInfo.is_checked_out info' = ProjectInfo.is_checked_out info
         /\ (ProjectInfo.is_checked_out info = true ->
             ProjectInfo.has_correct_hash info'
             = ProjectInfo.has_correct_hash info).
Proof.
  intros [Hnd Hname] H. destruct m as [d b]. simpl in *.
  unfold ProjectsManager.get_build_revisions in H.
  apply bind_inv in H as (ps & [[d1 b1] w1] & Hload & H).
  apply bind_inv in H as (m1 & s1 & Hget & H).
  unfold on_fst, get in Hget. simpl in Hget. inversion Hget. subst m1 s1.
  unfold ret in H. inversion H. subst dicts m' w'. clear H Hget. simpl.
  destruct (load_revisions_spec C L f _ _ _ _ _ _ _ _ Hload)
    as (_ & Hkeys & Hps & Hframe).
  split; [|split; [exact Hkeys|]].
  - rewrite <- Hps. apply to_dicts_projects. intros p Hp. rewrite Hps in Hp.
    apply list_elem_of_filter in Hp as [[info Hg] _].
    destruct (Hframe p info Hg) as (info' & Hg' & Hp' & _).
    exists info'. split; [exact Hg'|]. rewrite Hp'.
    apply Hname, dict_get_elem, Hg.
  - intros k info Hk.
    destruct (Hframe k info Hk) as (info' & Hg' & _ & Hr & Hc & Hv).
    exists info'. auto.
Qed.

Lemma get_build_revisions_records_witness :
  map (ProjectsManager.dict_get "project")
    match fst (ProjectsManager.get_build_revisions Ex.common Ex.pylib
                 (Ex.factory_of ∅ Ex.gerrit_2222) (Ex.manager_mismatch, Ex.w0))
    with
    | Return dicts => dicts
    | Raise _ => []
    end
  = map (fun p => Some (PStr p))
      (filter (fun p => is_Some (ProjectsManager.dict_get p
                                   (ProjectsManager._projects Ex.manager_mismatch)))
         (Project_values Ex.common)).
Proof.
  apply (get_build_revisions_records Ex.common Ex.pylib
           (Ex.factory_of ∅ Ex.gerrit_2222) Ex.manager_mismatch
           (fst (snd (ProjectsManager.get_build_revisions Ex.common Ex.pylib
                        (Ex.factory_of ∅ Ex.gerrit_2222)
                        (Ex.manager_mismatch, Ex.w0))))
           Ex.w0
           (snd (snd (ProjectsManager.get_build_revisions Ex.common Ex.pylib
                        (Ex.factory_of ∅ Ex.gerrit_2222)
                        (Ex.manager_mismatch, Ex.w0))))).
  - split.
    + simpl. apply (bool_decide_unpack _). vm_compute. exact I.
    + intros k info H. simpl in H.
      repeat (apply elem_of_cons in H as [H|H]; [inversion H; reflexivity|]).
      inversion H.
  - vm_compute. reflexivity.
Defined.

(** ** GerritIntegration: the hash of a remote ref *)

Lemma take_word_spec (s : string) :
  Forall (fun c => PyStr.is_space c = false)
    (list_ascii_of_string (fst (PyStr.take_word s)))
  /\ s = fst (PyStr.take_word s) ++ snd (PyStr.take_word s).
Proof.
  induction s as [|c s [IH1 IH2]]; simpl.
  - split; [constructor|reflexivity].
  - destruct (PyStr.is_space c) eqn:Ec; simpl.
    + split; [constructor|reflexivity].
    + destruct (PyStr.take_word s) as [w rest]. simpl in *. split.
      * constructor; assumption.
      * change (String c w ++ rest) with (String c (w ++ rest)). congruence.
Qed.

Lemma lstrip_head (s : string) (c : ascii) (s' : string) :
  PyStr.lstrip s = String c s' -> PyStr.is_space c = false.
Proof.
  induction s as [|a s IH]; simpl; [discriminate|].
  destruct (PyStr.is_space a) eqn:Ea; [exact IH|].
  intros H. inversion H. subst. exact Ea.
Qed.

Lemma rstrip_no_space (s : string) :
  Forall (fun c => PyStr.is_space c = false) (list_ascii_of_string s) ->
  PyStr.rstrip s = s.
Proof.
  induction s as [|c s IH]; simpl; [reflexivity|].
  intros H. inversion H as [|? ? Hc Hs]. subst. rewrite (IH Hs), Hc.
  destruct s; reflexivity.
Qed.

Lemma strip_no_space (s : string) :
  Forall (fun c => PyStr.is_space c = false) (list_ascii_of_string s) ->
  PyStr.strip s = s.
Proof.
  intros H. unfold PyStr.strip.
  assert (Hl : PyStr.lstrip s = s).
  { destruct s as [|c s]; [reflexivity|]. simpl.
    inversion H as [|? ? Hc Hs]. subst. rewrite Hc. reflexivity. }
  rewrite Hl. apply rstrip_no_space, H.
Qed.

(** X16.  [get_remote_hash] raises nothing of its own.  When the
    [ls-remote] command succeeds, it either returns a new [BuildError]
    instance, and then the output had fewer than two fields, or it returns
    the first field of the output: a non-empty string without whitespace
    that is followed in the output by more text. *)
Theorem get_remote_hash_token (g : GerritIntegration.t) (project : string)
    (refspec : RefSpec.t) (w : World) (out : string) :
  GerritIntegration._cmd_runner g
    (GerritIntegration.ls_remote_cmd g project refspec) = Return out ->
  (exists e,
     GerritIntegration.get_remote_hash g project refspec w
     = (Return (PExc (next_id w) (BuildError e)),
        mkWorld (console w) (S (next_id w)))
     /\ length (PyStr.split_ws_1 out) < 2)
  \/ (exists h rest,
        GerritIntegration.get_remote_hash g project refspec w
        = (Return (PStr h), w)
        /\ h <> ""
        /\ Forall (fun c => PyStr.is_space c = false) (list_ascii_of_string h)
        /\ PyStr.lstrip out = h ++ rest
        /\ PyStr.lstrip rest <> ""
        /\ PyStr.split_ws_1 out = [h; PyStr.lstrip rest]).
Proof.
  intros Hcmd.
  destruct (lt_dec (length (PyStr.split_ws_1 out)) 2) as [Hlen|Hlen].
  - left. eexists. split; [|exact Hlen].
    apply (get_remote_hash_short g project refspec w out Hcmd Hlen).
  - right.
    unfold GerritIntegration.get_remote_hash, bind, lift. rewrite Hcmd.
    assert (Hb : (length (PyStr.split_ws_1 out) <? 2) = false)
      by (apply Nat.ltb_ge; lia).
    rewrite Hb. clear Hb.
    unfold PyStr.split_ws_1 in *.
    destruct (PyStr.lstrip out) as [|c s1] eqn:El; [simpl in Hlen; lia|].
    pose proof (lstrip_head _ _ _ El) as Hc.
    pose proof (take_word_spec (String c s1)) as [Hns Happ].
    destruct (PyStr.take_word (String c s1)) as [h rest] eqn:Et.
    simpl fst in *. simpl snd in *.
    destruct (PyStr.lstrip rest) as [|c2 r2] eqn:Er; [simpl in Hlen; lia|].
    exists h, rest. simpl. rewrite (strip_no_space h Hns).
    split; [reflexivity|]. split.
    + simpl in Et. rewrite Hc in Et. destruct (PyStr.take_word s1).
      inversion Et. discriminate.
    + split; [exact Hns|]. split; [exact Happ|]. rewrite Er.
      split; [discriminate|reflexivity].
Qed.

Lemma get_remote_hash_token_witness :
  (exists e,
     GerritIntegration.get_remote_hash Ex.gerrit_2222 "gromacs"
       Ex.refspec_change Ex.w0
     = (Return (PExc (next_id Ex.w0) (BuildError e)),
        mkWorld (console Ex.w0) (S (next_id Ex.w0)))
     /\ length (PyStr.split_ws_1 "2222	refs/changes/12/3412/5") < 2)
  \/ (exists h rest,
        GerritIntegration.get_remote_hash Ex.gerrit_2222 "gromacs"
          Ex.refspec_change Ex.w0
        = (Return (PStr h), Ex.w0)
        /\ h <> ""
        /\ Forall (fun c => PyStr.is_space c = false) (list_ascii_of_string h)
        /\ PyStr.lstrip "2222	refs/changes/12/3412/5" = h ++ rest
        /\ PyStr.lstrip rest <> ""
        /\ PyStr.split_ws_1 "2222	refs/changes/12/3412/5"
           = [h; PyStr.lstrip rest]).
Proof.
  apply (get_remote_hash_token Ex.gerrit_2222 "gromacs" Ex.refspec_change
           Ex.w0 "2222	refs/changes/12/3412/5").
  reflexivity.
Defined.

(** ** MatrixBuildInfo *)

Lemma found_opts (runs : list MatrixRunInfo.t) (c : Config.t)
    (r : MatrixRunInfo.t) :
  In r (MatrixBuildInfo.found runs c) ->
  In r runs /\ MatrixRunInfo.opts r = Config.opts c.
Proof.
  unfold MatrixBuildInfo.found. intros H. apply filter_In in H as [H1 H2].
  split; [exact H1|]. apply bool_decide_eq_true in H2. exact H2.
Qed.

Lemma merge_loop_inv (runs : list MatrixRunInfo.t) (configs : list Config.t) :
  forall acc new_runs,
  MatrixBuildInfo.merge_loop runs configs acc = Return new_runs ->
  exists rs : list MatrixRunInfo.t,
    new_runs = (acc ++ rs)%list
    /\ Forall2 (fun c r =>
                  MatrixBuildInfo.found runs c = [r]
                  \/ (MatrixBuildInfo.found runs c = []
                      /\ r = MatrixBuildInfo.not_built c)) configs rs.
Proof.
  induction configs as [|c configs IH]; intros acc new_runs H; simpl in H.
  - inversion H. exists []. rewrite app_nil_r. split; [reflexivity|constructor].
  - destruct (MatrixBuildInfo.found runs c) as [|x [|y l]] eqn:Ef; simpl in H.
    + destruct (IH _ _ H) as (rs & -> & HF).
      exists (MatrixBuildInfo.not_built c :: rs). split.
      * rewrite <- app_assoc. reflexivity.
      * constructor; [right; rewrite Ef; auto | exact HF].
    + destruct (IH _ _ H) as (rs & -> & HF).
      exists (x :: rs). split.
      * rewrite <- app_assoc. reflexivity.
      * constructor; [left; exact Ef | exact HF].
    + discriminate.
Qed.

Lemma merge_loop_found (runs : list MatrixRunInfo.t) (configs : list Config.t) :
  forall acc rs : list MatrixRunInfo.t,
  Forall2 (fun c r => MatrixBuildInfo.found runs c = [r]) configs rs ->
  MatrixBuildInfo.merge_loop runs configs acc = Return (acc ++ rs)%list.
Proof.
  induction configs as [|c configs IH]; intros acc rs HF.
  - apply Forall2_nil_inv_l in HF. subst. rewrite app_nil_r. reflexivity.
  - apply Forall2_cons_inv_l in HF as (r & rs' & Hr & HF & ->).
    simpl. rewrite Hr. simpl. rewrite (IH _ _ HF), <- app_assoc. reflexivity.
Qed.

Lemma merge_loop_raises (runs : list MatrixRunInfo.t) (configs : list Config.t) :
  forall acc,
  (exists new_runs,
     MatrixBuildInfo.merge_loop runs configs acc = Return new_runs)
  \/ (MatrixBuildInfo.merge_loop runs configs acc = Raise AssertionError
      /\ Exists (fun c => 2 <= length (MatrixBuildInfo.found runs c)) configs).
Proof.
  induction configs as [|c configs IH]; intros acc; simpl.
  - left. eauto.
  - destruct (MatrixBuildInfo.found runs c) as [|x [|y l]] eqn:Ef; simpl.
    + destruct (IH (acc ++ [MatrixBuildInfo.not_built c])%list) as [H|[H1 H2]];
        [left; exact H | right; split; [exact H1 | right; exact H2]].
    + destruct (IH (acc ++ [x])%list) as [H|[H1 H2]];
        [left; exact H | right; split; [exact H1 | right; exact H2]].
    + right. split; [reflexivity|]. left. rewrite Ef. simpl. lia.
Qed.

(** X17.  When [merge_known_configs] returns, the runs are those of the
    configurations, in their order: for each configuration the one run
    that has its options, or, if no run has them, a run marked
    [NOT_BUILT] with the options and the host of the configuration and no
    URL.  Runs of other options are dropped, and the result of the build
    is kept. *)
Theorem merge_known_configs_aligned (configs : list Config.t)
    (b b' : MatrixBuildInfo.t) :
  MatrixBuildInfo.merge_known_configs configs b = (Return tt, b') ->
  MatrixBuildInfo.result b' = MatrixBuildInfo.result b
  /\ map MatrixRunInfo.opts (MatrixBuildInfo.runs b') = map Config.opts configs
  /\ Forall2 (fun c r =>
                (In r (MatrixBuildInfo.runs b)
                 /\ MatrixBuildInfo.found (MatrixBuildInfo.runs b) c = [r])
                \/ (r = MatrixBuildInfo.not_built c
                    /\ forall x, In x (MatrixBuildInfo.runs b) ->
                         MatrixRunInfo.opts x <> Config.opts c))
       configs (MatrixBuildInfo.runs b').
Proof.
  unfold MatrixBuildInfo.merge_known_configs. intros H.
  destruct (MatrixBuildInfo.merge_loop (MatrixBuildInfo.runs b) configs [])
    as [new_runs|e] eqn:El; [|discriminate].
  inversion H. subst b'. clear H. simpl.
  apply merge_loop_inv in El as (rs & -> & HF). simpl.
  split; [reflexivity|]. split.
  - induction HF as [|c r cs rs' Hr HF IH]; [reflexivity|].
    simpl. rewrite IH. f_equal.
    destruct Hr as [Hr|[_ ->]]; [|reflexivity].
    apply (found_opts (MatrixBuildInfo.runs b) c r). rewrite Hr. left. reflexivity.
  - eapply Forall2_impl; [exact HF|]. intros c r [Hr|[Hr ->]].
    + left. split; [|exact Hr].
      apply (found_opts (MatrixBuildInfo.runs b) c r). rewrite Hr. left. reflexivity.
    + right. split; [reflexivity|]. intros x Hx Hopts.
      assert (Hin : In x (MatrixBuildInfo.found (MatrixBuildInfo.runs b) c)).
      { unfold MatrixBuildInfo.found. apply filter_In. split; [exact Hx|].
        apply bool_decide_eq_true. exact Hopts. }
      rewrite Hr in Hin. destruct Hin.
Qed.

Lemma merge_known_configs_aligned_witness :
  map MatrixRunInfo.opts
    (MatrixBuildInfo.runs
       (snd (MatrixBuildInfo.merge_known_configs Ex.configs Ex.build_partial)))
  = map Config.opts Ex.configs.
Proof.
  apply (merge_known_configs_aligned Ex.configs Ex.build_partial
           (snd (MatrixBuildInfo.merge_known_configs Ex.configs
                   Ex.build_partial))).
  reflexivity.
Defined.

(** X18.  [merge_known_configs] fails exactly when some configuration has
    its options in more than one run; the failure is an [AssertionError]
    and leaves the runs as they were. *)
Theorem merge_known_configs_assertion (configs : list Config.t)
    (b : MatrixBuildInfo.t) :
  (is_return (fst (MatrixBuildInfo.merge_known_configs configs b)) = false
   <-> Exists (fun c => 2 <= length (MatrixBuildInfo.found
                                       (MatrixBuildInfo.runs b) c)) configs)
  /\ (is_return (fst (MatrixBuildInfo.merge_known_configs configs b)) = false ->
      MatrixBuildInfo.merge_known_configs configs b = (Raise AssertionError, b)).
Proof.
  unfold MatrixBuildInfo.merge_known_configs.
  destruct (merge_loop_raises (MatrixBuildInfo.runs b) configs [])
    as [[new_runs H]|[H HE]]; rewrite H; simpl.
  - split; [|discriminate]. split; [discriminate|]. intros HE. exfalso.
    apply merge_loop_inv in H as (rs & _ & HF).
    clear new_runs. induction HF as [|c r cs rs' Hr HF IH].
    + inversion HE.
    + inversion HE as [? ? Hc|? ? Hcs]; subst.
      * destruct Hr as [Hr|[Hr _]]; rewrite Hr in Hc; simpl in Hc; lia.
      * exact (IH Hcs).
  - split; [|reflexivity]. split; [intros _; exact HE | reflexivity].
Qed.

Lemma found_unique (runs : list MatrixRunInfo.t) :
  NoDup (map MatrixRunInfo.opts runs) ->
  forall r c, In r runs -> MatrixRunInfo.opts r = Config.opts c ->
  MatrixBuildInfo.found runs c = [r].
Proof.
  unfold MatrixBuildInfo.found.
  induction runs as [|x runs IH]; intros Hnd r c Hin Hopts; [destruct Hin|].
  simpl in Hnd. apply NoDup_cons in Hnd as [Hx Hnd]. simpl.
  destruct Hin as [->|Hin].
  - rewrite bool_decide_eq_true_2 by exact Hopts. f_equal.
    destruct (List.filter _ runs) as [|y l] eqn:Ef; [reflexivity|].
    exfalso. apply Hx.
    assert (Hy : In y (List.filter
                         (fun x => bool_decide (MatrixRunInfo.opts x
                                                = Config.opts c)) runs))
      by (rewrite Ef; left; reflexivity).
    apply filter_In in Hy as [Hy1 Hy2]. apply bool_decide_eq_true in Hy2.
    rewrite Hopts, <- Hy2. apply list_elem_of_In, in_map, Hy1.
  - rewrite bool_decide_eq_false_2.
    + apply IH; assumption.
    + intros Hxc. apply Hx. rewrite Hxc, <- Hopts.
      apply list_elem_of_In, in_map, Hin.
Qed.

Lemma Forall2_impl_in {A B} (P Q : A -> B -> Prop) (l : list A) (k : list B) :
  Forall2 P l k ->
  (forall x y, In y k -> P x y -> Q x y) ->
  Forall2 Q l k.
Proof.
  induction 1 as [|x y l k HP HF IH]; intros H; constructor.
  - apply H; [left; reflexivity | exact HP].
  - apply IH. intros a b Hb. apply H. right. exact Hb.
Qed.

(** X19.  Merging the same configurations a second time changes nothing,
    as long as no two configurations have the same options. *)
Theorem merge_known_configs_idempotent (configs : list Config.t)
    (b b' : MatrixBuildInfo.t) :
  NoDup (map Config.opts configs) ->
  MatrixBuildInfo.merge_known_configs configs b = (Return tt, b') ->
  MatrixBuildInfo.merge_known_configs configs b' = (Return tt, b').
Proof.
  intros Hnd H. unfold MatrixBuildInfo.merge_known_configs in *.
  destruct (MatrixBuildInfo.merge_loop (MatrixBuildInfo.runs b) configs [])
    as [new_runs|e] eqn:El; [|discriminate].
  inversion H. subst b'. clear H. simpl.
  apply merge_loop_inv in El as (rs & -> & HF). simpl.
  assert (Hopts : Forall2 (fun c r => MatrixRunInfo.opts r = Config.opts c)
                    configs rs).
  { eapply Forall2_impl; [exact HF|]. intros c r [Hr|[_ ->]]; [|reflexivity].
    apply (found_opts (MatrixBuildInfo.runs b) c r). rewrite Hr.
    left. reflexivity. }
  assert (Hmap : map MatrixRunInfo.opts rs = map Config.opts configs).
  { clear HF Hnd. induction Hopts as [|c r cs rs' Hr _ IH]; [reflexivity|].
    simpl. rewrite Hr, IH. reflexivity. }
  assert (Hfound : Forall2 (fun c r => MatrixBuildInfo.found rs c = [r])
                     configs rs).
  { apply (Forall2_impl_in _ _ _ _ Hopts). intros c r Hin Hr.
    apply found_unique; [rewrite Hmap; exact Hnd | exact Hin | exact Hr]. }
  rewrite (merge_loop_found rs configs [] rs Hfound). reflexivity.
Qed.

Lemma merge_known_configs_idempotent_witness :
  MatrixBuildInfo.merge_known_configs Ex.configs
    (snd (MatrixBuildInfo.merge_known_configs Ex.configs Ex.build_partial))
  = (Return tt,
     snd (MatrixBuildInfo.merge_known_configs Ex.configs Ex.build_partial)).
Proof.
  apply (merge_known_configs_idempotent Ex.configs Ex.build_partial).
  - apply (bool_decide_unpack _). vm_compute. exact I.
  - reflexivity.
Defined.

Lemma run_of_data_inv (U : UrlLib) (d : list (string * pyval))
    (r : MatrixRunInfo.t) :
  MatrixBuildInfo.run_of_data U d = Return r ->
  exists u part l,
    MatrixBuildInfo.getitem d "result" = Return (MatrixRunInfo.result r)
    /\ MatrixBuildInfo.getitem d "url" = Return (PStr u)
    /\ MatrixRunInfo.url r = Some u
    /\ MatrixBuildInfo.options_parts u = [part]
    /\ PyStr.split_ws (unquote U (PyStr.slice_from 8 part))
       = (MatrixRunInfo.opts r ++ [l])%list
    /\ MatrixRunInfo.host r
       = Some (PyStr.slice_from 5 (fst (PyStr.split_fields "," l))).
Proof.
  unfold MatrixBuildInfo.run_of_data. intros H.
  destruct (MatrixBuildInfo.getitem d "result") as [res|] eqn:Er;
    [|discriminate].
  destruct (MatrixBuildInfo.getitem d "url") as [[|u|]|] eqn:Eu;
    try discriminate.
  cbn [rbind] in H.
  destruct (MatrixBuildInfo.options_parts u) as [|part [|p2 ps]] eqn:Ep;
    try discriminate.
  cbn [negb Nat.eqb length lookup list_lookup] in H.
  destruct (last (PyStr.split_ws (unquote U (PyStr.slice_from 8 part))))
    as [l|] eqn:El; [|discriminate].
  unfold PyStr.split in H.
  destruct (PyStr.split_fields "," l) as [h hs] eqn:Eh.
  cbn [lookup list_lookup] in H.
  assert (Hinj : forall x y : MatrixRunInfo.t, Return x = Return y -> x = y)
    by (intros x y Hxy; congruence).
  apply Hinj in H. subst r. clear Hinj.
  cbn [MatrixRunInfo.opts MatrixRunInfo.host MatrixRunInfo.result
       MatrixRunInfo.url].
  exists u, part, l. rewrite Eh. cbn [fst].
  repeat split; try reflexivity; [exact Ep|].
  apply last_Some in El as [l' El]. rewrite El.
  rewrite removelast_last. reflexivity.
Qed.

Lemma init_loop_inv (U : UrlLib) (data : list (list (string * pyval))) :
  forall acc runs,
  MatrixBuildInfo.init_loop U data acc = Return runs ->
  exists rs : list MatrixRunInfo.t,
    runs = (acc ++ rs)%list
    /\ Forall2 (fun d r => MatrixBuildInfo.run_of_data U d = Return r) data rs.
Proof.
  induction data as [|d data IH]; intros acc runs H; simpl in H.
  - inversion H. exists []. rewrite app_nil_r. split; [reflexivity|constructor].
  - destruct (MatrixBuildInfo.run_of_data U d) as [r|] eqn:Er; [|discriminate].
    simpl in H. destruct (IH _ _ H) as (rs & -> & HF).
    exists (r :: rs). split; [rewrite <- app_assoc; reflexivity|].
    constructor; assumption.
Qed.

(** X20.  When [MatrixBuildInfo(result, json_runs_data)] is constructed,
    there is one run for each record, in the order of the records.  A run
    has the result and the URL of its record; the URL has exactly one path
    segment that starts with [OPTIONS=]; the fields of what follows
    [OPTIONS=], once unquoted, are the options of the run and then one
    last field, of which the host is the text before the first comma
    without its first five characters. *)
Theorem matrix_build_info_runs (U : UrlLib) (res : pyval)
    (data : list (list (string * pyval))) (b : MatrixBuildInfo.t) :
  MatrixBuildInfo.init U res data = Return b ->
  MatrixBuildInfo.result b = res
  /\ Forall2 (fun d r =>
       exists u part l,
         MatrixBuildInfo.getitem d "result" = Return (MatrixRunInfo.result r)
         /\ MatrixBuildInfo.getitem d "url" = Return (PStr u)
         /\ MatrixRunInfo.url r = Some u
         /\ MatrixBuildInfo.options_parts u = [part]
         /\ PyStr.split_ws (unquote U (PyStr.slice_from 8 part))
            = (MatrixRunInfo.opts r ++ [l])%list
         /\ MatrixRunInfo.host r
            = Some (PyStr.slice_from 5 (fst (PyStr.split_fields "," l))))
       data (MatrixBuildInfo.runs b).
Proof.
  unfold MatrixBuildInfo.init. intros H.
  destruct (MatrixBuildInfo.init_loop U data []) as [runs|] eqn:El;
    [|discriminate].
  simpl in H. inversion H. subst b. clear H. simpl.
  split; [reflexivity|].
  apply init_loop_inv in El as (rs & -> & HF). simpl.
  eapply Forall2_impl; [exact HF|]. intros d r. apply run_of_data_inv.
Qed.

Lemma matrix_build_info_runs_witness :
  exists b,
    MatrixBuildInfo.init Ex.urllib (PStr "SUCCESS") Ex.runs_data = Return b
    /\ MatrixBuildInfo.result b = PStr "SUCCESS"
    /\ map MatrixRunInfo.opts (MatrixBuildInfo.runs b)
       = [["gcc-9"; "mpi"]; ["clang-11"]]
    /\ map MatrixRunInfo.host (MatrixBuildInfo.runs b)
       = [Some "bs_mac"; Some "bs_nix"].
Proof.
  eexists. split; [reflexivity|].
  split; [|split; reflexivity].
  apply (matrix_build_info_runs Ex.urllib (PStr "SUCCESS") Ex.runs_data).
  reflexivity.
Defined.

Lemma split_app (sep : ascii) (a b : string) :
  PyStr.split sep (a ++ String sep b)
  = (PyStr.split sep a ++ PyStr.split sep b)%list.
Proof.
  unfold PyStr.split. induction a as [|c a IH].
  - change ("" ++ String sep b) with (String sep b). simpl.
    destruct (PyStr.split_fields sep b) as [w ws].
    rewrite Ascii.eqb_refl. reflexivity.
  - change (String c a ++ String sep b) with (String c (a ++ String sep b)).
    simpl. destruct (PyStr.split_fields sep (a ++ String sep b)) as [w ws].
    destruct (PyStr.split_fields sep a) as [w1 ws1].
    destruct (PyStr.split_fields sep b) as [w2 ws2].
    simpl in IH. inversion IH. subst.
    destruct (Ascii.eqb c sep); reflexivity.
Qed.

Lemma split_whole (sep : ascii) (s : string) :
  PyStr.contains sep s = false -> PyStr.split sep s = [s].
Proof.
  intros H. unfold PyStr.split.
  pose proof (split_fields_whole sep s H) as H1.
  pose proof (proj2 (split_fields_rest sep s) H) as H2.
  destruct (PyStr.split_fields sep s) as [w ws]. simpl in *. congruence.
Qed.

Lemma slice_from_app (p s : string) :
  PyStr.slice_from (String.length p) (p ++ s) = s.
Proof.
  induction p as [|c p IH]; [destruct s; reflexivity|]. exact IH.
Qed.

(** X21.  The URL of a matrix run is read back: when the only path segment
    that starts with [OPTIONS=] holds, quoted, the options followed by
    [host=<host>,<labels>], the run has these options, this host, and the
    result and the URL of the record. *)
Theorem run_of_data_url (U : UrlLib) (d : list (string * pyval)) (res : pyval)
    (base q rest : string) (opts : list string) (h labels : string) :
  MatrixBuildInfo.getitem d "result" = Return res ->
  MatrixBuildInfo.getitem d "url"
  = Return (PStr (base ++ String "/" (("OPTIONS=" ++ q) ++ String "/" rest))) ->
  MatrixBuildInfo.options_parts base = [] ->
  MatrixBuildInfo.options_parts rest = [] ->
  PyStr.contains "/" q = false ->
  PyStr.split_ws (unquote U q)
  = (opts ++ [(("host=" ++ h) ++ String "," labels)%string])%list ->
  PyStr.contains "," h = false ->
  MatrixBuildInfo.run_of_data U d
  = Return (MatrixRunInfo.mk opts (Some h) res
              (Some (base ++ String "/" (("OPTIONS=" ++ q) ++ String "/" rest)))).
Proof.
  intros Hres Hurl Hbase Hrest Hq Hopts Hh.
  unfold MatrixBuildInfo.run_of_data. rewrite Hres, Hurl. cbn [rbind].
  assert (Hparts : MatrixBuildInfo.options_parts
                     (base ++ String "/" (("OPTIONS=" ++ q) ++ String "/" rest))
                   = ["OPTIONS=" ++ q]).
  { unfold MatrixBuildInfo.options_parts in *.
    rewrite !split_app, !List.filter_app, Hbase, Hrest.
    rewrite split_whole by exact Hq.
    cbn [List.filter]. rewrite startswith_app. reflexivity. }
  rewrite Hparts. cbn [negb Nat.eqb length lookup list_lookup].
  change 8 with (String.length "OPTIONS="). rewrite slice_from_app, Hopts.
  rewrite last_snoc, removelast_last. unfold PyStr.split.
  rewrite split_fields_app by exact Hh. cbn [lookup list_lookup].
  change 5 with (String.length "host="). rewrite slice_from_app. reflexivity.
Qed.

Lemma run_of_data_url_witness :
  MatrixBuildInfo.run_of_data Ex.urllib
    [("result", PStr "SUCCESS");
     ("url", PStr "job/OPTIONS=clang-11%20host=bs_nix,label/7/")]
  = Return (MatrixRunInfo.mk ["clang-11"] (Some "bs_nix") (PStr "SUCCESS")
              (Some "job/OPTIONS=clang-11%20host=bs_nix,label/7/")).
Proof.
  apply (run_of_data_url Ex.urllib
           [("result", PStr "SUCCESS");
            ("url", PStr "job/OPTIONS=clang-11%20host=bs_nix,label/7/")]
           (PStr "SUCCESS") "job" "clang-11%20host=bs_nix,label" "7/"
           ["clang-11"] "bs_nix" "label");
    reflexivity.
Defined.

(** ** StatusReporter *)

Lemma act_eq (a : action) (s : StatusReporter.t) (calls : list action) :
  StatusReporter.act a (s, calls) = (Return tt, (s, (calls ++ [a])%list)).
Proof. reflexivity. Qed.

Lemma for_each_act {A} (f : A -> action) (l : list A) :
  forall (s : StatusReporter.t) (calls : list action),
  for_each l (fun x => StatusReporter.act (f x)) (s, calls)
  = (Return tt, (s, (calls ++ map f l)%list)).
Proof.
  induction l as [|x l IH]; intros s calls; simpl.
  - rewrite app_nil_r. reflexivity.
  - unfold bind. rewrite act_eq, IH, <- app_assoc. reflexivity.
Qed.

Lemma report_run (O : OsLib) (to_console : bool) (s : StatusReporter.t)
    (calls : list action) :
  exists prints : list action,
    StatusReporter._report O to_console (s, calls)
    = (if StatusReporter.failed s
       then if StatusReporter.nonempty (StatusReporter._unsuccessful_reason s)
            then Return tt else Raise AssertionError
       else Return tt,
       (s, (calls ++ prints
            ++ match StatusReporter.contents_of O s with
               | Some c =>
                   if PyStr.truthy (Some c)
                   then [Ensure_dir_exists
                           (dirname O (StatusReporter._status_file s));
                         Write_file (StatusReporter._status_file s) c]
                   else []
               | None => []
               end)%list))
    /\ Forall (fun a => exists line, a = Console_print line) prints
    /\ (to_console = false -> prints = []).
Proof.
  unfold StatusReporter._report.
  set (writes := match StatusReporter.contents_of O s with
                 | Some c => _ | None => _ end).
  exists (if PyStr.truthy (StatusReporter.reason_of s) && to_console
          then Console_print "Build FAILED:"
               :: map (fun line => Console_print ("  " ++ line))
                    (StatusReporter._unsuccessful_reason s)
          else []).
  split; [|split].
  - unfold bind at 1. rewrite on_fst_eq. unfold get. cbn [fst snd].
    unfold bind at 1.
    assert (Hp : (if PyStr.truthy (StatusReporter.reason_of s) && to_console
                  then bind (StatusReporter.act (Console_print "Build FAILED:"))
                         (fun _ => for_each (StatusReporter._unsuccessful_reason s)
                            (fun line => StatusReporter.act
                                           (Console_print ("  " ++ line))))
                  else ret tt) (s, calls)
                 = (Return tt,
                    (s, (calls
                         ++ (if PyStr.truthy (StatusReporter.reason_of s)
                                && to_console
                             then Console_print "Build FAILED:"
                                  :: map (fun line => Console_print ("  " ++ line))
                                       (StatusReporter._unsuccessful_reason s)
                             else []))%list))).
    { destruct (PyStr.truthy (StatusReporter.reason_of s) && to_console).
      - unfold bind. rewrite act_eq.
        rewrite (for_each_act (fun line => Console_print ("  " ++ line))).
        rewrite <- app_assoc. reflexivity.
      - rewrite app_nil_r. reflexivity. }
    rewrite Hp. clear Hp. unfold bind at 1.
    set (calls1 := (calls ++ _)%list).
    assert (Hw : match StatusReporter.contents_of O s with
                 | Some c =>
                     if PyStr.truthy (StatusReporter.contents_of O s)
                     then bind (StatusReporter.act
                                  (Ensure_dir_exists
                                     (dirname O (StatusReporter._status_file s))))
                            (fun _ => StatusReporter.act
                                        (Write_file
                                           (StatusReporter._status_file s) c))
                     else ret tt
                 | None => ret tt
                 end (s, calls1)
                 = (Return tt, (s, (calls1 ++ writes)%list))).
    { subst writes. destruct (StatusReporter.contents_of O s) as [c|].
      - destruct (PyStr.truthy (Some c)).
        + unfold bind. rewrite !act_eq, <- app_assoc. reflexivity.
        + rewrite app_nil_r. reflexivity.
      - rewrite app_nil_r. reflexivity. }
    rewrite Hw. clear Hw. subst calls1. rewrite <- app_assoc.
    destruct (StatusReporter.failed s); [|reflexivity].
    destruct (StatusReporter.nonempty _); reflexivity.
  - destruct (PyStr.truthy (StatusReporter.reason_of s) && to_console);
      [|constructor].
    constructor; [eauto|]. apply Forall_forall. intros a Ha.
    apply list_elem_of_In, in_map_iff in Ha as (line & <- & _). eauto.
  - intros ->. rewrite andb_false_r. reflexivity.
Qed.

Lemma nonempty_true {A} (l : list A) :
  StatusReporter.nonempty l = true <-> l <> [].
Proof. destruct l; simpl; split; (discriminate || tauto || reflexivity). Qed.

Lemma report_returns (O : OsLib) (to_console : bool) (s : StatusReporter.t)
    (calls : list action) :
  StatusReporter.has_reason s ->
  exists acts : list action,
    StatusReporter._report O to_console (s, calls)
    = (Return tt, (s, (calls ++ acts)%list))
    /\ (forall rc, ~ In (Sys_exit rc) acts)
    /\ (forall p c, In (Write_file p c) acts <->
          p = StatusReporter._status_file s
          /\ StatusReporter.contents_of O s = Some c
          /\ PyStr.truthy (Some c) = true).
Proof.
  intros Hs. destruct (report_run O to_console s calls) as (prints & H & Hp & _).
  eexists. split; [|split].
  - rewrite H. f_equal.
    destruct (StatusReporter.failed s) eqn:Ef; [|reflexivity].
    apply Hs, nonempty_true in Ef. rewrite Ef. reflexivity.
  - intros rc Hin. apply in_app_or in Hin as [Hin|Hin].
    + rewrite Forall_forall in Hp. apply list_elem_of_In, Hp in Hin as [line Hl].
      discriminate.
    + destruct (StatusReporter.contents_of O s) as [c|]; [|destruct Hin].
      destruct (PyStr.truthy (Some c)); [|destruct Hin].
      destruct Hin as [Hin|[Hin|[]]]; discriminate.
  - intros p c. split.
    + intros Hin. apply in_app_or in Hin as [Hin|Hin].
      * rewrite Forall_forall in Hp.
        apply list_elem_of_In, Hp in Hin as [line Hl]. discriminate.
      * destruct (StatusReporter.contents_of O s) as [c'|]; [|destruct Hin].
        destruct (PyStr.truthy (Some c')) eqn:Et; [|destruct Hin].
        destruct Hin as [Hin|[Hin|[]]]; [discriminate|].
        inversion Hin. subst. auto.
    + intros (-> & Hc & Ht). apply in_or_app. right. rewrite Hc, Ht.
      right. left. reflexivity.
Qed.

Lemma report_state (O : OsLib) (to_console : bool) (s : StatusReporter.t)
    (calls : list action) :
  fst (snd (StatusReporter._report O to_console (s, calls))) = s.
Proof.
  destruct (report_run O to_console s calls) as (prints & H & _).
  rewrite H. reflexivity.
Qed.

Lemma report_on_exception_run (O : OsLib) (s : StatusReporter.t)
    (calls : list action) :
  exists acts : list action,
    StatusReporter._report_on_exception O (s, calls)
    = (Return tt, (s, (calls ++ acts)%list))
    /\ (forall rc, ~ In (Sys_exit rc) acts)
    /\ (StatusReporter.has_reason s ->
        acts = match StatusReporter.contents_of O s with
               | Some c =>
                   if PyStr.truthy (Some c)
                   then [Ensure_dir_exists
                           (dirname O (StatusReporter._status_file s));
                         Write_file (StatusReporter._status_file s) c]
                   else []
               | None => []
               end).
Proof.
  unfold StatusReporter._report_on_exception.
  destruct (report_run O false s calls) as (prints & H & _ & Hp).
  rewrite (Hp eq_refl) in H. cbn [app] in H. rewrite H. clear H Hp.
  set (writes := match StatusReporter.contents_of O s with
                 | Some c => _ | None => _ end).
  assert (Hw : forall rc, ~ In (Sys_exit rc) writes).
  { intros rc Hin. subst writes.
    destruct (StatusReporter.contents_of O s) as [c|]; [|destruct Hin].
    destruct (PyStr.truthy (Some c)); [|destruct Hin].
    destruct Hin as [Hin|[Hin|[]]]; discriminate. }
  destruct (StatusReporter.failed s) eqn:Ef.
  - destruct (StatusReporter.nonempty (StatusReporter._unsuccessful_reason s))
      eqn:En.
    + exists writes. auto.
    + exists (writes ++ [Print_exc AssertionError])%list.
      rewrite act_eq, <- app_assoc. split; [reflexivity|]. split.
      * intros rc Hin. apply in_app_or in Hin as [Hin|[Hin|[]]];
          [exact (Hw rc Hin) | discriminate].
      * intros Hs. apply Hs, nonempty_true in Ef. congruence.
  - exists writes. auto.
Qed.

Lemma report_and_exit_state (O : OsLib) (rc : Z) (s : StatusReporter.t)
    (calls : list action) :
  fst (snd (StatusReporter.report_and_exit O rc (s, calls))) = s.
Proof.
  unfold StatusReporter.report_and_exit.
  destruct (report_run O true s calls) as (prints & H & _).
  unfold bind at 1. rewrite H.
  destruct (StatusReporter.failed s);
    [destruct (StatusReporter.nonempty _)|]; try reflexivity;
    unfold bind; rewrite on_fst_eq; unfold get; cbn [fst snd];
    destruct ((StatusReporter._aborted s || _) && _); reflexivity.
Qed.

Lemma report_and_exit_run (O : OsLib) (rc : Z) (s : StatusReporter.t)
    (calls : list action) :
  StatusReporter.has_reason s ->
  exists acts : list action,
    StatusReporter.report_and_exit O rc (s, calls)
    = (Return true,
       (s, (calls ++ acts
            ++ (if (StatusReporter._aborted s || StatusReporter.failed s)
                   && StatusReporter._propagate_failure s
                then [Sys_exit rc] else []))%list))
    /\ (forall rc', ~ In (Sys_exit rc') acts).
Proof.
  intros Hs. destruct (report_returns O true s calls Hs) as (acts & H & Hx & _).
  exists acts. split; [|exact Hx].
  unfold StatusReporter.report_and_exit. unfold bind at 1. rewrite H.
  unfold bind. rewrite on_fst_eq. unfold get. cbn [fst snd].
  destruct ((StatusReporter._aborted s || _) && _).
  - rewrite act_eq, <- app_assoc. reflexivity.
  - rewrite !app_nil_r. reflexivity.
Qed.

Lemma exit_eq (O : OsLib) (exc : raised) (s : StatusReporter.t)
    (calls : list action) :
  StatusReporter.__exit__ O exc (s, calls)
  = match exc with
    | NoException => StatusReporter.report_and_exit O 1 (s, calls)
    | AbortError rc =>
        StatusReporter.report_and_exit O rc
          (StatusReporter.with__aborted true s, calls)
    | Exception (ConfigurationError msg) =>
        StatusReporter.report_and_exit O 1
          (StatusReporter.with__unsuccessful_reason
             (StatusReporter._unsuccessful_reason s
              ++ [("Jenkins configuration error: " ++ msg)%string])%list
             (StatusReporter.with_failed true s),
           (calls ++ [Print_exception (ConfigurationError msg)
                        (StatusReporter._tracebacks s)])%list)
    | Exception (BuildError msg) =>
        StatusReporter.report_and_exit O 1
          (StatusReporter.with__unsuccessful_reason
             (StatusReporter._unsuccessful_reason s ++ [msg])%list
             (StatusReporter.with_failed true s),
           (calls ++ [Print_exception (BuildError msg)
                        (StatusReporter._tracebacks s)])%list)
    | Exception e =>
        (Return false,
         snd (StatusReporter._report_on_exception O
                (StatusReporter.with__unsuccessful_reason
                   (StatusReporter._unsuccessful_reason s
                    ++ map PyStr.rstrip
                         (format_exception O e (StatusReporter._tracebacks s)))%list
                   s, calls)))
    end.
Proof.
  unfold StatusReporter.__exit__. unfold bind at 1. rewrite on_fst_eq.
  unfold get. cbn [fst snd].
  destruct exc as [|rc|e]; [reflexivity|reflexivity|].
  destruct e; try reflexivity;
    (unfold bind at 1; rewrite on_fst_eq; unfold modify; cbn [fst snd];
     unfold bind;
     match goal with
     | |- context [StatusReporter._report_on_exception O (?s', calls)] =>
         destruct (report_on_exception_run O s' calls) as (acts & -> & _)
     end; reflexivity).
Qed.

Lemma in_exit_app (calls acts : list action) (c : bool) (rc rc0 : Z) :
  (forall rc', ~ In (Sys_exit rc') acts) ->
  In (Sys_exit rc) (calls ++ acts ++ (if c then [Sys_exit rc0] else []))%list
  <-> In (Sys_exit rc) calls \/ (c = true /\ rc = rc0).
Proof.
  intros Hacts. rewrite !in_app_iff. split.
  - intros [H|[H|H]]; [left; exact H | destruct (Hacts rc H) |].
    destruct c; [|destruct H]. destruct H as [H|[]]. inversion H. auto.
  - intros [H|[-> ->]]; [left; exact H|]. right. right. left. reflexivity.
Qed.

Lemma has_reason_marked (s : StatusReporter.t) (reason : string) :
  StatusReporter.has_reason
    (StatusReporter.with__unsuccessful_reason
       (StatusReporter._unsuccessful_reason s ++ [reason])%list
       (StatusReporter.with_failed true s)).
Proof. intros _. simpl. destruct (StatusReporter._unsuccessful_reason s); discriminate. Qed.

Lemma has_reason_extended (s : StatusReporter.t) (l : list string) :
  StatusReporter.has_reason s ->
  StatusReporter.has_reason
    (StatusReporter.with__unsuccessful_reason
       (StatusReporter._unsuccessful_reason s ++ l)%list s).
Proof.
  intros Hs Hf. simpl in *. specialize (Hs Hf).
  destruct (StatusReporter._unsuccessful_reason s); [congruence|discriminate].
Qed.

(** X22.  A failed build has a reason.  This holds of a new reporter, and
    [mark_failed], [mark_unstable], [_report] and [__exit__] keep it,
    whatever they are given; and where it holds [_report] returns: the
    assertion at its end does not fail. *)
Theorem status_reporter_has_reason (O : OsLib) :
  (forall env root tb calls,
     exists self calls',
       StatusReporter.init O env root tb calls = (Return self, calls')
       /\ StatusReporter.has_reason self)
  /\ (forall reason,
        preserves (fun st => StatusReporter.has_reason (fst st))
          (StatusReporter.mark_failed reason))
  /\ (forall reason details,
        preserves (fun st => StatusReporter.has_reason (fst st))
          (StatusReporter.mark_unstable reason details))
  /\ (forall to_console,
        preserves (fun st => StatusReporter.has_reason (fst st))
          (StatusReporter._report O to_console))
  /\ (forall exc,
        preserves (fun st => StatusReporter.has_reason (fst st))
          (StatusReporter.__exit__ O exc))
  /\ (forall to_console s calls,
        StatusReporter.has_reason s ->
        fst (StatusReporter._report O to_console (s, calls)) = Return tt).
Proof.
  split; [|split; [|split; [|split; [|split]]]].
  - intros env root tb calls. eexists. eexists. split; [reflexivity|].
    intros Hf. discriminate.
  - intros reason [s calls] Hs. apply has_reason_marked.
  - intros reason details [s calls] Hs. destruct details as [l|].
    + apply (has_reason_extended s l Hs).
    + apply (has_reason_extended s [reason] Hs).
  - intros tc [s calls] Hs. rewrite report_state. exact Hs.
  - intros exc [s calls] Hs. simpl in Hs. rewrite exit_eq.
    destruct exc as [|rc|e].
    + rewrite report_and_exit_state. exact Hs.
    + rewrite report_and_exit_state. exact Hs.
    + destruct e; try (rewrite report_and_exit_state; apply has_reason_marked);
        cbn [snd fst];
        match goal with
        | |- context [StatusReporter._report_on_exception O (?s', calls)] =>
            destruct (report_on_exception_run O s' calls) as (acts & -> & _)
        end; apply has_reason_extended, Hs.
  - intros tc s calls Hs.
    destruct (report_returns O tc s calls Hs) as (acts & -> & _). reflexivity.
Qed.



(** X24.  [__exit__] ends the process only when failures are propagated,
    and then: with the return code of the [AbortError]; with 1 for a
    [ConfigurationError] or a [BuildError]; with 1 when there is no
    exception and the build was marked failed or aborted before.  For an
    exception of any other class it never does. *)
Theorem exit_code (O : OsLib) (exc : raised) (s : StatusReporter.t)
    (calls : list action) (rc : Z) :
  StatusReporter.has_reason s ->
  In (Sys_exit rc) (snd (snd (StatusReporter.__exit__ O exc (s, calls))))
  <-> In (Sys_exit rc) calls
      \/ (StatusReporter._propagate_failure s = true
          /\ match exc with
             | NoException =>
                 rc = 1%Z
                 /\ (StatusReporter._aborted s = true
                     \/ StatusReporter.failed s = true)
             | AbortError returncode => rc = returncode
             | Exception (ConfigurationError _) => rc = 1%Z
             | Exception (BuildError _) => rc = 1%Z
             | Exception _ => False
             end).
Proof.
  intros Hs. rewrite exit_eq. destruct exc as [|rc0|e].
  - destruct (report_and_exit_run O 1 s calls Hs) as (acts & -> & Hacts).
    cbn [snd]. rewrite (in_exit_app _ _ _ _ _ Hacts).
    rewrite andb_true_iff, orb_true_iff. tauto.
  - destruct (report_and_exit_run O rc0 (StatusReporter.with__aborted true s)
                calls Hs) as (acts & -> & Hacts).
    cbn [snd]. rewrite (in_exit_app _ _ _ _ _ Hacts). simpl.
    split; (intros [H|[H1 H2]]; [left; exact H | right; auto]).
  - destruct e;
      try match goal with
          | |- context [StatusReporter.report_and_exit O 1 (?s', ?c')] =>
              destruct (report_and_exit_run O 1 s' c'
                          (has_reason_marked s _)) as (acts & -> & Hacts);
              cbn [snd]; rewrite (in_exit_app _ _ _ _ _ Hacts); simpl;
              rewrite orb_true_r; simpl; rewrite in_app_iff; simpl;
              split; [intros [[H|[H|[]]]|[H1 H2]];
                        [left; exact H | discriminate | right; auto]
                     | intros [H|[H1 H2]]; [left; left; exact H | right; auto]]
          end;
      match goal with
      | |- context [StatusReporter._report_on_exception O (?s', calls)] =>
          destruct (report_on_exception_run O s' calls) as (acts & -> & Hacts & _);
          cbn [snd]; rewrite in_app_iff;
          split; [intros [H|H]; [left; exact H | destruct (Hacts rc H)]
                 | intros [H|[_ []]]; left; exact H]
      end.
Qed.

Lemma exit_code_witness :
  In (Sys_exit 3)
    (snd (snd (StatusReporter.__exit__ Ex.oslib (AbortError 3)
                 (Ex.reporter_json, []))))
  <-> In (Sys_exit 3) []
      \/ (StatusReporter._propagate_failure Ex.reporter_json = true
          /\ 3%Z = 3%Z).
Proof.
  apply (exit_code Ex.oslib (AbortError 3) Ex.reporter_json [] 3).
  intros H. discriminate.
Defined.

Lemma truthy_some (x : string) : PyStr.truthy (Some x) = true <-> x <> "".
Proof.
  simpl. rewrite negb_true_iff. apply String.eqb_neq.
Qed.

Lemma append_newline_truthy (r : string) :
  PyStr.truthy (Some (r ++ StatusReporter.newline)) = true.
Proof.
  apply truthy_some. destruct r; discriminate.
Qed.

(** X25.  What is written to a status file that is not a [.json] file:
    [_report] writes it exactly when the build is not aborted and the
    reasons, joined by line breaks, are not the empty string; the file
    then holds the joined reasons and a line break.  So nothing is written
    for a build without reasons, nor for one whose only reason is empty,
    whether it is marked failed or not. *)
Theorem plain_status_file (O : OsLib) (to_console : bool)
    (s : StatusReporter.t) (calls : list action) (p c : string) :
  snd (splitext O (StatusReporter._status_file s)) <> ".json" ->
  In (Write_file p c)
    (snd (snd (StatusReporter._report O to_console (s, calls))))
  <-> In (Write_file p c) calls
      \/ (p = StatusReporter._status_file s
          /\ StatusReporter._aborted s = false
          /\ PyStr.join StatusReporter.newline
               (StatusReporter._unsuccessful_reason s) <> ""
          /\ c = PyStr.join StatusReporter.newline
                   (StatusReporter._unsuccessful_reason s)
                 ++ StatusReporter.newline).
Proof.
  intros Hext. destruct (report_run O to_console s calls) as (prints & -> & Hp & _).
  cbn [snd]. rewrite !in_app_iff.
  assert (Hprints : ~ In (Write_file p c) prints).
  { intros Hin. rewrite Forall_forall in Hp.
    apply list_elem_of_In, Hp in Hin as [line Hl]. discriminate. }
  unfold StatusReporter.contents_of, StatusReporter.reason_of.
  apply String.eqb_neq in Hext. rewrite Hext.
  destruct (StatusReporter._aborted s) eqn:Ea; cbn [negb andb].
  - split; [intros [H|[H|[]]]; [left; exact H | contradiction]
           | intros [H|(_ & H & _)]; [left; exact H | discriminate]].
  - destruct (StatusReporter.nonempty (StatusReporter._unsuccessful_reason s))
      eqn:En.
    + set (r := PyStr.join StatusReporter.newline
                  (StatusReporter._unsuccessful_reason s)).
      destruct (PyStr.truthy (Some r)) eqn:Et.
      * rewrite append_newline_truthy. apply truthy_some in Et.
        split.
        -- intros [H|[H|[H|[H|[]]]]];
             [left; exact H | contradiction | discriminate |].
           inversion H. subst. right. auto.
        -- intros [H|(-> & _ & _ & ->)]; [left; exact H|].
           right. right. right. left. reflexivity.
      * assert (Hr : r = "").
        { destruct (decide (r = "")) as [E|E]; [exact E|].
          apply truthy_some in E. congruence. }
        split; [intros [H|[H|[]]]; [left; exact H | contradiction]
               | intros [H|(_ & _ & H & _)]; [left; exact H | contradiction]].
    + assert (Hnil : StatusReporter._unsuccessful_reason s = []).
      { destruct (StatusReporter._unsuccessful_reason s); [reflexivity|discriminate]. }
      rewrite Hnil.
      split; [intros [H|[H|[]]]; [left; exact H | contradiction]
             | intros [H|(_ & _ & H & _)]; [left; exact H | destruct H; reflexivity]].
Qed.

Lemma plain_status_file_witness :
  In (Write_file "/ws/logs/unsuccessful-reason.log" "x")
    (snd (snd (StatusReporter._report Ex.oslib true
                 (snd (StatusReporter.mark_failed "" (Ex.reporter_plain, []))))))
  <-> In (Write_file "/ws/logs/unsuccessful-reason.log" "x") []
      \/ ("/ws/logs/unsuccessful-reason.log" = "/ws/logs/unsuccessful-reason.log"
          /\ false = false
          /\ PyStr.join StatusReporter.newline [""] <> ""
          /\ "x" = PyStr.join StatusReporter.newline [""]
                   ++ StatusReporter.newline).
Proof.
  apply (plain_status_file Ex.oslib true
           (fst (snd (StatusReporter.mark_failed "" (Ex.reporter_plain, []))))
           [] "/ws/logs/unsuccessful-reason.log" "x").
  vm_compute. discriminate.
Defined.

(** X26.  An exception of a class that [__exit__] does not know makes the
    build unstable, not failed: for a build that is neither failed nor
    aborted, with a [.json] status file, [__exit__] returns [False],
    asks for the directory of the status file and writes the file once,
    with the result [UNSTABLE] and the reasons, to which it has added the
    lines of the traceback, joined by line breaks; nothing is printed and
    the process is not ended. *)
Theorem unexpected_exception_unstable (O : OsLib) (e : exn)
    (s : StatusReporter.t) (calls : list action) :
  match e with ConfigurationError _ | BuildError _ => False | _ => True end ->
  StatusReporter.failed s = false ->
  StatusReporter._aborted s = false ->
  snd (splitext O (StatusReporter._status_file s)) = ".json" ->
  format_exception O e (StatusReporter._tracebacks s) <> [] ->
  (forall output, json_dumps O output <> "") ->
  StatusReporter.__exit__ O (Exception e) (s, calls)
  = (Return false,
     (StatusReporter.with__unsuccessful_reason
        (StatusReporter._unsuccessful_reason s
         ++ map PyStr.rstrip
              (format_exception O e (StatusReporter._tracebacks s)))%list s,
      (calls
       ++ [Ensure_dir_exists (dirname O (StatusReporter._status_file s));
           Write_file (StatusReporter._status_file s)
             (json_dumps O
                ([("result", JStr "UNSTABLE");
                  ("reason",
                   JStr (PyStr.join StatusReporter.newline
                           (StatusReporter._unsuccessful_reason s
                            ++ map PyStr.rstrip
                                 (format_exception O e
                                    (StatusReporter._tracebacks s)))%list))]
                 ++ (if json_truthy (StatusReporter.return_value s)
                     then [("return_value", StatusReporter.return_value s)]
                     else []))%list)])%list)).
Proof.
  intros He Hf Ha Hext Hlines Hdumps. rewrite exit_eq.
  set (lines := map PyStr.rstrip
                  (format_exception O e (StatusReporter._tracebacks s))).
  set (s' := StatusReporter.with__unsuccessful_reason
               (StatusReporter._unsuccessful_reason s ++ lines)%list s).
  assert (Hs' : StatusReporter.has_reason s')
    by (intros H; simpl in H; congruence).
  assert (Hne : StatusReporter.nonempty
                  (StatusReporter._unsuccessful_reason s ++ lines)%list = true).
  { apply nonempty_true. subst lines. intros H.
    apply app_eq_nil in H as [_ H]. apply map_eq_nil in H. contradiction. }
  assert (Hrun : StatusReporter._report_on_exception O (s', calls)
                 = (Return tt,
                    (s', (calls
                          ++ match StatusReporter.contents_of O s' with
                             | Some c =>
                                 if PyStr.truthy (Some c)
                                 then [Ensure_dir_exists
                                         (dirname O (StatusReporter._status_file s'));
                                       Write_file (StatusReporter._status_file s') c]
                                 else []
                             | None => []
                             end)%list))).
  { destruct (report_on_exception_run O s' calls) as (acts & -> & _ & Hacts).
    rewrite (Hacts Hs'). reflexivity. }
  assert (Hc : StatusReporter.contents_of O s'
               = Some (json_dumps O
                         ([("result", JStr "UNSTABLE");
                           ("reason",
                            JStr (PyStr.join StatusReporter.newline
                                    (StatusReporter._unsuccessful_reason s
                                     ++ lines)%list))]
                          ++ (if json_truthy (StatusReporter.return_value s)
                              then [("return_value", StatusReporter.return_value s)]
                              else []))%list)).
  { unfold StatusReporter.contents_of, StatusReporter.reason_of,
      StatusReporter.result_of.
    subst s'. cbn [StatusReporter._status_file StatusReporter._aborted
                   StatusReporter.failed StatusReporter._unsuccessful_reason
                   StatusReporter.return_value
                   StatusReporter.with__unsuccessful_reason].
    rewrite Hext, Ha, Hf, Hne. cbn [negb andb String.eqb Ascii.eqb Bool.eqb].
    destruct (json_truthy (StatusReporter.return_value s)); reflexivity. }
  rewrite Hc in Hrun.
  rewrite (proj2 (truthy_some _) (Hdumps _)) in Hrun.
  destruct e; try destruct He; cbn [snd]; rewrite Hrun; reflexivity.
Qed.

Lemma unexpected_exception_unstable_witness :
  StatusReporter.__exit__ Ex.oslib (Exception (KeyError "gromacs"))
    (Ex.reporter_json, [])
  = (Return false,
     (StatusReporter.with__unsuccessful_reason
        ["Traceback"; "RuntimeError: boom"] Ex.reporter_json,
      [Ensure_dir_exists "/ws/logs";
       Write_file "/ws/logs/status.json"
         ("{result=UNSTABLE;reason=Traceback" ++ StatusReporter.newline
          ++ "RuntimeError: boom}")])).
Proof.
  apply (unexpected_exception_unstable Ex.oslib (KeyError "gromacs")
           Ex.reporter_json []).
  - exact I.
  - reflexivity.
  - reflexivity.
  - reflexivity.
  - discriminate.
  - intros output. discriminate.
Defined.
